(** * findtravel: the trip planner's budget ledger, token manager,
      location resolver, suggestion parsers and plan serialiser

    A shallow embedding of the Python sources
    ([models/travel_plan.py], [services/*.py], [ui/cli.py],
    [utils/input_utils.py]) and the properties of the specification
    settled against it.

    Conventions of the embedding.
    - Money is a Python [float] in the source; it is embedded as an exact
      rational ([Q]).  Equalities between amounts that the code computes by
      different routes are stated with [Qeq] ([==]).
    - Strings are byte strings ([string]); the text operations of Python
      ([lower], [strip], [split], [startswith], [in]) are embedded on ASCII.
    - An exception is an explicit outcome ([Raises]); a [try]/[except] of the
      source is a [match] on it.
    - Anything outside the repository (the HTTP endpoints, the geocoder, the
      language model, the user at the prompt, [float()], [strptime],
      [difflib]) is an argument of the function that uses it. *)

From Stdlib Require Import QArith Qround ZArith List String Ascii Lia Lqa Bool.
From stdpp Require Import gmap strings list fin_maps.

Local Open Scope Z_scope.

(* ===================================================================== *)
(** * Part I: the program                                                 *)
(* ===================================================================== *)

(** ** Python primitives *)

(** The outcome of a call that may raise. *)
Inductive exn : Type :=
  | ZeroDivisionError
  | ValueError
  | AttributeError
  | KeyError
  | IndexError
  | TypeError.

Inductive outcome (A : Type) : Type :=
  | Returns (a : A)
  | Raises (e : exn).
Arguments Returns {A} a.
Arguments Raises {A} e.

Definition bind {A B : Type} (m : outcome A) (k : A -> outcome B) : outcome B :=
  match m with
  | Returns a => k a
  | Raises e => Raises e
  end.

Notation "'let*' x ':=' m 'in' k" := (bind m (fun x => k))
  (at level 10, x name, m at level 100, k at level 200).

(** [try: m except: h] with a bare [except] (or [except Exception]). *)
Definition try_except {A : Type} (m : outcome A) (h : A) : A :=
  match m with
  | Returns a => a
  | Raises _ => h
  end.

(** [a / b] on floats: raises on a zero divisor. *)
Definition py_div (a b : Q) : outcome Q :=
  if Qeq_bool b 0 then Raises ZeroDivisionError else Returns (a / b)%Q.

(** [min(a, b)]: the first of the smallest arguments. *)
Definition py_min (a b : Q) : Q :=
  if Qle_bool a b then a else b.

(** [x.is_integer()] on a float. *)
Definition is_integer (x : Q) : bool :=
  Qeq_bool x (inject_Z (Qfloor x)).

(** [int(x)] on a float: truncation towards zero. *)
Definition py_int (x : Q) : Z :=
  if Qle_bool 0 x then Qfloor x else Qceiling x.

(** [list.pop(i)] for [0 <= i < len]: the element and the remaining list. *)
Fixpoint pop {A : Type} (l : list A) (i : nat) : option (A * list A) :=
  match l, i with
  | [], _ => None
  | x :: t, O => Some (x, t)
  | x :: t, S j =>
      match pop t j with
      | Some (y, t') => Some (y, x :: t')
      | None => None
      end
  end.

(** ** Python's [str] methods, on ASCII text *)

Module py_str.

Local Open Scope char_scope.

(** The characters [str.strip] and [str.split] treat as white space. *)
Definition is_space (c : ascii) : bool :=
  let n := nat_of_ascii c in
  ((n =? 32) || ((9 <=? n) && (n <=? 13)) || ((28 <=? n) && (n <=? 31)))%nat.

Definition lower_char (c : ascii) : ascii :=
  let n := nat_of_ascii c in
  if ((65 <=? n) && (n <=? 90))%nat then ascii_of_nat (n + 32) else c.

(** [s.lower()] *)
Fixpoint lower (s : string) : string :=
  match s with
  | EmptyString => EmptyString
  | String c r => String (lower_char c) (lower r)
  end.

(** [s.startswith(p)] *)
Definition startswith (s p : string) : bool := String.prefix p s.

(** [sub in s] *)
Fixpoint contains (s sub : string) : bool :=
  String.prefix sub s
  || match s with
     | EmptyString => false
     | String _ r => contains r sub
     end.

(** [s.lstrip()], [s.rstrip()], [s.strip()] *)
Fixpoint lstrip (s : string) : string :=
  match s with
  | EmptyString => EmptyString
  | String c r => if is_space c then lstrip r else s
  end.

Fixpoint rstrip (s : string) : string :=
  match s with
  | EmptyString => EmptyString
  | String c r =>
      match rstrip r with
      | EmptyString => if is_space c then EmptyString else String c EmptyString
      | r' => String c r'
      end
  end.

Definition strip (s : string) : string := rstrip (lstrip s).

(** [s.split(sep)] for a separator of one character: never empty. *)
Fixpoint split (s : string) (sep : ascii) : list string :=
  match s with
  | EmptyString => [EmptyString]
  | String c r =>
      if Ascii.eqb c sep then EmptyString :: split r sep
      else match split r sep with
           | [] => [String c EmptyString]
           | h :: t => String c h :: t
           end
  end.

(** [s.split()]: the maximal runs of characters that are not white space. *)
Fixpoint words (s : string) : list string :=
  match s with
  | EmptyString => []
  | String c r =>
      if is_space c then words r
      else match r with
           | EmptyString => [String c EmptyString]
           | String d _ =>
               if is_space d then String c EmptyString :: words r
               else match words r with
                    | [] => [String c EmptyString]
                    | h :: t => String c h :: t
                    end
           end
  end.

(** [s.replace(c, '')] for a single character [c]. *)
Fixpoint remove_char (s : string) (c : ascii) : string :=
  match s with
  | EmptyString => EmptyString
  | String d r =>
      if Ascii.eqb d c then remove_char r c else String d (remove_char r c)
  end.

(** [l[i]] for [i >= 0]: raises [IndexError] out of range. *)
Definition item {A : Type} (l : list A) (i : nat) : outcome A :=
  match nth_error l i with
  | Some x => Returns x
  | None => Raises IndexError
  end.

(** [l[-1]]: raises [IndexError] on the empty list. *)
Definition last_item {A : Type} (l : list A) : outcome A :=
  item (rev l) 0.

(** A reader of plain decimal literals ([12], [-3.50], [.5], [7.]), on
    which it agrees with [float()]; it rejects every other text.  It stands
    for [float()] where an example has to be run. *)
Definition digit (c : ascii) : option Z :=
  let n := nat_of_ascii c in
  if ((48 <=? n) && (n <=? 57))%nat then Some (Z.of_nat (n - 48)) else None.

Fixpoint digits (s : string) (acc : Z) : option Z :=
  match s with
  | EmptyString => Some acc
  | String c r =>
      match digit c with
      | Some d => digits r (10 * acc + d)
      | None => None
      end
  end.

Definition decimal (s : string) : option Q :=
  let (negative, body) :=
    match s with
    | String "-" r => (true, r)
    | String "+" r => (false, r)
    | _ => (false, s)
    end in
  let sign (q : Q) := if negative then (- q)%Q else q in
  match split body "." with
  | [i] =>
      if String.eqb i "" then None
      else match digits i 0 with
           | Some n => Some (sign (inject_Z n))
           | None => None
           end
  | [i; f] =>
      if String.eqb i "" && String.eqb f "" then None
      else match digits i 0, digits f 0 with
           | Some n, Some m =>
               let scale := 10 ^ Z.of_nat (String.length f) in
               Some (sign (Qmake (n * scale + m) (Z.to_pos scale)))
           | _, _ => None
           end
  | _ => None
  end.

End py_str.

(** ** utils/input_utils.py *)

Module input_utils.

(** The range test of [get_numeric_input]: [num < min_value or
    num > max_value] sends the user back to the prompt. *)
Definition in_range (min_value : Q) (max_value : option Q) (num : Q) : bool :=
  Qle_bool min_value num
  && match max_value with
     | Some m => Qle_bool num m
     | None => true      (* [float('inf')] *)
     end.

(** [get_numeric_input(prompt, min_value, max_value)]: the prompt repeats
    until an entry lies in the range.  [entries] are the numbers the user
    types at this prompt, in order (entries that [float()] rejects only
    repeat the prompt and are left out); the result is the first accepted
    one, [None] when the user has not typed an acceptable number, so that the
    call has not returned. *)
Fixpoint get_numeric_input (min_value : Q) (max_value : option Q)
    (entries : list Q) : option Q :=
  match entries with
  | [] => None
  | num :: rest =>
      if in_range min_value max_value num then Some num
      else get_numeric_input min_value max_value rest
  end.

End input_utils.

(** ** models/travel_plan.py *)

Module travel_plan.

(** [{'name': ..., 'iata': ...}] *)
Record Location : Type := mkLocation {
  name : option string;
  iata : option string
}.

(** [travel_plan.flights]: [{'option', 'price', 'details'}] *)
Record FlightBooking : Type := mkFlight {
  flight_option : Z;
  flight_price : Q;
  flight_details : string
}.

(** [travel_plan.hotels]: [{'option', 'price', 'nights', 'destination'}];
    the command-line fallback stores no ['destination']. *)
Record HotelBooking : Type := mkHotel {
  hotel_option : Z;
  hotel_price : Q;
  hotel_nights : Z;
  hotel_destination : option string
}.

(** An element of [travel_plan.activities]: the service stores
    [{'option', 'name', 'category', 'duration', 'price'}], the command-line
    fallback [{'option', 'price'}]. *)
Record Activity : Type := mkActivity {
  activity_option : Z;
  activity_name : option string;
  activity_category : option string;
  activity_duration : option string;
  activity_price : Q
}.

(** [class TravelPlan], once the budget has been entered. *)
Record TravelPlan : Type := mkPlan {
  total_budget : Q;
  remaining_budget : Q;
  departure : Location;
  destination : Location;
  departure_date : option string;
  return_date : option string;
  travelers : option Z;
  flights : option FlightBooking;
  hotels : option HotelBooking;
  activities : list Activity
}.

Definition set_remaining_budget (r : Q) (p : TravelPlan) : TravelPlan :=
  mkPlan (total_budget p) r (departure p) (destination p) (departure_date p)
         (return_date p) (travelers p) (flights p) (hotels p) (activities p).

Definition set_total_budget (t : Q) (p : TravelPlan) : TravelPlan :=
  mkPlan t (remaining_budget p) (departure p) (destination p) (departure_date p)
         (return_date p) (travelers p) (flights p) (hotels p) (activities p).

Definition set_flights (f : option FlightBooking) (p : TravelPlan) : TravelPlan :=
  mkPlan (total_budget p) (remaining_budget p) (departure p) (destination p)
         (departure_date p) (return_date p) (travelers p) f (hotels p)
         (activities p).

Definition set_hotels (h : option HotelBooking) (p : TravelPlan) : TravelPlan :=
  mkPlan (total_budget p) (remaining_budget p) (departure p) (destination p)
         (departure_date p) (return_date p) (travelers p) (flights p) h
         (activities p).

Definition set_activities (a : list Activity) (p : TravelPlan) : TravelPlan :=
  mkPlan (total_budget p) (remaining_budget p) (departure p) (destination p)
         (departure_date p) (return_date p) (travelers p) (flights p) (hotels p)
         a.

(** The sum accumulated in [spent] by [calculate_remaining_budget]. *)
Definition spent (p : TravelPlan) : Q :=
  let s0 := 0%Q in
  let s1 := match flights p with
            | Some f => (s0 + flight_price f)%Q
            | None => s0
            end in
  let s2 := match hotels p with
            | Some h => (s1 + hotel_price h)%Q
            | None => s1
            end in
  fold_left (fun s a => (s + activity_price a)%Q) (activities p) s2.

(** [calculate_remaining_budget]: stores and returns [total_budget - spent]. *)
Definition calculate_remaining_budget (p : TravelPlan) : TravelPlan * Q :=
  let r := (total_budget p - spent p)%Q in
  (set_remaining_budget r p, r).

(** [not s] for an [Optional[str]]: [None] and the empty string are false. *)
Definition falsy (s : option string) : bool :=
  match s with
  | None => true
  | Some s => if string_dec s "" then true else false
  end.

Section Duration.

(** [datetime.strptime(s, "%Y-%m-%d")] as the day number of the date it
    reads, [None] when it raises [ValueError]. *)
Variable strptime : string -> option Z.

(** [get_trip_duration_days] *)
Definition get_trip_duration_days (p : TravelPlan) : Z :=
  if falsy (departure_date p) || falsy (return_date p) then 0
  else
    match return_date p, departure_date p with
    | Some r, Some d =>
        match strptime r with
        | None => 0
        | Some rd =>
            match strptime d with
            | None => 0
            | Some dd => rd - dd
            end
        end
    | _, _ => 0
    end.

End Duration.

End travel_plan.

Import travel_plan.

(** ** models/travel_plan.py: the dictionary form and the plan file *)

Module plan_dict.

(** A value that [json] can store. *)
#[local] Unset Elimination Schemes.
Inductive value : Type :=
  | VNone
  | VBool (b : bool)
  | VInt (z : Z)
  | VFloat (q : Q)
  | VStr (s : string)
  | VList (l : list value)
  | VDict (d : list (string * value)).
#[local] Set Elimination Schemes.

(** A dictionary with string keys, as [json.load] builds it: its items in
    the order of insertion. *)
Definition dict : Type := list (string * value).

(** An instance of [TravelPlan] as Python holds it: the dictionary of its
    attributes, [plan.__dict__].  [setattr] may add attributes that
    [__init__] does not name. *)
Abbreviation instance := (gmap string value).

(** [attrs.update(items)]: of two items with one key the later one
    counts. *)
Definition inserted (items : dict) (attrs : instance) : instance :=
  fold_left (fun attrs item => <[fst item := snd item]> attrs) items attrs.

(** The attribute dictionary that the items of a dictionary make up. *)
Definition as_attributes (d : dict) : instance :=
  inserted d ∅.

(** [d.get(key)] *)
Definition get (d : dict) (key : string) : option value :=
  as_attributes d !! key.

(** The attributes [__init__] sets. *)
Definition field_names : list string :=
  ["total_budget"; "remaining_budget"; "departure"; "destination";
   "departure_date"; "return_date"; "travelers"; "flights"; "hotels";
   "activities"].

(** [TravelPlan()] *)
Definition init : instance :=
  <["total_budget" := VNone]>
  (<["remaining_budget" := VNone]>
  (<["departure" := VDict [("name", VNone); ("iata", VNone)]]>
  (<["destination" := VDict [("name", VNone); ("iata", VNone)]]>
  (<["departure_date" := VNone]>
  (<["return_date" := VNone]>
  (<["travelers" := VNone]>
  (<["flights" := VNone]>
  (<["hotels" := VNone]>
  (<["activities" := VList []]> ∅))))))))).

(** [self.attr]: raises [AttributeError] when the attribute is missing. *)
Definition getattr (self : instance) (attr : string) : outcome value :=
  match self !! attr with
  | Some v => Returns v
  | None => Raises AttributeError
  end.

(** The names that the class answers with a data descriptor, so that
    [setattr] does not store them in the attribute dictionary. *)
Definition descriptor_names : list string :=
  ["__class__"; "__dict__"; "__weakref__"].

(** [setattr(plan, key, value)] with a value read from JSON.  The class has
    no [__slots__] and no [__setattr__] of its own, so the attribute goes
    into [plan.__dict__], unless the name is one of [descriptor_names]:
    [__class__] wants a class and [__dict__] a dictionary ([TypeError]
    otherwise), [__weakref__] cannot be written ([AttributeError]).  A
    dictionary given for [__dict__] becomes the attribute dictionary, and
    the attributes set before are gone. *)
Definition setattr (plan : instance) (key : string) (v : value)
  : outcome instance :=
  if String.eqb key "__class__" then Raises TypeError
  else if String.eqb key "__weakref__" then Raises AttributeError
  else if String.eqb key "__dict__" then
    match v with
    | VDict d => Returns (as_attributes d)
    | _ => Raises TypeError
    end
  else Returns (<[key := v]> plan).

(** The body of [to_dict]. *)
Definition to_dict (self : instance) : outcome dict :=
  let* total_budget := getattr self "total_budget" in
  let* remaining_budget := getattr self "remaining_budget" in
  let* departure := getattr self "departure" in
  let* destination := getattr self "destination" in
  let* departure_date := getattr self "departure_date" in
  let* return_date := getattr self "return_date" in
  let* travelers := getattr self "travelers" in
  let* flights := getattr self "flights" in
  let* hotels := getattr self "hotels" in
  let* activities := getattr self "activities" in
  Returns
    [("total_budget", total_budget);
     ("remaining_budget", remaining_budget);
     ("departure", departure);
     ("destination", destination);
     ("departure_date", departure_date);
     ("return_date", return_date);
     ("travelers", travelers);
     ("flights", flights);
     ("hotels", hotels);
     ("activities", activities)].

(** The call [plan.to_dict()]: the attribute dictionary is looked up before
    the methods of the class, so an attribute [to_dict] that [setattr]
    stored hides the method, and a value read from JSON cannot be called
    ([TypeError]). *)
Definition call_to_dict (self : instance) : outcome dict :=
  match self !! "to_dict" with
  | Some _ => Raises TypeError
  | None => to_dict self
  end.

(** [for key, value in data.items(): setattr(plan, key, value)]: the first
    [setattr] that raises ends the loop. *)
Definition setattr_loop (data : dict) (plan : outcome instance)
  : outcome instance :=
  fold_left
    (fun plan item => let* plan := plan in setattr plan (fst item) (snd item))
    data plan.

(** [from_dict]: the loop on a fresh plan. *)
Definition from_dict (data : dict) : outcome instance :=
  setattr_loop data (Returns init).

(** What [open(filename, 'r')] yields. *)
Inductive file : Type :=
  | FileNotFound
  | FileText (text : string).

(** What [json.load] reads: an object, or a value of another kind. *)
Inductive document : Type :=
  | Object (data : dict)
  | Other (v : value).

Section PlanFile.

(** [json.load], [None] when it raises [JSONDecodeError]. *)
Variable json_load : string -> option document.

(** [load_from_file]: [FileNotFoundError] and [JSONDecodeError] are caught,
    and nothing else is: [data.items()] raises [AttributeError] on a
    document that is no object, and what [from_dict] raises goes on to the
    caller. *)
Definition load_from_file (f : file) : outcome (option instance) :=
  match f with
  | FileNotFound => Returns None
  | FileText text =>
      match json_load text with
      | None => Returns None
      | Some (Object data) =>
          let* plan := from_dict data in
          Returns (Some plan)
      | Some (Other _) => Raises AttributeError
      end
  end.

End PlanFile.

(** *** The attributes of a plan of the ledger model *)

Definition of_string (s : option string) : value :=
  match s with
  | Some s => VStr s
  | None => VNone
  end.

Definition of_location (l : Location) : value :=
  VDict [("name", of_string (name l)); ("iata", of_string (iata l))].

Definition of_flight (f : option FlightBooking) : value :=
  match f with
  | None => VNone
  | Some f => VDict [("option", VInt (flight_option f));
                     ("price", VFloat (flight_price f));
                     ("details", VStr (flight_details f))]
  end.

Definition of_hotel (h : option HotelBooking) : value :=
  match h with
  | None => VNone
  | Some h =>
      VDict ([("option", VInt (hotel_option h));
              ("price", VFloat (hotel_price h));
              ("nights", VInt (hotel_nights h))]
             ++ match hotel_destination h with
                | Some d => [("destination", VStr d)]
                | None => []
                end)
  end.

Definition of_activity (a : Activity) : value :=
  VDict ([("option", VInt (activity_option a))]
         ++ match activity_name a with
            | Some s => [("name", VStr s)] | None => [] end
         ++ match activity_category a with
            | Some s => [("category", VStr s)] | None => [] end
         ++ match activity_duration a with
            | Some s => [("duration", VStr s)] | None => [] end
         ++ [("price", VFloat (activity_price a))]).

Definition attributes (p : TravelPlan) : instance :=
  <["total_budget" := VFloat (total_budget p)]>
  (<["remaining_budget" := VFloat (remaining_budget p)]>
  (<["departure" := of_location (departure p)]>
  (<["destination" := of_location (destination p)]>
  (<["departure_date" := of_string (departure_date p)]>
  (<["return_date" := of_string (return_date p)]>
  (<["travelers" := match travelers p with
                    | Some n => VInt n | None => VNone end]>
  (<["flights" := of_flight (flights p)]>
  (<["hotels" := of_hotel (hotels p)]>
  (<["activities" := VList (map of_activity (activities p))]> ∅))))))))).

End plan_dict.

(** ** services/api_service.py: the token manager *)

Module api_service.

(** What one [requests.post] to the credential-exchange endpoint yields: a
    response, or a [requests.exceptions.RequestException] (a network failure,
    a timeout). *)
Inductive reply : Type :=
  | Response
      (status_code : Z)
      (retry_after : option (option Z))
        (* the [Retry-After] header: absent, or present and read by [int()],
           which raises [ValueError] ([Some None]) on a non-integer text *)
      (access_token : option string)     (* [token_data.get('access_token')] *)
      (expires_in : option Q)            (* [token_data.get('expires_in')] *)
  | RequestException.

(** [class AmadeusTokenManager] *)
Record AmadeusTokenManager : Type := mkTokenManager {
  token : option string;
  expiry_time : Q;
  max_retries : nat;
  retry_delay : Q
}.

(** [AmadeusTokenManager.__init__] *)
Definition new_token_manager : AmadeusTokenManager :=
  mkTokenManager None 0 3 2.

(** What a call leaves behind: the manager, the clock ([time.time()], moved
    on by [time.sleep]) and the number of requests sent. *)
Record token_effect : Type := mkTokenEffect {
  manager : AmadeusTokenManager;
  clock : Q;
  attempts : nat
}.

(** [time.sleep(secs)]: raises [ValueError] on a negative length. *)
Definition sleep (secs : Q) (clock : Q) : outcome Q :=
  if Qle_bool 0 secs then Returns (clock + secs)%Q else Raises ValueError.

(** [self.retry_delay * (2 ** retries)] *)
Definition backoff (tm : AmadeusTokenManager) (retries : nat) : Q :=
  (retry_delay tm * inject_Z (2 ^ Z.of_nat retries))%Q.

(** [if self.token]: a token that is neither [None] nor empty. *)
Definition truthy (t : option string) : bool :=
  match t with
  | None => false
  | Some s => if string_dec s "" then false else true
  end.

(** The [while retries < self.max_retries] loop of [get_token].  [post n]
    is the reply to the request sent after [n] earlier ones.  [fuel] bounds
    the iterations of the embedding; [None] is returned when it runs out. *)
Fixpoint retry_loop (post : nat -> reply) (fuel : nat) (retries : nat)
    (e : token_effect) : option (outcome (option string) * token_effect) :=
  match fuel with
  | O => None
  | S fuel' =>
      let tm := manager e in
      if negb (retries <? max_retries tm)%nat then Some (Returns None, e)
      else
        let e1 := mkTokenEffect tm (clock e) (S (attempts e)) in
        let again (slept : outcome Q) :=
          match slept with
          | Raises x => Some (Raises x, e1)
          | Returns c =>
              retry_loop post fuel' (S retries)
                         (mkTokenEffect tm c (attempts e1))
          end in
        match post (attempts e) with
        | Response status_code retry_after access_token expires_in =>
            if status_code =? 200 then
              let ttl := match expires_in with Some t => t | None => 1800%Q end in
              let tm' := mkTokenManager access_token (clock e + ttl)%Q
                                        (max_retries tm) (retry_delay tm) in
              Some (Returns access_token,
                    mkTokenEffect tm' (clock e) (attempts e1))
            else if status_code =? 429 then
              match retry_after with
              | Some None => Some (Raises ValueError, e1)
              | Some (Some wait_time) => again (sleep (inject_Z wait_time) (clock e))
              | None =>
                  again (sleep (inject_Z (py_int (backoff tm retries))) (clock e))
              end
            else if 500 <=? status_code then
              again (sleep (backoff tm retries) (clock e))
            else Some (Returns None, e1)          (* [break] *)
        | RequestException =>
            again (sleep (backoff tm retries) (clock e))
        end
  end.

(** [AmadeusTokenManager.get_token], called at time [now]. *)
Definition get_token (post : nat -> reply) (tm : AmadeusTokenManager) (now : Q)
    : option (outcome (option string) * token_effect) :=
  if truthy (token tm) && negb (Qle_bool (expiry_time tm - 300) now)
  then Some (Returns (token tm), mkTokenEffect tm now 0)
  else retry_loop post (S (max_retries tm)) 0 (mkTokenEffect tm now 0).

(** A reply after which the loop goes round again: a network failure, a
    server error, or a rate limit whose wait can be read and slept. *)
Definition retryable (r : reply) : bool :=
  match r with
  | RequestException => true
  | Response status_code retry_after _ _ =>
      if status_code =? 200 then false
      else if status_code =? 429 then
        match retry_after with
        | Some None => false
        | Some (Some wait_time) => 0 <=? wait_time
        | None => true
        end
      else 500 <=? status_code
  end.


(** The cached token is returned without a request. *)
Definition cached (tm : AmadeusTokenManager) (now : Q) : bool :=
  truthy (token tm) && negb (Qle_bool (expiry_time tm - 300) now).

(** *** The location resolver *)

(** An element of [data['data']] in the provider's answer; a key may be
    missing. *)
Record raw_location : Type := mkRawLocation {
  loc_name : option string;          (* [loc['name']] *)
  loc_iataCode : option string       (* [loc['iataCode']] *)
}.

(** What [requests.get] on the location search yields; [json] is
    [response.json().get('data')], which may raise, with a missing list read
    as the empty one. *)
Inductive locations_reply : Type :=
  | LocationsResponse (status_code : Z) (json : outcome (list raw_location))
  | LocationsException.

(** An element of [geocode_result[0]['address_components']]. *)
Record address_component : Type := mkComponent {
  types : list string;
  long_name : string
}.

(** What [googlemaps.Client(...).geocode(...)] yields: the address components
    of each result, or an exception. *)
Inductive geocode_reply : Type :=
  | GeocodeResult (results : list (list address_component))
  | GeocodeException.

(** The services the resolver talks to. *)
Record world : Type := mkWorld {
  post : nat -> reply;                     (* credential exchange *)
  locations : string -> locations_reply;   (* provider search, by keyword *)
  geocode : string -> geocode_reply        (* geocoder, by text *)
}.

(** [class LocationService] *)
Record LocationService : Type := mkLocationService {
  token_manager : AmadeusTokenManager;
  location_cache : gmap string Location
}.

(** [self.special_cases] *)
Definition special_cases : gmap string (string * string) :=
  <["abidjan" := ("ABJ", "Abidjan")]>
  (<["maroc" := ("CMN", "Casablanca")]>
  (<["casablanca" := ("CMN", "Casablanca")]>
  (<["kigali" := ("KGL", "Kigali")]>
  (<["nairobi" := ("NBO", "Nairobi")]>
  (<["dakar" := ("DKR", "Dakar")]> ∅))))).

(** The service together with the clock and the calls made so far. *)
Record session : Type := mkSession {
  service : LocationService;
  time : Q;
  posts : nat;          (* requests to the credential exchange *)
  gets : nat;           (* requests to the provider search *)
  geocodes : nat        (* requests to the geocoder *)
}.

Definition store (key : string) (result : Location) (s : session) : session :=
  mkSession
    (mkLocationService (token_manager (service s))
                       (<[key := result]> (location_cache (service s))))
    (time s) (posts s) (gets s) (geocodes s).

Section Resolver.

(** [difflib.SequenceMatcher(None, a, b).ratio()] *)
Variable ratio : string -> string -> Q.

(** [_find_best_match]: the first location of the greatest score. *)
Definition find_best_match (input_name : string) (locs : list raw_location)
    : outcome raw_location :=
  let input_name := py_str.lower input_name in
  let* first := py_str.item locs 0 in
  let* best :=
    fold_left
      (fun (acc : outcome (Q * raw_location)) (loc : raw_location) =>
         let* a := acc in
         match loc_name loc with
         | None => Raises KeyError
         | Some n =>
             let loc_name := py_str.lower n in
             let score := ratio input_name loc_name in
             let score := if String.eqb input_name loc_name
                          then (score + 0.5)%Q else score in
             if negb (Qle_bool score (fst a)) then Returns (score, loc)
             else Returns a
         end)
      locs (Returns (0%Q, first)) in
  Returns (snd best).

(** The provider search of [find_iata_code] with its [try]/[except]:
    the location found, if any. *)
Definition provider_search (w : world) (location_name : string)
    : option Location :=
  match locations w location_name with
  | LocationsException => None
  | LocationsResponse status_code json =>
      if status_code =? 200 then
        try_except
          (let* data := json in
           match data with
           | [] => Returns None
           | _ :: _ =>
               let* best_match := find_best_match location_name data in
               match loc_iataCode best_match, loc_name best_match with
               | Some i, Some n => Returns (Some (mkLocation (Some n) (Some i)))
               | _, _ => Raises KeyError
               end
           end)
          None
      else None
  end.

(** The first address component the fallback accepts. *)
Definition locality (components : list address_component)
    : option address_component :=
  List.find
    (fun c => existsb (String.eqb "locality") (types c)
              || existsb (String.eqb "administrative_area_level_1") (types c))
    components.

(** What the first three strategies of [find_iata_code] leave. *)
Inductive attempt : Type :=
  | Resolved (result : Location) (s : session)   (* [return result] *)
  | Unresolved (s : session)                     (* on to the fallback *)
  | Raised (e : exn) (s : session)               (* [get_token] raised *)
  | Unfinished.                                  (* the token loop ran out of fuel *)

Definition after_token (eff : token_effect) (s : session) : session :=
  mkSession (mkLocationService (manager eff) (location_cache (service s)))
            (clock eff) (posts s + attempts eff) (gets s) (geocodes s).

Definition count_get (s : session) : session :=
  mkSession (service s) (time s) (posts s) (S (gets s)) (geocodes s).

Definition count_geocode (s : session) : session :=
  mkSession (service s) (time s) (posts s) (gets s) (S (geocodes s)).

(** [find_iata_code] up to the fallback: "Check cache first", "Check special
    cases", "Try Amadeus API first". *)
Definition strategies (w : world) (s : session) (location_name : string)
    : attempt :=
let lower_input := py_str.lower location_name in
match location_cache (service s) !! lower_input with
| Some cached => Resolved cached s
| None =>
    match special_cases !! lower_input with
    | Some (code, nm) =>
        let result := mkLocation (Some nm) (Some code) in
        Resolved result (store lower_input result s)
    | None =>
        match get_token (fun n => post w (posts s + n)%nat)
                        (token_manager (service s)) (time s) with
        | None => Unfinished
        | Some (Raises e, eff) => Raised e (after_token eff s)
        | Some (Returns tok, eff) =>
            let s1 := after_token eff s in
            if truthy tok then
              match provider_search w location_name with
              | Some result =>
                  Resolved result (store lower_input result (count_get s1))
              | None => Unresolved (count_get s1)
              end
            else Unresolved s1
        end
    end
end.

(** [LocationService.find_iata_code].  [fuel] bounds the depth of the
    recursion in the embedding; [None] is returned when it runs out. *)
Fixpoint find_iata_code (fuel : nat) (w : world) (s : session)
    (location_name : string) : option (outcome (option Location) * session) :=
match fuel with
| O => None
| S fuel' =>
    match strategies w s location_name with
    | Unfinished => None
    | Resolved result s' => Some (Returns (Some result), s')
    | Raised e s' => Some (Raises e, s')
    | Unresolved s2 =>
        (* Fallback to Google Maps *)
        let s3 := count_geocode s2 in
        match geocode w location_name with
        | GeocodeException => Some (Returns None, s3)
        | GeocodeResult [] => Some (Returns None, s3)
        | GeocodeResult (components :: _) =>
            match locality components with
            | None => Some (Returns None, s3)
            | Some component =>
                let city_name := long_name component in
                (* Try again with the city name *)
                match find_iata_code fuel' w s3 city_name with
                | None => None
                | Some (Returns r, s4) => Some (Returns r, s4)
                | Some (Raises _, s4) => Some (Returns None, s4)
                end
            end
        end
    end
end.

End Resolver.

(** The cleaned name the fallback goes on with: the long name of the first
    accepted component of the geocoder's first result. *)
Definition refine (w : world) (text : string) : option string :=
  match geocode w text with
  | GeocodeResult (components :: _) =>
      match locality components with
      | Some component => Some (long_name component)
      | None => None
      end
  | _ => None
  end.


(** [cleaned_name w n text]: the name the fallback goes on with after the
    geocoder has refined [text] [n] times in a row, each time the name of the
    step before. *)
Fixpoint cleaned_name (w : world) (n : nat) (text : string) : option string :=
  match n with
  | O => Some text
  | S n' =>
      match refine w text with
      | Some city => cleaned_name w n' city
      | None => None
      end
  end.

(** [LocationService.__init__] with a fresh token manager. *)
Definition new_session (now : Q) : session :=
  mkSession (mkLocationService new_token_manager ∅) now 0 0 0.

End api_service.

(** ** services/flight_service.py: booking and search criteria *)

Module flight_service.

(** One round of the booking prompt of [search_flights], after the offers
    have been displayed.  [data] holds [float(offer['price']['total'])] of
    each offer, [details] the text of [format_flight_data].  [user_input] is
    the entry ['1'], ['2'] or ['3'] as a number; [confirm] and [modify] are
    the answers ['y'] to "Confirm booking?" and to "Would you like to increase
    your budget?"; [entries] is what is typed at "Enter new total budget".
    The result says whether the loop ends with a booking; it is [None] while
    the budget prompt is still open. *)
Definition select_option (data : list Q) (details : string) (user_input : Z)
    (confirm modify : bool) (entries : list Q) (p : TravelPlan)
    : option (TravelPlan * bool) :=
  if negb ((1 <=? user_input) && (user_input <=? 3)) then Some (p, false)
  else
    let option_index := Z.to_nat (user_input - 1) in
    match data !! option_index with
    | None => Some (p, false)
    | Some price =>
        if Qle_bool price (remaining_budget p) then
          if confirm then
            let p1 := set_flights (Some (mkFlight user_input price details)) p in
            Some (set_remaining_budget (remaining_budget p1 - price)%Q p1, true)
          else Some (p, false)
        else if modify then
          match input_utils.get_numeric_input (total_budget p) None entries with
          | None => None
          | Some new_budget =>
              let budget_increase := (new_budget - total_budget p)%Q in
              let p1 := set_total_budget new_budget p in
              Some (set_remaining_budget
                      (remaining_budget p1 + budget_increase)%Q p1, false)
          end
        else Some (p, false)
    end.

(** The menu of [_handle_no_flights_found] (also reached through
    [modify_flight_criteria]), with what the user then types. *)
Inductive criteria_choice : Type :=
  | NewDeparture (loc : Location)          (* '1' *)
  | NewDestination (loc : Location)        (* '2' *)
  | NewDates (dep ret : string)            (* '3' *)
  | NewBudget (entries : list Q)           (* '4' *)
  | ExitMenu                               (* '5' *)
  | InvalidChoice.

Definition set_departure (l : Location) (p : TravelPlan) : TravelPlan :=
  mkPlan (total_budget p) (remaining_budget p) l (destination p)
         (departure_date p) (return_date p) (travelers p) (flights p) (hotels p)
         (activities p).

Definition set_destination (l : Location) (p : TravelPlan) : TravelPlan :=
  mkPlan (total_budget p) (remaining_budget p) (departure p) l
         (departure_date p) (return_date p) (travelers p) (flights p) (hotels p)
         (activities p).

Definition set_dates (d r : option string) (p : TravelPlan) : TravelPlan :=
  mkPlan (total_budget p) (remaining_budget p) (departure p) (destination p)
         d r (travelers p) (flights p) (hotels p) (activities p).

(** [_handle_no_flights_found]: one round of its menu ([None] while the
    budget prompt is still open). *)
Definition handle_no_flights_found (choice : criteria_choice) (p : TravelPlan)
    : option TravelPlan :=
  match choice with
  | NewDeparture loc => Some (set_departure loc p)
  | NewDestination loc => Some (set_destination loc p)
  | NewDates d r => Some (set_dates (Some d) (Some r) p)
  | NewBudget entries =>
      match input_utils.get_numeric_input 100 None entries with
      | None => None
      | Some b =>
          let p1 := set_total_budget b p in
          Some (set_remaining_budget (total_budget p1) p1)
      end
  | ExitMenu => Some p
  | InvalidChoice => Some p
  end.

(** *** The provider search *)

(** The dictionary [search_amadeus_flights] returns: [{}], or the body of a
    successful answer, read as the prices of [body['data']]. *)
Inductive flight_options : Type :=
  | EmptyDict
  | Offers (data : list Q).

(** [params] of the request. *)
Record flight_params : Type := mkParams {
  originLocationCode : option string;
  destinationLocationCode : option string;
  departureDate : option string;
  returnDate : option string;
  adults : option Z;
  max : Z;
  currencyCode : string
}.

(** A request sent to the flight-offers endpoint. *)
Record request : Type := mkRequest {
  bearer : option string;      (* the token of the [Authorization] header *)
  params : flight_params
}.

(** What [requests.get] yields; [json] is [response.json()]. *)
Inductive flights_reply : Type :=
  | FlightsResponse (status_code : Z) (json : outcome flight_options)
  | FlightsException.

(** The services the search talks to: [fetch n] answers the request sent
    after [n] earlier ones. *)
Record flight_world : Type := mkFlightWorld {
  post : nat -> api_service.reply;
  fetch : nat -> flights_reply
}.

(** The part of [class FlightService] the search uses, with the clock and
    the calls made so far. *)
Record FlightService : Type := mkFlightService {
  amadeus_token_manager : api_service.AmadeusTokenManager;
  access_token : option string;
  time : Q;
  posts : nat;                 (* requests to the credential exchange *)
  refreshes : nat;             (* calls of [get_token] *)
  sent : list request          (* requests to the flight-offers endpoint *)
}.

(** [self.amadeus_token_manager.get_token()] *)
Definition refresh (w : flight_world) (fs : FlightService)
    : option (outcome (option string) * FlightService) :=
  match api_service.get_token (fun n => post w (posts fs + n)%nat)
                              (amadeus_token_manager fs) (time fs) with
  | None => None
  | Some (r, eff) =>
      Some (r, mkFlightService (api_service.manager eff) (access_token fs)
                               (api_service.clock eff)
                               (posts fs + api_service.attempts eff)
                               (S (refreshes fs)) (sent fs))
  end.

Definition set_access_token (t : option string) (fs : FlightService)
    : FlightService :=
  mkFlightService (amadeus_token_manager fs) t (time fs) (posts fs)
                  (refreshes fs) (sent fs).

(** [requests.get(url, headers=headers, params=params)] *)
Definition send (w : flight_world) (ps : flight_params) (fs : FlightService)
    : flights_reply * FlightService :=
  (fetch w (length (sent fs)),
   mkFlightService (amadeus_token_manager fs) (access_token fs) (time fs)
                   (posts fs) (refreshes fs)
                   (sent fs ++ [mkRequest (access_token fs) ps])).

(** [search_amadeus_flights]; [None] only if the token manager's loop ran
    out of fuel. *)
Definition search_amadeus_flights (w : flight_world) (fs : FlightService)
    (p : TravelPlan) : option (outcome flight_options * FlightService) :=
  (* Ensure we have valid tokens *)
  let first_token :=
    if api_service.truthy (access_token fs) then Some (Returns tt, fs)
    else match refresh w fs with
         | None => None
         | Some (Raises e, fs1) => Some (Raises e, fs1)
         | Some (Returns t, fs1) => Some (Returns tt, set_access_token t fs1)
         end in
  match first_token with
  | None => None
  | Some (Raises e, fs1) => Some (Raises e, fs1)
  | Some (Returns _, fs1) =>
      if negb (api_service.truthy (access_token fs1))
      then Some (Returns EmptyDict, fs1)
      else
        let ps := mkParams (iata (departure p)) (iata (destination p))
                           (departure_date p) (return_date p) (travelers p)
                           3 "USD" in
        match send w ps fs1 with
        | (FlightsException, fs2) => Some (Returns EmptyDict, fs2)
        | (FlightsResponse status_code json, fs2) =>
            if status_code =? 200
            then Some (Returns (try_except json EmptyDict), fs2)
            else if status_code =? 401 then
              (* Token expired, refresh and try again *)
              match refresh w fs2 with
              | None => None
              | Some (Raises _, fs3) => Some (Returns EmptyDict, fs3)
              | Some (Returns t, fs3) =>
                  let fs4 := set_access_token t fs3 in
                  if api_service.truthy t then
                    match send w ps fs4 with
                    | (FlightsException, fs5) => Some (Returns EmptyDict, fs5)
                    | (FlightsResponse status_code' json', fs5) =>
                        if status_code' =? 200
                        then Some (Returns (try_except json' EmptyDict), fs5)
                        else Some (Returns EmptyDict, fs5)
                    end
                  else Some (Returns EmptyDict, fs4)
              end
            else Some (Returns EmptyDict, fs2)
        end
  end.

(** What a reply gives the caller: the body of a successful answer, [{}]
    otherwise. *)
Definition body_of (r : flights_reply) : flight_options :=
  match r with
  | FlightsResponse status_code json =>
      if status_code =? 200 then try_except json EmptyDict else EmptyDict
  | FlightsException => EmptyDict
  end.

(** [params] as [search_amadeus_flights] builds it from the plan. *)
Definition params_of (p : TravelPlan) : flight_params :=
  mkParams (iata (departure p)) (iata (destination p))
           (departure_date p) (return_date p) (travelers p) 3 "USD".

End flight_service.

(** ** services/hotel_service.py: booking and modification *)

Module hotel_service.

Section Booking.

Variable strptime : string -> option Z.

(** [estimated_prices[option_num]] of [discuss_hotels]. *)
Definition estimated_prices (remaining : Q) (nights : Z) (option_num : Z) : Q :=
  if option_num =? 1 then py_min (remaining * 0.4) (200 * inject_Z nights)
  else if option_num =? 2 then py_min (remaining * 0.3) (150 * inject_Z nights)
  else py_min (remaining * 0.2) (100 * inject_Z nights).

(** [max_per_night] of [discuss_hotels] and of [get_hotel_suggestions]:
    [budget / nights if nights > 0 else budget]. *)
Definition max_per_night (budget : Q) (nights : Z) : outcome Q :=
  if 0 <? nights then py_div budget (inject_Z nights) else Returns budget.

(** One round of the booking prompt of [discuss_hotels], for the entries
    ['1'], ['2'], ['3'] ([choice]) and the answer to "Confirm booking?".
    The function returns at once when no flight is booked. *)
Definition discuss_hotels (choice : Z) (confirm : bool) (p : TravelPlan)
    : outcome (TravelPlan * bool) :=
  match flights p with
  | None => Returns (p, false)
  | Some _ =>
      let nights := get_trip_duration_days strptime p in
      let* _ := max_per_night (remaining_budget p) nights in
      if negb ((1 <=? choice) && (choice <=? 3)) then Returns (p, false)
      else
        let price := estimated_prices (remaining_budget p) nights choice in
        if confirm then
          if Qle_bool price (remaining_budget p) then
            let p1 := set_hotels
                        (Some (mkHotel choice price nights (name (destination p))))
                        p in
            Returns (set_remaining_budget (remaining_budget p1 - price)%Q p1, true)
          else Returns (p, false)
        else Returns (p, false)
  end.

End Booking.

(** The menu of [modify_hotel_booking]. *)
Inductive modify_choice : Type :=
  | CancelBooking                   (* '1' *)
  | AdjustNights (new_nights : Z)   (* '2', then [int(input())] *)
  | ReturnToMenu.                   (* anything else *)

(** [modify_hotel_booking], up to the point where choice ['1'] hands over to
    [discuss_hotels]. *)
Definition modify_hotel_booking (choice : modify_choice) (p : TravelPlan)
    : TravelPlan :=
  match hotels p with
  | None => p
  | Some h =>
      match choice with
      | CancelBooking =>
          let p1 := set_remaining_budget (remaining_budget p + hotel_price h)%Q p in
          set_hotels None p1
      | AdjustNights new_nights =>
          let current_nights := hotel_nights h in
          let current_price := hotel_price h in
          let price_per_night :=
            if 0 <? current_nights
            then (current_price / inject_Z current_nights)%Q else 0%Q in
          if new_nights <=? 0 then p
          else
            let new_price := (price_per_night * inject_Z new_nights)%Q in
            let price_difference := (new_price - current_price)%Q in
            if negb (Qle_bool price_difference (remaining_budget p)) then p
            else
              let p1 := set_remaining_budget
                          (remaining_budget p - price_difference)%Q p in
              set_hotels
                (Some (mkHotel (hotel_option h) new_price new_nights
                               (hotel_destination h))) p1
      | ReturnToMenu => p
      end
  end.

(** *** The suggestion parser *)

(** An element of [hotel_options]: a dictionary with the key ['option']
    and, once their lines have been seen, ['name'], ['stars'], ['location'],
    ['breakfast'], ['price'] and ['features']. *)
Record hotel_option : Type := mkOption {
  opt_number : Z;
  opt_name : option string;
  opt_stars : option string;
  opt_location : option string;
  opt_breakfast : option string;
  opt_price : option Q;
  opt_features : option string
}.

(** [{'option': k}] *)
Definition new_option (k : Z) : hotel_option :=
  mkOption k None None None None None None.

(** The header tests: [line.startswith('k.') or
    line.startswith('Option k:')], for k from 1 to 3 in turn. *)
Definition header (line : string) : option Z :=
  if py_str.startswith line "1." || py_str.startswith line "Option 1:" then Some 1
  else if py_str.startswith line "2." || py_str.startswith line "Option 2:" then Some 2
  else if py_str.startswith line "3." || py_str.startswith line "Option 3:" then Some 3
  else None.

(** [line.split(':')[-1].strip()] *)
Definition after_colon (line : string) : outcome string :=
  let* piece := py_str.last_item (py_str.split line ":") in
  Returns (py_str.strip piece).

Section Suggestions.

(** [float(text)], [None] when it raises [ValueError]. *)
Variable float : string -> option Q.

(** The body of the [try]:
    [float(line.split('$')[1].split()[0].replace(',', ''))]. *)
Definition read_price (line : string) : outcome Q :=
  let* after := py_str.item (py_str.split line "$") 1 in
  let* first := py_str.item (py_str.words after) 0 in
  let price_text := py_str.remove_char first "," in
  match float price_text with
  | Some q => Returns q
  | None => Raises ValueError
  end.

(** The estimate of the [except] branch. *)
Definition estimate (budget : Q) (c : hotel_option) : Q :=
  (budget * (if opt_number c =? 3 then 0.7
             else if opt_number c =? 2 then 0.8 else 0.9))%Q.

(** "Parse hotel details": the [if]/[elif] chain applied to the current
    option. *)
Definition details (budget : Q) (line : string) (c : hotel_option)
    : outcome hotel_option :=
  let low := py_str.lower line in
  if (match opt_name c with None => true | Some _ => false end)
     && negb (py_str.contains line ":") && (5 <? String.length line)%nat
  then Returns (mkOption (opt_number c) (Some line) (opt_stars c)
                         (opt_location c) (opt_breakfast c) (opt_price c)
                         (opt_features c))
  else if py_str.contains low "star" || py_str.contains line "⭐"
  then Returns (mkOption (opt_number c) (opt_name c) (Some line)
                         (opt_location c) (opt_breakfast c) (opt_price c)
                         (opt_features c))
  else if py_str.contains low "location" || py_str.contains low "area"
  then
    let* v := after_colon line in
    Returns (mkOption (opt_number c) (opt_name c) (opt_stars c)
                      (Some v) (opt_breakfast c) (opt_price c)
                      (opt_features c))
  else if py_str.contains low "breakfast"
  then
    let* v := after_colon line in
    Returns (mkOption (opt_number c) (opt_name c) (opt_stars c)
                      (opt_location c) (Some v) (opt_price c)
                      (opt_features c))
  else if py_str.contains low "price" || py_str.contains line "$"
  then
    let price := try_except (read_price line) (estimate budget c) in
    Returns (mkOption (opt_number c) (opt_name c) (opt_stars c)
                      (opt_location c) (opt_breakfast c) (Some price)
                      (opt_features c))
  else if py_str.contains low "feature" || py_str.contains low "selling"
          || py_str.contains line ":"
  then
    let* v := after_colon line in
    Returns (mkOption (opt_number c) (opt_name c) (opt_stars c)
                      (opt_location c) (opt_breakfast c) (opt_price c)
                      (Some v))
  else Returns c.

(** The state of the loop.  [current_option] is the very dictionary that
    was appended last to [hotel_options], so that writing to it writes to
    the list: the state keeps the options appended earlier ([closed]) and
    the last one ([current], [None] while it is still the [{}] that is in
    no list). *)
Record parser_state : Type := mkParser {
  closed : list hotel_option;
  current : option hotel_option
}.

Definition hotel_options (st : parser_state) : list hotel_option :=
  closed st ++ match current st with Some c => [c] | None => [] end.

(** One iteration of [for line in str(response).split('\n')]. *)
Definition parse_line (budget : Q) (st : parser_state) (line : string)
    : outcome parser_state :=
  let line := py_str.strip line in
  if String.eqb line "" then Returns st       (* [continue] *)
  else
    let st1 := match header line with
               | Some k => mkParser (hotel_options st) (Some (new_option k))
               | None => st
               end in
    match current st1 with
    | None => Returns st1
    | Some c =>
        let* c' := details budget line c in
        Returns (mkParser (closed st1) (Some c'))
    end.

(** [get_hotel_suggestions(destination, budget, nights)], for the text
    [response] that [self.llm.invoke(prompt)] returns. *)
Definition get_hotel_suggestions (destination : string) (budget : Q)
    (nights : Z) (response : string) : outcome (list hotel_option) :=
  let* _ := max_per_night budget nights in
  let* st :=
    fold_left
      (fun (acc : outcome parser_state) (line : string) =>
         let* st := acc in parse_line budget st line)
      (py_str.split response "010"%char)
      (Returns (mkParser [] None)) in
  Returns (hotel_options st).

End Suggestions.

End hotel_service.

(** ** services/activity_service.py: booking and removal *)

Module activity_service.

(** [activity_details[option_num]] of [discuss_activities]. *)
Definition activity_details (remaining : Q) (option_num : Z) : Activity :=
  if option_num =? 1 then
    mkActivity 1 (Some "City Tour"%string) (Some "Cultural"%string)
               (Some "Half-day"%string) (py_min (remaining * 0.15) 50)
  else if option_num =? 2 then
    mkActivity 2 (Some "Museum Visit"%string) (Some "Cultural"%string)
               (Some "Half-day"%string) (py_min (remaining * 0.10) 30)
  else if option_num =? 3 then
    mkActivity 3 (Some "Outdoor Adventure"%string) (Some "Adventure"%string)
               (Some "Full-day"%string) (py_min (remaining * 0.25) 80)
  else if option_num =? 4 then
    mkActivity 4 (Some "Local Cuisine Experience"%string)
               (Some "Culinary"%string) (Some "Half-day"%string)
               (py_min (remaining * 0.15) 60)
  else
    mkActivity 5 (Some "Evening Entertainment"%string)
               (Some "Entertainment"%string) (Some "Evening"%string)
               (py_min (remaining * 0.15) 45).

(** [daily_budget] of [discuss_activities] and of [get_activity_suggestions]:
    [budget / days if days > 0 else budget]. *)
Definition daily_budget (budget : Q) (days : Z) : outcome Q :=
  if 0 <? days then py_div budget (inject_Z days) else Returns budget.

Section Booking.

Variable strptime : string -> option Z.

(** One round of the booking prompt of [discuss_activities], for a digit
    entry between 1 and 5 ([choice]) and the answer to "Confirm booking?".
    The function returns at once when no hotel is booked. *)
Definition discuss_activities (choice : Z) (confirm : bool) (p : TravelPlan)
    : outcome (TravelPlan * bool) :=
  match hotels p with
  | None => Returns (p, false)
  | Some _ =>
      let nights := get_trip_duration_days strptime p in
      let* _ := daily_budget (remaining_budget p) nights in
      if negb ((1 <=? choice) && (choice <=? 5)) then Returns (p, false)
      else
        let selected_activity := activity_details (remaining_budget p) choice in
        let price := activity_price selected_activity in
        if confirm then
          if Qle_bool price (remaining_budget p) then
            let p1 := set_activities (activities p ++ [selected_activity]) p in
            Returns (set_remaining_budget (remaining_budget p1 - price)%Q p1, true)
          else Returns (p, false)
        else Returns (p, false)
  end.

End Booking.

(** The removal of choice ['1'] of [modify_activities], for the number
    [index] that [get_numeric_input] returned. *)
Definition remove_at (index : Q) (p : TravelPlan) : TravelPlan :=
  if negb (is_integer index)
     || negb (Qle_bool 1 index)
     || negb (Qle_bool index (inject_Z (Z.of_nat (length (activities p)))))
  then p
  else
    let index := Qfloor index in
    match pop (activities p) (Z.to_nat (index - 1)) with
    | None => p
    | Some (removed, rest) =>
        let p1 := set_activities rest p in
        set_remaining_budget (remaining_budget p1 + activity_price removed)%Q p1
    end.

(** Choice ['1'] of [modify_activities]: [entries] is what is typed at
    "Enter the number of the activity to remove" ([None] while that prompt
    is still open).  The menu is only shown when an activity is booked. *)
Definition remove_activity (entries : list Q) (p : TravelPlan)
    : option TravelPlan :=
  match activities p with
  | [] => Some p
  | _ :: _ =>
      match input_utils.get_numeric_input 0 None entries with
      | None => None
      | Some index => Some (remove_at index p)
      end
  end.

(** *** The suggestion parser *)

(** An element of [activity_options]: a dictionary with the key ['option']
    and, once their lines have been seen, ['name'], ['price'], ['duration'],
    ['value'] and ['category']. *)
Record activity_option : Type := mkOption {
  opt_number : Z;
  opt_name : option string;
  opt_price : option Q;
  opt_duration : option string;
  opt_value : option string;
  opt_category : option string
}.

(** [{'option': k}] *)
Definition new_option (k : Z) : activity_option :=
  mkOption k None None None None None.

(** The header tests: [line.startswith('k.') or
    line.startswith('Activity k:')], for k from 1 to 5 in turn. *)
Definition header (line : string) : option Z :=
  if py_str.startswith line "1." || py_str.startswith line "Activity 1:" then Some 1
  else if py_str.startswith line "2." || py_str.startswith line "Activity 2:" then Some 2
  else if py_str.startswith line "3." || py_str.startswith line "Activity 3:" then Some 3
  else if py_str.startswith line "4." || py_str.startswith line "Activity 4:" then Some 4
  else if py_str.startswith line "5." || py_str.startswith line "Activity 5:" then Some 5
  else None.

(** [line.split(':')[-1].strip()] *)
Definition after_colon (line : string) : outcome string :=
  let* piece := py_str.last_item (py_str.split line ":") in
  Returns (py_str.strip piece).

Section Suggestions.

(** [float(text)], [None] when it raises [ValueError]. *)
Variable float : string -> option Q.

(** The body of the [try]:
    [float(line.split('$')[1].split()[0].replace(',', ''))]. *)
Definition read_price (line : string) : outcome Q :=
  let* after := py_str.item (py_str.split line "$") 1 in
  let* first := py_str.item (py_str.words after) 0 in
  let price_text := py_str.remove_char first "," in
  match float price_text with
  | Some q => Returns q
  | None => Raises ValueError
  end.

(** The estimate of the [except] branch. *)
Definition estimate (daily_budget : Q) (c : activity_option) : Q :=
  (daily_budget * (0.1 * inject_Z (opt_number c)))%Q.

(** "Parse activity details": the [if]/[elif] chain applied to the
    current option. *)
Definition details (daily_budget : Q) (line : string) (c : activity_option)
    : outcome activity_option :=
  let low := py_str.lower line in
  if (match opt_name c with None => true | Some _ => false end)
     && negb (py_str.contains line ":") && (5 <? String.length line)%nat
  then Returns (mkOption (opt_number c) (Some line) (opt_price c)
                         (opt_duration c) (opt_value c) (opt_category c))
  else if py_str.contains low "cost" || py_str.contains low "price"
          || py_str.contains line "$"
  then
    let price := try_except (read_price line) (estimate daily_budget c) in
    Returns (mkOption (opt_number c) (opt_name c) (Some price)
                      (opt_duration c) (opt_value c) (opt_category c))
  else if py_str.contains low "duration" || py_str.contains low "time"
          || py_str.contains low "hour"
  then
    let* v := after_colon line in
    Returns (mkOption (opt_number c) (opt_name c) (opt_price c)
                      (Some v) (opt_value c) (opt_category c))
  else if py_str.contains low "worth" || py_str.contains low "why"
  then
    let* v := after_colon line in
    Returns (mkOption (opt_number c) (opt_name c) (opt_price c)
                      (opt_duration c) (Some v) (opt_category c))
  else if py_str.contains low "category" || py_str.contains low "type"
  then
    let* v := after_colon line in
    Returns (mkOption (opt_number c) (opt_name c) (opt_price c)
                      (opt_duration c) (opt_value c) (Some v))
  else Returns c.

(** The state of the loop.  [current_option] is the very dictionary that
    was appended last to [activity_options], so that writing to it writes
    to the list: the state keeps the options appended earlier ([closed])
    and the last one ([current], [None] while it is still the [{}] that is
    in no list). *)
Record parser_state : Type := mkParser {
  closed : list activity_option;
  current : option activity_option
}.

Definition activity_options (st : parser_state) : list activity_option :=
  closed st ++ match current st with Some c => [c] | None => [] end.

(** One iteration of [for line in str(response).split('\n')]. *)
Definition parse_line (daily_budget : Q) (st : parser_state) (line : string)
    : outcome parser_state :=
  let line := py_str.strip line in
  if String.eqb line "" then Returns st       (* [continue] *)
  else
    let st1 := match header line with
               | Some k => mkParser (activity_options st) (Some (new_option k))
               | None => st
               end in
    match current st1 with
    | None => Returns st1
    | Some c =>
        let* c' := details daily_budget line c in
        Returns (mkParser (closed st1) (Some c'))
    end.

(** [get_activity_suggestions(destination, budget, days)], for the text
    [response] that [self.llm.invoke(prompt)] returns. *)
Definition get_activity_suggestions (destination : string) (budget : Q)
    (days : Z) (response : string) : outcome (list activity_option) :=
  let* daily_budget := daily_budget budget days in
  let* st :=
    fold_left
      (fun (acc : outcome parser_state) (line : string) =>
         let* st := acc in parse_line daily_budget st line)
      (py_str.split response "010"%char)
      (Returns (mkParser [] None)) in
  Returns (activity_options st).

End Suggestions.

End activity_service.

(** ** services/api_wrappers.py: the simulated suggestions *)

Module api_wrappers.

(** An entry of the [hotels] and [activities] lists built by the
    simulators, before it is formatted as text. *)
Record suggestion : Type := mkSuggestion {
  suggestion_name : string;
  suggestion_price : Q
}.

(** [get_hotel_suggestions(destination, budget, nights, travelers)]:
    the division is not guarded. *)
Definition get_hotel_suggestions (destination : string) (budget : Q)
    (nights : Z) (travelers : option Z) : outcome (list suggestion) :=
  let* price_per_night := py_div budget (inject_Z nights * 1.5) in
  Returns
    [ mkSuggestion (destination ++ " Grand Hotel")
        (price_per_night * inject_Z nights * 0.9);
      mkSuggestion (destination ++ " Boutique Inn")
        (price_per_night * inject_Z nights * 0.75);
      mkSuggestion ("Luxury Suites " ++ destination)
        (price_per_night * inject_Z nights * 1.1) ].

(** [get_activity_suggestions(destination, budget, days)]: the division is
    not guarded. *)
Definition get_activity_suggestions (destination : string) (budget : Q)
    (days : Z) : outcome (list suggestion) :=
  let* daily_budget := py_div budget (inject_Z days) in
  Returns
    [ mkSuggestion (destination ++ " City Tour") (daily_budget * 0.2);
      mkSuggestion (destination ++ " Food Experience") (daily_budget * 0.15);
      mkSuggestion "Day Trip to Surrounding Areas" (daily_budget * 0.4);
      mkSuggestion "Local Museum Pass" (daily_budget * 0.1);
      mkSuggestion "Evening Entertainment" (daily_budget * 0.25) ].

End api_wrappers.

(** ** ui/cli.py: the budget entry of "Edit travel details" *)

Module cli.

(** Choice ['5'] of [edit_travel_details]: [confirm] is the answer ['y'] to
    the warning shown when a booking exists, [entries] what is typed at
    "New total budget" ([None] while that prompt is still open). *)
Definition edit_budget (confirm : bool) (entries : list Q) (p : TravelPlan)
    : option TravelPlan :=
  let has_booking :=
    match flights p, hotels p, activities p with
    | None, None, [] => false
    | _, _, _ => true
    end in
  if has_booking && negb confirm then Some p
  else
    let p1 := if has_booking
              then set_activities [] (set_hotels None (set_flights None p))
              else p in
    match input_utils.get_numeric_input 100 None entries with
    | None => None
    | Some b =>
        let p2 := set_total_budget b p1 in
        Some (set_remaining_budget (total_budget p2) p2)
    end.

End cli.

(** ** ui/cli.py and pui.py: the search that runs without a service *)

Module fallback.

Section Search.

Variable strptime : string -> option Z.

(** [(strptime(return_date) - strptime(departure_date)).days], as the
    command line and the chat front end compute the stay themselves. *)
Definition stay (p : TravelPlan) : outcome Z :=
  match return_date p, departure_date p with
  | Some r, Some d =>
      match strptime r, strptime d with
      | Some rd, Some dd => Returns (rd - dd)
      | _, _ => Raises ValueError
      end
  | _, _ => Raises ValueError
  end.

Definition destination_name (p : TravelPlan) : string :=
  match name (destination p) with
  | Some s => s
  | None => "None"
  end.

(** [TravelPlannerCLI.discuss_hotels] when [self.hotel_service] is [None],
    up to the display of the suggestions. *)
Definition cli_discuss_hotels (p : TravelPlan)
    : outcome (option (list api_wrappers.suggestion)) :=
  match flights p with
  | None => Returns None
  | Some _ =>
      let* nights := stay p in
      let* hotel_suggestions :=
        api_wrappers.get_hotel_suggestions (destination_name p)
          (remaining_budget p) nights (travelers p) in
      Returns (Some hotel_suggestions)
  end.

(** [TravelPlannerCLI.discuss_activities] when [self.activity_service] is
    [None], up to the display of the suggestions. *)
Definition cli_discuss_activities (p : TravelPlan)
    : outcome (option (list api_wrappers.suggestion)) :=
  match hotels p with
  | None => Returns None
  | Some _ =>
      let* days := stay p in
      let* activity_suggestions :=
        api_wrappers.get_activity_suggestions (destination_name p)
          (remaining_budget p) days in
      Returns (Some activity_suggestions)
  end.

(** [_process_hotels] of the chat front end for the entry ['yes'];
    [process_input] turns any exception into a chat message. *)
Definition pui_process_hotels (p : TravelPlan)
    : outcome (list api_wrappers.suggestion) :=
  let* nights := stay p in
  api_wrappers.get_hotel_suggestions (destination_name p)
    (remaining_budget p) nights (travelers p).

End Search.

End fallback.

(** ** The ledger and the operations of a session *)

(** The price of a booking, 0 when there is none, and the total of the
    activity prices. *)
Definition price_of_flight (f : option FlightBooking) : Q :=
  match f with Some f => flight_price f | None => 0%Q end.

Definition price_of_hotel (h : option HotelBooking) : Q :=
  match h with Some h => hotel_price h | None => 0%Q end.

Definition activities_total (l : list Activity) : Q :=
  fold_left (fun s a => s + activity_price a)%Q l 0%Q.

(** A number is a position of the list [l] when it is one of 1, ..., [length l]. *)
Definition position {A : Type} (l : list A) (index : Q) : Prop :=
  exists i : nat, (1 <= i <= length l)%nat /\ (index == inject_Z (Z.of_nat i))%Q.

Module session.

(** The ledger equation of the plan: what [calculate_remaining_budget]
    would store is what [remaining_budget] holds. *)
Definition ledger (p : TravelPlan) : Prop :=
  (remaining_budget p == total_budget p - spent p)%Q.

(** The operations of the services and of the command line that write to
    the plan's budget or bookings, with what the user types. *)
Inductive operation : Type :=
  | SelectFlight (data : list Q) (details : string) (user_input : Z)
                 (confirm modify : bool) (entries : list Q)
  | NoFlightsFound (choice : flight_service.criteria_choice)
  | DiscussHotels (choice : Z) (confirm : bool)
  | ModifyHotel (choice : hotel_service.modify_choice)
  | DiscussActivities (choice : Z) (confirm : bool)
  | RemoveActivity (entries : list Q)
  | EditBudget (confirm : bool) (entries : list Q).

Section Run.

Variable strptime : string -> option Z.

(** The plan an operation leaves ([None] while a prompt is still open). *)
Definition apply (op : operation) (p : TravelPlan) : option TravelPlan :=
  match op with
  | SelectFlight data details user_input confirm modify entries =>
      match flight_service.select_option data details user_input confirm
                                         modify entries p with
      | Some (p', _) => Some p'
      | None => None
      end
  | NoFlightsFound choice => flight_service.handle_no_flights_found choice p
  | DiscussHotels choice confirm =>
      match hotel_service.discuss_hotels strptime choice confirm p with
      | Returns (p', _) => Some p'
      | Raises _ => None
      end
  | ModifyHotel choice => Some (hotel_service.modify_hotel_booking choice p)
  | DiscussActivities choice confirm =>
      match activity_service.discuss_activities strptime choice confirm p with
      | Returns (p', _) => Some p'
      | Raises _ => None
      end
  | RemoveActivity entries => activity_service.remove_activity entries p
  | EditBudget confirm entries => cli.edit_budget confirm entries p
  end.

(** The plans a sequence of operations leaves, one after each operation. *)
Fixpoint run (ops : list operation) (p : TravelPlan) : option (list TravelPlan) :=
  match ops with
  | [] => Some []
  | op :: rest =>
      match apply op p with
      | None => None
      | Some p' =>
          match run rest p' with
          | None => None
          | Some ps => Some (p' :: ps)
          end
      end
  end.

End Run.

(** An operation that books over an existing booking of the same stage, or
    resets the budget from the flight criteria menu while a booking exists:
    the two ways in which the services write to the budget without looking
    at the bookings. *)
Definition overwrites (op : operation) (p : TravelPlan) : bool :=
  match op with
  | SelectFlight _ _ _ _ _ _ =>
      match flights p with Some _ => true | None => false end
  | DiscussHotels _ _ =>
      match hotels p with Some _ => true | None => false end
  | NoFlightsFound (flight_service.NewBudget _) =>
      match flights p, hotels p, activities p with
      | None, None, [] => false
      | _, _, _ => true
      end
  | _ => false
  end.

End session.

(** ** Properties of the parsed suggestions *)

(** The numbers of the header lines of a text, in order: what the activity
    and hotel parsers see as the start of an option. *)
Definition activity_headers (response : string) : list Z :=
  omap (fun line => activity_service.header (py_str.strip line))
       (py_str.split response "010"%char).

Definition hotel_headers (response : string) : list Z :=
  omap (fun line => hotel_service.header (py_str.strip line))
       (py_str.split response "010"%char).

(** The price of an option, when it has one, is a number [float] read or
    the estimate of the [except] branch. *)
Definition activity_price_source (float : string -> option Q) (daily_budget : Q)
    (o : activity_service.activity_option) : Prop :=
  forall q, activity_service.opt_price o = Some q ->
            (exists text, float text = Some q)
            \/ q = activity_service.estimate daily_budget o.

Definition hotel_price_source (float : string -> option Q) (budget : Q)
    (o : hotel_service.hotel_option) : Prop :=
  forall q, hotel_service.opt_price o = Some q ->
            (exists text, float text = Some q)
            \/ q = hotel_service.estimate budget o.

(** ** The options of a generated text, told from its lines *)

(** What the suggestion parsers are to make of a text, said without the
    loop: the text falls into segments, one for each header line, and the
    price of an option is told by the price lines of its segment. *)
Module option_text.

Section Segments.

(** The test for a header line of the parser at hand. *)
Variable header : string -> option Z.

(** The segment that is open, if any, as a list. *)
Definition opened (cur : option (Z * list string)) : list (Z * list string) :=
  match cur with
  | Some segment => [segment]
  | None => []
  end.

(** The segments of the lines, given the segment that is open: a header
    line closes it and opens the next one, of which it is the first line;
    another line that is not blank joins the open segment, and is dropped
    when no segment is open.  Lines count stripped. *)
Fixpoint segments_from (cur : option (Z * list string)) (lines : list string)
    : list (Z * list string) :=
  match lines with
  | [] => opened cur
  | line :: rest =>
      let line := py_str.strip line in
      if String.eqb line "" then segments_from cur rest
      else
        match header line with
        | Some k => opened cur ++ segments_from (Some (k, [line])) rest
        | None =>
            match cur with
            | Some (k, segment) =>
                segments_from (Some (k, segment ++ [line])) rest
            | None => segments_from None rest
            end
        end
  end.

(** The segments of a text: for every header line, in order, its number
    with the lines from the header line up to the next header line. *)
Definition segments (response : string) : list (Z * list string) :=
  segments_from None (py_str.split response "010"%char).

End Segments.

(** A line that can be taken as the name of an option: it has no colon and
    more than five characters. *)
Definition name_like (line : string) : bool :=
  negb (py_str.contains line ":") && (5 <? String.length line)%nat.

Section PriceLines.

(** The test for a line that tells a price, for the parser at hand. *)
Variable price_like : string -> bool.

(** The price lines of a segment: the lines that tell a price, except the
    one taken as the name, which is the first line of the segment that can
    be.  [named] says that the name has been taken already. *)
Fixpoint price_lines (named : bool) (segment : list string) : list string :=
  match segment with
  | [] => []
  | line :: rest =>
      if negb named && name_like line then price_lines true rest
      else if price_like line then line :: price_lines named rest
      else price_lines named rest
  end.

(** [float(text)], [None] when it raises [ValueError]. *)
Variable float : string -> option Q.

(** The number after the dollar sign: what [float] reads from the first
    word after the first dollar sign of the line (up to the next dollar
    sign), commas removed; [None] when the line has no dollar sign, no word
    follows it or [float] rejects the word. *)
Definition dollar_amount (line : string) : option Q :=
  match py_str.split line "$" with
  | _ :: after :: _ =>
      match py_str.words after with
      | first :: _ => float (py_str.remove_char first ",")
      | [] => None
      end
  | _ => None
  end.

(** The price the segment tells: none without a price line; otherwise that
    of the last price line, its dollar amount or else the estimate. *)
Definition told_price (estimate : Q) (segment : list string) : option Q :=
  match last (price_lines false segment) with
  | Some line =>
      Some (match dollar_amount line with
            | Some q => q
            | None => estimate
            end)
  | None => None
  end.

End PriceLines.

(** An activity line tells a price when it mentions a cost or a price or
    holds a dollar sign. *)
Definition activity_price_like (line : string) : bool :=
  py_str.contains (py_str.lower line) "cost"
  || py_str.contains (py_str.lower line) "price"
  || py_str.contains line "$".

(** The estimate for activity [k]: a tenth of the daily budget times [k]. *)
Definition activity_estimate (daily_budget : Q) (k : Z) : Q :=
  (daily_budget * (0.1 * inject_Z k))%Q.

(** A hotel line tells a price when it mentions a price or holds a dollar
    sign, and mentions no star, location, area or breakfast. *)
Definition hotel_price_like (line : string) : bool :=
  negb (py_str.contains (py_str.lower line) "star"
        || py_str.contains line "⭐")
  && negb (py_str.contains (py_str.lower line) "location"
           || py_str.contains (py_str.lower line) "area")
  && negb (py_str.contains (py_str.lower line) "breakfast")
  && (py_str.contains (py_str.lower line) "price"
      || py_str.contains line "$").

(** The estimate for hotel [k]: 0.7 of the budget for option 3, 0.8 for
    option 2 and 0.9 otherwise. *)
Definition hotel_estimate (budget : Q) (k : Z) : Q :=
  (budget * (if k =? 3 then 0.7 else if k =? 2 then 0.8 else 0.9))%Q.

(** What a segment tells of its option: the number and the price. *)
Definition told_activity (float : string -> option Q) (daily_budget : Q)
    (s : Z * list string) : Z * option Q :=
  (fst s, told_price activity_price_like float
                     (activity_estimate daily_budget (fst s)) (snd s)).

Definition told_hotel (float : string -> option Q) (budget : Q)
    (s : Z * list string) : Z * option Q :=
  (fst s, told_price hotel_price_like float
                     (hotel_estimate budget (fst s)) (snd s)).

(** What the text tells of the activities and of the hotels. *)
Definition activities (float : string -> option Q) (daily_budget : Q)
    (response : string) : list (Z * option Q) :=
  map (told_activity float daily_budget)
      (segments activity_service.header response).

Definition hotels (float : string -> option Q) (budget : Q)
    (response : string) : list (Z * option Q) :=
  map (told_hotel float budget) (segments hotel_service.header response).

End option_text.

(** The option the loop is writing to agrees with the open segment: it has
    the number of the segment and the price the segment tells so far, and
    it has a name exactly when a line of the segment could be taken as
    one. *)
Definition activity_agrees (float : string -> option Q) (daily_budget : Q)
    (c : activity_service.activity_option) (s : Z * list string) : Prop :=
  activity_service.opt_number c = fst s
  /\ activity_service.opt_price c
     = option_text.told_price option_text.activity_price_like float
         (option_text.activity_estimate daily_budget (fst s)) (snd s)
  /\ match activity_service.opt_name c with None => true | Some _ => false end
     = negb (existsb option_text.name_like (snd s)).

Definition hotel_agrees (float : string -> option Q) (budget : Q)
    (c : hotel_service.hotel_option) (s : Z * list string) : Prop :=
  hotel_service.opt_number c = fst s
  /\ hotel_service.opt_price c
     = option_text.told_price option_text.hotel_price_like float
         (option_text.hotel_estimate budget (fst s)) (snd s)
  /\ match hotel_service.opt_name c with None => true | Some _ => false end
     = negb (existsb option_text.name_like (snd s)).

(** The same for the option and the segment that may not be there yet. *)
Definition both_or_none {A B : Type} (R : A -> B -> Prop) (a : option A)
    (b : option B) : Prop :=
  match a, b with
  | Some a, Some b => R a b
  | None, None => True
  | _, _ => False
  end.

(** The number and the price of an option that a parser returns. *)
Definition activity_view (o : activity_service.activity_option)
  : Z * option Q :=
  (activity_service.opt_number o, activity_service.opt_price o).

Definition hotel_view (o : hotel_service.hotel_option) : Z * option Q :=
  (hotel_service.opt_number o, hotel_service.opt_price o).
(** ** Sample plans and replies *)

(** A plan with a flight booked at 500 out of a budget of 2000. *)
Definition flight_booked : TravelPlan :=
  mkPlan 2000 1500 (mkLocation (Some "Paris") (Some "CDG"))
         (mkLocation (Some "Casablanca") (Some "CMN"))
         (Some "2026-12-01") (Some "2026-12-08") (Some 2)
         (Some (mkFlight 1 500 "[OPTION 1] $500.00")) None [].

(** A plan with a budget of 1000 and nothing booked. *)
Definition nothing_booked : TravelPlan :=
  mkPlan 1000 1000 (mkLocation (Some "Paris") (Some "CDG"))
         (mkLocation (Some "Casablanca") (Some "CMN"))
         (Some "2026-12-01") (Some "2026-12-08") (Some 2) None None [].

(** A plan with flight and hotel booked and 600 left, and a plan whose
    remaining budget is negative. *)
Definition both_booked : TravelPlan :=
  mkPlan 2000 600 (mkLocation (Some "Paris") (Some "CDG"))
         (mkLocation (Some "Casablanca") (Some "CMN"))
         (Some "2026-12-01") (Some "2026-12-08") (Some 2)
         (Some (mkFlight 1 500 "[OPTION 1] $500.00"))
         (Some (mkHotel 2 900 7 (Some "Casablanca"))) [].

Definition overdrawn : TravelPlan :=
  mkPlan 1300 (-100) (mkLocation (Some "Paris") (Some "CDG"))
         (mkLocation (Some "Casablanca") (Some "CMN"))
         (Some "2026-12-01") (Some "2026-12-08") (Some 2)
         (Some (mkFlight 1 500 "[OPTION 1] $500.00"))
         (Some (mkHotel 2 900 7 (Some "Casablanca"))) [].

(** Three activities booked, at 50, 30 and 80. *)
Definition three_activities : TravelPlan :=
  mkPlan 2000 440 (mkLocation (Some "Paris") (Some "CDG"))
         (mkLocation (Some "Casablanca") (Some "CMN"))
         (Some "2026-12-01") (Some "2026-12-08") (Some 2)
         (Some (mkFlight 1 500 "[OPTION 1] $500.00"))
         (Some (mkHotel 2 900 7 (Some "Casablanca")))
         [ mkActivity 1 (Some "City Tour") (Some "Cultural") (Some "Half-day") 50;
           mkActivity 2 (Some "Museum Visit") (Some "Cultural") (Some "Half-day") 30;
           mkActivity 3 (Some "Outdoor Adventure") (Some "Adventure")
                      (Some "Full-day") 80 ].


(** A flight service that holds a token the provider no longer accepts: the
    first search is answered 401, the credential exchange hands out a new
    token, and the second search succeeds with one offer at 450. *)
Definition expired_world : flight_service.flight_world :=
  flight_service.mkFlightWorld
    (fun _ => api_service.Response 200 None (Some "new") (Some 1799%Q))
    (fun n => match n with
              | 0%nat => flight_service.FlightsResponse 401 (Raises ValueError)
              | _ => flight_service.FlightsResponse 200
                       (Returns (flight_service.Offers [450%Q]))
              end).

Definition expired_service : flight_service.FlightService :=
  flight_service.mkFlightService api_service.new_token_manager (Some "old")
                                 0 0 0 [].

(** The same service when the credential exchange is down. *)
Definition exchange_down : flight_service.flight_world :=
  flight_service.mkFlightWorld
    (fun _ => api_service.RequestException)
    (flight_service.fetch expired_world).

(** Worlds for the resolver.  In all of them the credential exchange is
    unreachable, so that the provider search is never sent. *)
Definition no_exchange (n : nat) : api_service.reply :=
  api_service.RequestException.

Definition refined_to (city : string) : api_service.geocode_reply :=
  api_service.GeocodeResult
    [[api_service.mkComponent ["locality"; "political"] city]].

(** The geocoder refines "a" to "b" and "b" to "c", and knows nothing else. *)
Definition chain : api_service.world :=
  api_service.mkWorld no_exchange
    (fun _ => api_service.LocationsException)
    (fun text => if String.eqb text "a" then refined_to "b"
                 else if String.eqb text "b" then refined_to "c"
                 else api_service.GeocodeResult []).

(** The text made of [n] letters x. *)
Fixpoint xs (n : nat) : string :=
  match n with
  | O => EmptyString
  | S m => String "x" (xs m)
  end.


(** The geocoder refines every text to itself. *)
Definition mirror : api_service.world :=
  api_service.mkWorld no_exchange
    (fun _ => api_service.LocationsException)
    (fun text => refined_to text).

(** The geocoder refines "Dar el Beida" to "Casablanca". *)
Definition morocco : api_service.world :=
  api_service.mkWorld no_exchange
    (fun _ => api_service.LocationsException)
    (fun text => if String.eqb text "Dar el Beida" then refined_to "Casablanca"
                 else api_service.GeocodeResult []).

(** [{'iata': 'CMN', 'name': 'Casablanca'}] *)
Definition casablanca : Location :=
  mkLocation (Some "Casablanca") (Some "CMN").

(** A string-similarity score for the examples: 1 on equal texts, else 0. *)
Definition exact_ratio (a b : string) : Q :=
  if String.eqb a b then 1%Q else 0%Q.

(** A world in which the credential exchange and the provider search work:
    the keyword "Paris" has two candidates. *)
Definition amadeus_up : api_service.world :=
  api_service.mkWorld
    (fun _ => api_service.Response 200 None (Some "token") (Some 1799%Q))
    (fun keyword =>
       if String.eqb keyword "Paris"
       then api_service.LocationsResponse 200
              (Returns [api_service.mkRawLocation (Some "PARIS ORLY") (Some "ORY");
                        api_service.mkRawLocation (Some "PARIS") (Some "PAR")])
       else api_service.LocationsResponse 200 (Returns []))
    (fun _ => api_service.GeocodeResult []).

(** A session whose cache is empty and whose token manager is the one
    [__init__] builds. *)
Definition fresh (s : api_service.session) : Prop :=
  api_service.token_manager (api_service.service s) = api_service.new_token_manager
  /\ api_service.location_cache (api_service.service s) = ∅.

(** The text of a plan file that names the travelers and an attribute
    [__init__] does not set. *)
Definition quoted (s : string) : string :=
  String (ascii_of_nat 34) s ++ String (ascii_of_nat 34) EmptyString.

Definition sample_text : string :=
  "{" ++ quoted "travelers" ++ ": 2, " ++ quoted "nickname" ++ ": "
      ++ quoted "x" ++ "}".

(** The text of a plan file whose one key is [__class__]. *)
Definition class_text : string :=
  "{" ++ quoted "__class__" ++ ": 1}".

(** A reader that knows three texts: the empty object, [sample_text] and
    [class_text]. *)
Definition sample_json_load (text : string) : option plan_dict.document :=
  if String.eqb text "{}" then Some (plan_dict.Object [])
  else if String.eqb text sample_text
  then Some (plan_dict.Object
               [("travelers", plan_dict.VInt 2);
                ("nickname", plan_dict.VStr "x")])
  else if String.eqb text class_text
  then Some (plan_dict.Object [("__class__", plan_dict.VInt 1)])
  else None.


(** ** Plans that owe nothing *)

(** A plan is solvent when its remaining budget and the prices of its hotel
    and activities, which the modification menus credit back, are not
    negative. *)
Definition solvent (p : TravelPlan) : Prop :=
  (0 <= remaining_budget p)%Q
  /\ (0 <= price_of_hotel (hotels p))%Q
  /\ Forall (fun a => (0 <= activity_price a)%Q) (activities p).

(** A reader of the two dates of the sample plans, seven days apart, and of
    the day before the first. *)
Definition december (s : string) : option Z :=
  if String.eqb s "2026-11-30" then Some (-1)
  else if String.eqb s "2026-12-01" then Some 0
  else if String.eqb s "2026-12-08" then Some 7
  else None.

(** A session on [nothing_booked]: a flight, a hotel, two activities, one of
    them removed again, the hotel cut to five nights, and a new budget. *)
Definition sample_session : list session.operation :=
  [ session.SelectFlight [300%Q; 450%Q] "[OPTION 1] $300.00" 1 true false [];
    session.DiscussHotels 2 true;
    session.DiscussActivities 3 true;
    session.DiscussActivities 1 true;
    session.RemoveActivity [1%Q];
    session.ModifyHotel (hotel_service.AdjustNights 5);
    session.NoFlightsFound flight_service.ExitMenu;
    session.EditBudget true [50%Q; 1500%Q] ].

(** ** utils/date_utils.py *)

Module date_utils.

(** [\d] on ASCII text. *)
Definition is_digit (c : ascii) : bool :=
  match py_str.digit c with
  | Some _ => true
  | None => false
  end.

(** [re.match(r'^\d{4}-\d{2}-\d{2}$', date_str)]: four digits, a hyphen, two
    digits, a hyphen, two digits, and then the end of the text, which [$]
    also finds before a last line feed. *)
Definition matches_pattern (date_str : string) : bool :=
  match date_str with
  | String y1 (String y2 (String y3 (String y4 (String h1
      (String m1 (String m2 (String h2 (String d1 (String d2 rest))))))))) =>
      is_digit y1 && is_digit y2 && is_digit y3 && is_digit y4
      && Ascii.eqb h1 "-"
      && is_digit m1 && is_digit m2
      && Ascii.eqb h2 "-"
      && is_digit d1 && is_digit d2
      && (String.eqb rest "" || String.eqb rest (String "010" ""))
  | _ => false
  end.

Section Dates.

(** [datetime.strptime(s, '%Y-%m-%d')] as the day number of the date it
    reads, [None] when it raises [ValueError]. *)
Variable strptime : string -> option Z.

(** [validate_date_format] *)
Definition validate_date_format (date_str : string) : bool :=
  if negb (matches_pattern date_str) then false
  else match strptime date_str with
       | Some _ => true
       | None => false
       end.

(** [is_future_date]; [today] is the day number of [datetime.now().date()]. *)
Definition is_future_date (today : Z) (date_str : string) : outcome bool :=
  if negb (validate_date_format date_str) then Raises ValueError
  else match strptime date_str with
       | None => Raises ValueError
       | Some date_obj => Returns (today <? date_obj)
       end.

(** [calculate_trip_duration] *)
Definition calculate_trip_duration (start_date end_date : string) : outcome Z :=
  if negb (validate_date_format start_date && validate_date_format end_date)
  then Raises ValueError
  else
    match strptime start_date, strptime end_date with
    | Some start, Some end_ =>
        if end_ <? start then Raises ValueError
        else Returns (end_ - start + 1)
    | _, _ => Raises ValueError
    end.

(** [is_valid_date_range], with its [except ValueError]. *)
Definition is_valid_date_range (today : Z) (start_date end_date : string)
    (max_days : Z) : outcome bool :=
  let body :=
    if negb (validate_date_format start_date && validate_date_format end_date)
    then Returns false
    else
      let* future := is_future_date today start_date in
      if negb future then Returns false
      else
        match strptime start_date, strptime end_date with
        | Some start, Some end_ =>
            if end_ <? start then Returns false
            else
              let duration := end_ - start + 1 in
              if max_days <? duration then Returns false else Returns true
        | _, _ => Raises ValueError
        end in
  match body with
  | Raises ValueError => Returns false
  | other => other
  end.

End Dates.

End date_utils.

(** ** utils/input_utils.py and ui/cli.py: the date prompts *)

Module date_prompt.

Section Prompts.

Variable strptime : string -> option Z.

(** The test [date_obj < strptime(bound)] that [get_date_input] makes for
    [min_date] and for [reference_date], skipped when the bound is [None] or
    empty; [strptime] raises on a bound it cannot read. *)
Definition before (bound : option string) (date_obj : Z) : outcome bool :=
  match bound with
  | None => Returns false
  | Some b =>
      if falsy bound then Returns false
      else match strptime b with
           | None => Raises ValueError
           | Some bound_obj => Returns (date_obj <? bound_obj)
           end
  end.

(** [input_utils.get_date_input(prompt, min_date, reference_date)]:
    [entries] are the lines typed at the prompt, in order; the result is
    [None] while the prompt is still open. *)
Fixpoint get_date_input (min_date reference_date : option string)
    (entries : list string) : option (outcome string) :=
  match entries with
  | [] => None
  | entry :: rest =>
      let date_str := py_str.strip entry in
      if negb (date_utils.validate_date_format strptime date_str)
      then get_date_input min_date reference_date rest
      else
        match strptime date_str with
        | None => Some (Raises ValueError)
        | Some date_obj =>
            match before min_date date_obj with
            | Raises e => Some (Raises e)
            | Returns true => get_date_input min_date reference_date rest
            | Returns false =>
                match before reference_date date_obj with
                | Raises e => Some (Raises e)
                | Returns true => get_date_input min_date reference_date rest
                | Returns false => Some (Returns date_str)
                end
            end
        end
  end.

(** [TravelPlannerCLI.get_date_input(prompt, min_date)]: here [min_date] is
    a [datetime], a day number with the time of day as its fraction, and
    the date typed counts as its midnight. *)
Fixpoint cli_get_date_input (min_date : option Q) (entries : list string)
    : option (outcome string) :=
  match entries with
  | [] => None
  | entry :: rest =>
      let date_str := py_str.strip entry in
      if negb (date_utils.validate_date_format strptime date_str)
      then cli_get_date_input min_date rest
      else
        match strptime date_str with
        | None => Some (Raises ValueError)
        | Some date_obj =>
            match min_date with
            | Some m =>
                if negb (Qle_bool m (inject_Z date_obj))
                then cli_get_date_input min_date rest
                else Some (Returns date_str)
            | None => Some (Returns date_str)
            end
        end
  end.

(** Choice ['3'] of [_handle_no_flights_found]: the two prompts and the two
    assignments; [today] is [datetime.now().strftime("%Y-%m-%d")]. *)
Definition new_travel_dates (today : string) (departures returns : list string)
    (p : TravelPlan) : option (outcome TravelPlan) :=
  match get_date_input (Some today) None departures with
  | None => None
  | Some (Raises e) => Some (Raises e)
  | Some (Returns d) =>
      let p1 := flight_service.set_dates (Some d) (return_date p) p in
      match get_date_input (Some today) (departure_date p1) returns with
      | None => None
      | Some (Raises e) => Some (Raises e)
      | Some (Returns r) =>
          Some (Returns (flight_service.set_dates (departure_date p1) (Some r) p1))
      end
  end.

(** Choice ['3'] of [edit_travel_details], and the date prompts of
    [collect_initial_details]: [now] is [datetime.now()]. *)
Definition edit_dates (now : Q) (departures returns : list string)
    (p : TravelPlan) : option (outcome TravelPlan) :=
  match cli_get_date_input (Some now) departures with
  | None => None
  | Some (Raises e) => Some (Raises e)
  | Some (Returns d) =>
      let p1 := flight_service.set_dates (Some d) (return_date p) p in
      match departure_date p1 with
      | None => Some (Raises ValueError)
      | Some d1 =>
          match strptime d1 with
          | None => Some (Raises ValueError)
          | Some departure_date_obj =>
              match cli_get_date_input (Some (inject_Z departure_date_obj))
                                       returns with
              | None => None
              | Some (Raises e) => Some (Raises e)
              | Some (Returns r) =>
                  Some (Returns (flight_service.set_dates (departure_date p1)
                                                          (Some r) p1))
              end
          end
      end
  end.

End Prompts.

End date_prompt.

(** ** Replies of the credential exchange *)

(** A reply after which [get_token] sleeps for its own back-off: a network
    failure or a server error. *)
Definition server_failure (r : api_service.reply) : bool :=
  match r with
  | api_service.RequestException => true
  | api_service.Response status_code _ _ _ =>
      negb (status_code =? 200) && negb (status_code =? 429)
      && (500 <=? status_code)
  end.

(** An exchange that always fails, and one that hands out a token for half
    an hour. *)
Definition always_down (n : nat) : api_service.reply :=
  api_service.RequestException.

Definition half_hour_token (n : nat) : api_service.reply :=
  api_service.Response 200 None (Some "token") (Some 1799%Q).

(** ** The resolver's candidates *)

(** The body of the loop of [_find_best_match], for an input name that has
    been lowered already. *)
Definition best_match_step (ratio : string -> string -> Q) (input_name : string)
    (acc : outcome (Q * api_service.raw_location))
    (loc : api_service.raw_location)
    : outcome (Q * api_service.raw_location) :=
  let* a := acc in
  match api_service.loc_name loc with
  | None => Raises KeyError
  | Some n =>
      let loc_name := py_str.lower n in
      let score := ratio input_name loc_name in
      let score := if String.eqb input_name loc_name
                   then (score + 0.5)%Q else score in
      if negb (Qle_bool score (fst a)) then Returns (score, loc)
      else Returns a
  end.

(** A location with both of its keys. *)
Definition well_formed (l : Location) : Prop :=
  (exists n, name l = Some n) /\ (exists i, iata l = Some i).

(** Three candidates for "paris": the second and the third carry the name
    itself. *)
Definition paris_candidates : list api_service.raw_location :=
  [ api_service.mkRawLocation (Some "PARIS ORLY") (Some "ORY");
    api_service.mkRawLocation (Some "Paris") (Some "PAR");
    api_service.mkRawLocation (Some "PARIS") (Some "CDG") ].

(** A cache that holds locations with both keys only. *)
Definition cache_well_formed (s : api_service.session) : Prop :=
  forall k v,
    api_service.location_cache (api_service.service s) !! k = Some v ->
    well_formed v.

(** ** What the suggestion parsers read of a text *)

(** The lines from the first header line on. *)
Fixpoint drop_preamble (header : string -> option Z) (lines : list string)
    : list string :=
  match lines with
  | [] => []
  | line :: rest =>
      match header (py_str.strip line) with
      | Some _ => lines
      | None => drop_preamble header rest
      end
  end.

(** The content of a text for a parser with the header test [header]: its
    lines without their surrounding white space, the empty ones and those
    before the first header line left out. *)
Definition content (header : string -> option Z) (response : string)
    : list string :=
  map py_str.strip
      (drop_preamble header
         (List.filter (fun line => negb (String.eqb (py_str.strip line) ""))
                      (py_str.split response "010"%char))).

(** Two answers of the language model with the same activities: one with an
    introduction, empty lines and indented lines, one without. *)
Definition chatty_answer : string :=
  String.concat (String "010" "")
    ["Here are my suggestions for Paris:"; "";
     "  1. Louvre Museum visit"; "     Cost: $25.00 per person"; "   ";
     "  2. Seine cruise"; "     Duration: 2 hours"].

Definition plain_answer : string :=
  String.concat (String "010" "")
    ["1. Louvre Museum visit"; "Cost: $25.00 per person";
     "2. Seine cruise"; "Duration: 2 hours"].

(** ** pui.py: the bookings of the chat front end *)

Module pui.

(** [{'option': num, 'price': 50 * num}] *)
Definition listed (num : Z) : Activity :=
  mkActivity num None None None (inject_Z (50 * num)).

(** [total_cost] after the first loop of [_add_activities]: the prices of
    the numbers from 1 to 5. *)
Definition total_cost (selected : list Z) : Z :=
  fold_left (fun total num =>
               if (1 <=? num) && (num <=? 5) then total + 50 * num else total)
            selected 0.

Section Chat.

Variable strptime : string -> option Z.

(** [_book_hotel] for an entry made of digits, [option] being
    [int(user_input)].  An entry outside [1, 2, 3] is answered by a message. *)
Definition book_hotel (option : Z) (p : TravelPlan)
    : outcome (TravelPlan * bool) :=
  if negb ((1 <=? option) && (option <=? 3)) then Returns (p, false)
  else
    let* nights := fallback.stay strptime p in
    let price := inject_Z (100 * option * nights) in
    if Qle_bool price (remaining_budget p) then
      let p1 := set_hotels (Some (mkHotel option price nights None)) p in
      Returns (set_remaining_budget (remaining_budget p1 - price)%Q p1, true)
    else Returns (p, false).

(** [_add_activities] for an entry other than ['done']: [selected] is the
    list [[int(num.strip()) for num in user_input.split(",")]], [None] when
    [int] raises [ValueError].  [ValueError] is caught by the function
    itself; the division by zero of the simulated suggestions is not. *)
Definition add_activities (selected : option (list Z)) (p : TravelPlan)
    : outcome (TravelPlan * bool) :=
  match selected with
  | None => Returns (p, false)
  | Some selected =>
      match fallback.stay strptime p with
      | Raises ValueError => Returns (p, false)
      | Raises e => Raises e
      | Returns days =>
          let* activities :=
            api_wrappers.get_activity_suggestions
              (fallback.destination_name p) (remaining_budget p) days in
          let total_cost := inject_Z (total_cost selected) in
          if Qle_bool total_cost (remaining_budget p) then
            let p1 := set_activities
                        (travel_plan.activities p ++ map listed selected) p in
            Returns (set_remaining_budget
                       (remaining_budget p1 - total_cost)%Q p1, true)
          else Returns (p, false)
      end
  end.

End Chat.

End pui.

(** The prices of the numbers of a selection that are no options of the
    menu. *)
Definition unlisted_cost (selected : list Z) : Z :=
  fold_left (fun total num =>
               if (1 <=? num) && (num <=? 5) then total else total + 50 * num)
            selected 0.

(** The plan [both_booked] with its dates exchanged. *)
Definition backwards : TravelPlan :=
  flight_service.set_dates (Some "2026-12-08"%string)
                           (Some "2026-12-01"%string) both_booked.

(** ** utils/location_utils.py: the resolver over the sample data *)

Module location_utils.

(** [s.upper()], [s.isalpha()] and the test [re.match(r'^[A-Z]{3}$', s)],
    on ASCII text. *)
Definition upper_char (c : ascii) : ascii :=
  let n := nat_of_ascii c in
  if ((97 <=? n) && (n <=? 122))%nat then ascii_of_nat (n - 32) else c.

Fixpoint upper (s : string) : string :=
  match s with
  | EmptyString => EmptyString
  | String c r => String (upper_char c) (upper r)
  end.

Definition is_upper_char (c : ascii) : bool :=
  let n := nat_of_ascii c in ((65 <=? n) && (n <=? 90))%nat.

Definition is_alpha_char (c : ascii) : bool :=
  let n := nat_of_ascii c in
  (((65 <=? n) && (n <=? 90)) || ((97 <=? n) && (n <=? 122)))%nat.

Fixpoint all_alpha (s : string) : bool :=
  match s with
  | EmptyString => true
  | String c r => is_alpha_char c && all_alpha r
  end.

Definition isalpha (s : string) : bool :=
  negb (String.eqb s "") && all_alpha s.

Definition matches_code (code : string) : bool :=
  match code with
  | String a (String b (String c rest)) =>
      is_upper_char a && is_upper_char b && is_upper_char c
      && (String.eqb rest "" || String.eqb rest (String "010" ""))
  | _ => false
  end.

(** The values of [_cities] and [_airports]. *)
Record city_data : Type := mkCity {
  city_name : string;
  country : string;
  population : Z
}.

Record airport_data : Type := mkAirport {
  airport_name : string;
  city : string;
  airport_iata : string
}.

(** [_init_default_data]: the dictionaries in the order of their keys. *)
Definition _cities : list (string * city_data) :=
  [ ("new york", mkCity "New York" "US" 8804190);
    ("los angeles", mkCity "Los Angeles" "US" 3898747);
    ("london", mkCity "London" "UK" 8982000);
    ("paris", mkCity "Paris" "FR" 2161000);
    ("tokyo", mkCity "Tokyo" "JP" 13960000);
    ("sydney", mkCity "Sydney" "AU" 5312000) ]%string.

Definition _airports : list (string * airport_data) :=
  [ ("JFK", mkAirport "John F. Kennedy International Airport" "new york" "JFK");
    ("LAX", mkAirport "Los Angeles International Airport" "los angeles" "LAX");
    ("LHR", mkAirport "Heathrow Airport" "london" "LHR");
    ("CDG", mkAirport "Charles de Gaulle Airport" "paris" "CDG");
    ("HND", mkAirport "Tokyo Haneda Airport" "tokyo" "HND");
    ("SYD", mkAirport "Sydney Airport" "sydney" "SYD") ]%string.

(** [d.get(key)] and [d[key] = value] on a dictionary kept in the order of
    its keys. *)
Fixpoint dict_get {A : Type} (d : list (string * A)) (key : string) : option A :=
  match d with
  | [] => None
  | (k, v) :: rest => if String.eqb k key then Some v else dict_get rest key
  end.

Fixpoint dict_set {A : Type} (d : list (string * A)) (key : string) (value : A)
    : list (string * A) :=
  match d with
  | [] => [(key, value)]
  | (k, v) :: rest =>
      if String.eqb k key then (k, value) :: rest
      else (k, v) :: dict_set rest key value
  end.

(** [LocationData.get_city], [get_airport], [get_airports_by_city] and
    [search_airports]. *)
Definition get_city (city_name : string) : option city_data :=
  dict_get _cities (py_str.strip (py_str.lower city_name)).

Definition get_airport (code : string) : option airport_data :=
  dict_get _airports (py_str.strip (upper code)).

Definition get_airports_by_city (city_name : string) : list airport_data :=
  let key := py_str.strip (py_str.lower city_name) in
  map snd (List.filter (fun entry => String.eqb (city (snd entry)) key) _airports).

Definition search_airports (query : string) : list (string * airport_data) :=
  let query := py_str.strip query in
  let results :=
    match dict_get _airports (upper query) with
    | Some airport => [(upper query, airport)]
    | None => []
    end in
  let query_lower := py_str.lower query in
  fold_left
    (fun results entry =>
       if py_str.contains (py_str.lower (airport_name (snd entry))) query_lower
       then dict_set results (fst entry) (snd entry)
       else results)
    _airports results.

(** [is_valid_city] and [is_valid_airport_code] *)
Definition is_valid_city (city_name : string) : bool :=
  if String.eqb city_name "" then false
  else
    let normalized := py_str.strip (py_str.lower city_name) in
    match dict_get _cities normalized with
    | Some _ => true
    | None => false
    end.

Definition is_valid_airport_code (code : string) : bool :=
  if String.eqb code "" then false
  else if negb (matches_code (upper code)) then false
  else match dict_get _airports (upper code) with
       | Some _ => true
       | None => false
       end.

(** What [find_iata_code] does: it returns a dictionary or [None], or it
    raises [TypeError] by subscripting the [None] of a failed lookup. *)
Inductive answer : Type :=
  | Found (name iata : string)
  | NotFound
  | TypeError.

(** "Try partial matching for cities": the loop over [_cities.items()]. *)
Fixpoint partial_match (location_name_lower : string)
    (cities : list (string * city_data)) : option answer :=
  match cities with
  | [] => None
  | (city_key, data) :: rest =>
      if py_str.contains city_key location_name_lower
         || py_str.contains location_name_lower city_key
      then match get_airports_by_city city_key with
           | first :: _ => Some (Found (city_name data) (airport_iata first))
           | [] => partial_match location_name_lower rest
           end
      else partial_match location_name_lower rest
  end.

(** The blocks of [find_iata_code], each with the dictionary it returns, if
    it returns. *)

(** "Check for direct IATA code input" *)
Definition direct_code (location_name : string) : option answer :=
  if (String.length location_name =? 3)%nat && isalpha location_name then
    let code := upper location_name in
    if is_valid_airport_code code then
      Some (match get_airport code with
            | Some airport => Found (airport_name airport) code
            | None => TypeError
            end)
    else None
  else None.

(** "Check if it's a city we know" *)
Definition known_city (location_name : string) : option answer :=
  let location_name_lower := py_str.strip (py_str.lower location_name) in
  if is_valid_city location_name then
    match get_airports_by_city location_name_lower with
    | first :: _ =>
        Some (match get_city location_name_lower with
              | Some data => Found (city_name data) (airport_iata first)
              | None => TypeError
              end)
    | [] => None
    end
  else None.

(** "Try airports directly" *)
Definition airports_directly (location_name : string) : answer :=
  match search_airports location_name with
  | (first_key, airport) :: _ =>
      Found (airport_name airport) (airport_iata airport)
  | [] => NotFound
  end.

(** [find_iata_code] *)
Definition find_iata_code (location_name : string) : answer :=
  if String.eqb location_name "" then NotFound
  else
    match direct_code location_name with
    | Some result => result
    | None =>
        match known_city location_name with
        | Some result => result
        | None =>
            let location_name_lower :=
              py_str.strip (py_str.lower location_name) in
            match partial_match location_name_lower _cities with
            | Some result => result
            | None => airports_directly location_name
            end
        end
    end.

End location_utils.

(** An answer that the tables bear out: the code is a key of [_airports],
    and the name is the name of that airport or of its city. *)
Definition from_the_tables (r : location_utils.answer) : Prop :=
  match r with
  | location_utils.Found n i =>
      exists a,
        location_utils.dict_get location_utils._airports i = Some a
        /\ location_utils.airport_iata a = i
        /\ (n = location_utils.airport_name a
            \/ exists c,
                 location_utils.dict_get location_utils._cities
                                         (location_utils.city a) = Some c
                 /\ n = location_utils.city_name c)
  | location_utils.NotFound => True
  | location_utils.TypeError => False
  end.

(** ** ui/cli.py: the location prompt and the figures of the itinerary *)

Module TravelPlannerCLI.

(** [get_location_input]: each entry is a line typed at the prompt together
    with the answer the user gives to "Did you mean the airport code", which
    is asked only for a text of three letters.  [get_text_input] strips the
    line and asks again while it is empty.  The result is [None] while the
    prompt is still open. *)
Fixpoint get_location_input (entries : list (string * string))
    : option location_utils.answer :=
  match entries with
  | [] => None
  | (line, confirm) :: rest =>
      let location := py_str.strip line in
      if String.eqb location "" then get_location_input rest
      else if (String.length location =? 3)%nat
              && location_utils.isalpha location
              && String.eqb (py_str.lower confirm) "y"
      then Some (location_utils.Found (location_utils.upper location)
                                      (location_utils.upper location))
      else
        match location_utils.find_iata_code location with
        | location_utils.NotFound => get_location_input rest
        | result => Some result
        end
  end.

(** The numbers [display_full_itinerary] prints: the total spent, its
    percentage of the budget, and the percentages of the expense breakdown
    that are shown. *)
Record figures : Type := mkFigures {
  total_spent : Q;
  percent_used : Q;
  flight_percent : option Q;
  hotel_percent : option Q;
  activity_percent : option Q
}.

(** [(cost / total_spent) * 100 if cost > 0], for a line of the breakdown. *)
Definition share (cost total_spent : Q) : outcome (option Q) :=
  if negb (Qle_bool cost 0) then
    let* ratio := py_div cost total_spent in
    Returns (Some (ratio * 100)%Q)
  else Returns None.

(** [display_full_itinerary], as far as it computes. *)
Definition display_full_itinerary (p : TravelPlan) : outcome figures :=
  let flight_cost := price_of_flight (flights p) in
  let hotel_cost := price_of_hotel (hotels p) in
  let activity_cost := activities_total (activities p) in
  let total_spent := (flight_cost + hotel_cost + activity_cost)%Q in
  let* percent_used :=
    if negb (Qle_bool (total_budget p) 0) then
      let* ratio := py_div total_spent (total_budget p) in
      Returns (ratio * 100)%Q
    else Returns 0%Q in
  if negb (Qle_bool total_spent 0) then
    let* flight_percent := share flight_cost total_spent in
    let* hotel_percent := share hotel_cost total_spent in
    let* activity_percent := share activity_cost total_spent in
    Returns (mkFigures total_spent percent_used flight_percent hotel_percent
                       activity_percent)
  else Returns (mkFigures total_spent percent_used None None None).

End TravelPlannerCLI.

(** A percentage that is shown, 0 for a line that is left out. *)
Definition shown (percent : option Q) : Q :=
  match percent with
  | Some x => x
  | None => 0%Q
  end.
(* ===================================================================== *)
(** * Part II: the properties                                             *)
(* ===================================================================== *)

(** ** Arithmetic on amounts *)

Lemma Qle_bool_false (a b : Q) : Qle_bool a b = false <-> (b < a)%Q.
Proof.
  split; intro H.
  - apply Qnot_le_lt. intro Hle. apply Qle_bool_iff in Hle. congruence.
  - destruct (Qle_bool a b) eqn:E; [|reflexivity].
    apply Qle_bool_iff in E. exfalso. apply (Qlt_not_le _ _ H E).
Qed.

Lemma fold_prices (l : list Activity) (s : Q) :
  (fold_left (fun s a => s + activity_price a) l s
   == s + fold_left (fun s a => s + activity_price a) l 0)%Q.
Proof.
  revert s. induction l as [|a l IH]; intro s; simpl.
  - ring.
  - rewrite IH. rewrite (IH (0 + activity_price a)%Q). ring.
Qed.

Lemma activities_total_app (l : list Activity) (a : Activity) :
  (activities_total (l ++ [a]) == activities_total l + activity_price a)%Q.
Proof.
  unfold activities_total. rewrite fold_left_app. simpl. reflexivity.
Qed.

Lemma activities_total_cons (a : Activity) (l : list Activity) :
  (activities_total (a :: l) == activity_price a + activities_total l)%Q.
Proof.
  unfold activities_total. simpl. rewrite fold_prices. ring.
Qed.

(** [spent] is the flight price, if set, plus the hotel price, if set, plus
    the activity prices. *)
Lemma spent_sum (p : TravelPlan) :
  (spent p == price_of_flight (flights p) + price_of_hotel (hotels p)
              + activities_total (activities p))%Q.
Proof.
  unfold spent, activities_total.
  rewrite fold_prices.
  destruct (flights p), (hotels p); simpl; ring.
Qed.

Lemma ledger_sum (p : TravelPlan) :
  session.ledger p <->
  (remaining_budget p == total_budget p - price_of_flight (flights p)
                         - price_of_hotel (hotels p)
                         - activities_total (activities p))%Q.
Proof.
  unfold session.ledger. rewrite spent_sum. split; intro H; rewrite H; ring.
Qed.

Lemma pop_total (l : list Activity) (i : nat) (a : Activity) (rest : list Activity) :
  pop l i = Some (a, rest) ->
  (activities_total l == activities_total rest + activity_price a)%Q.
Proof.
  revert i a rest. induction l as [|x l IH]; intros i a rest H; simpl in H.
  - discriminate.
  - destruct i as [|j].
    + injection H as -> ->. rewrite activities_total_cons. ring.
    + destruct (pop l j) as [[y t']|] eqn:E; [|discriminate].
      injection H as -> <-.
      rewrite !activities_total_cons, (IH _ _ _ E). ring.
Qed.

(** ** The ledger (C1) *)

(** C1.  The ledger equation does not survive the budget entry of the flight
    criteria menu: on a plan whose ledger is balanced, with a flight booked
    at 500, entering a new budget of 1000 in [_handle_no_flights_found]
    leaves the flight booked and sets both budgets to 1000, where the
    equation asks for a remaining budget of 500.  The budget entry of
    [edit_travel_details] clears the bookings first and keeps the equation. *)
Theorem C1_no_flights_budget_unbalances_ledger :
  session.ledger flight_booked
  /\ (exists p',
        flight_service.handle_no_flights_found
          (flight_service.NewBudget [1000%Q]) flight_booked = Some p'
        /\ flights p' = flights flight_booked
        /\ total_budget p' = 1000%Q
        /\ remaining_budget p' = 1000%Q
        /\ (total_budget p' - spent p' == 500)%Q
        /\ ~ session.ledger p')
  /\ (exists p'',
        cli.edit_budget true [1000%Q] flight_booked = Some p''
        /\ flights p'' = None
        /\ session.ledger p'').
Proof.
  split; [|split].
  - reflexivity.
  - eexists. split; [reflexivity|].
    repeat split; try reflexivity.
    intro H. discriminate H.
  - eexists. split; [reflexivity|]. split; reflexivity.
Qed.

(** Booking a second flight over a first one debits the new price without
    crediting the old one. *)
Lemma second_flight_unbalances_ledger :
  exists p',
    flight_service.select_option [300%Q] "[OPTION 1] $300.00" 1 true false []
                                 flight_booked = Some (p', true)
    /\ remaining_budget p' = (1500 - 300)%Q
    /\ ~ session.ledger p'.
Proof.
  eexists. split; [reflexivity|]. split; [reflexivity|].
  intro H. discriminate H.
Qed.

Section Preservation.

Variable strptime : string -> option Z.

Ltac close_ledger :=
  match goal with
  | H : Some _ = Some _ |- _ => injection H as <-
  | H : Returns _ = Returns _ |- _ => injection H as <-
  end;
  apply ledger_sum; simpl in *; rewrite ?activities_total_app; simpl; lra.

(** Every operation that does not write over a booking keeps the ledger
    equation. *)
Lemma apply_keeps_ledger (op : session.operation) (p p' : TravelPlan) :
  session.overwrites op p = false ->
  session.ledger p ->
  session.apply strptime op p = Some p' ->
  session.ledger p'.
Proof.
  intros Hover Hl Happ. apply ledger_sum in Hl.
  destruct op as [data details k confirm modify entries | choice
                 | choice confirm | choice | choice confirm | entries
                 | confirm entries]; simpl in Happ, Hover.
  - (* SelectFlight *)
    unfold flight_service.select_option in Happ.
    destruct p as [tb rb dep dst dd rd tr fl ho ac]; simpl in *.
    destruct fl; [discriminate|].
    destruct (negb _); [close_ledger|].
    destruct (data !! _) as [price|]; [|close_ledger].
    destruct (Qle_bool price rb).
    + destruct confirm; close_ledger.
    + destruct modify; [|close_ledger].
      destruct (input_utils.get_numeric_input _ _ _) as [nb|]; [|discriminate].
      close_ledger.
  - (* NoFlightsFound *)
    destruct p as [tb rb dep dst dd rd tr fl ho ac]; simpl in *.
    destruct choice as [loc|loc|d r|es| |]; simpl in Happ; try close_ledger.
    destruct (input_utils.get_numeric_input _ _ _) as [b|]; [|discriminate].
    destruct fl, ho, ac; try discriminate.
    injection Happ as <-. apply ledger_sum. unfold activities_total. simpl. lra.
  - (* DiscussHotels *)
    unfold hotel_service.discuss_hotels in Happ.
    destruct (hotel_service.max_per_night _ _);
      destruct p as [tb rb dep dst dd rd tr fl ho ac]; simpl in *;
      destruct ho; try discriminate; destruct fl; simpl in Happ;
      try discriminate; try close_ledger.
    destruct (negb _); [close_ledger|].
    destruct confirm; [|close_ledger].
    destruct (Qle_bool _ _); close_ledger.
  - (* ModifyHotel *)
    unfold hotel_service.modify_hotel_booking in Happ.
    destruct p as [tb rb dep dst dd rd tr fl ho ac]; simpl in *.
    destruct ho as [h|]; [|close_ledger].
    destruct choice as [|n|]; try close_ledger.
    destruct (n <=? 0); [close_ledger|].
    destruct (negb _); close_ledger.
  - (* DiscussActivities *)
    unfold activity_service.discuss_activities in Happ.
    destruct (activity_service.daily_budget _ _);
      destruct p as [tb rb dep dst dd rd tr fl ho ac]; simpl in *;
      destruct ho; simpl in Happ; try discriminate; try close_ledger.
    destruct (negb _); [close_ledger|].
    destruct confirm; [|close_ledger].
    destruct (Qle_bool _ _); close_ledger.
  - (* RemoveActivity *)
    unfold activity_service.remove_activity in Happ.
    destruct (activities p) eqn:Ea;
      [injection Happ as <-; apply ledger_sum; rewrite Ea; lra|].
    rewrite <- Ea in *.
    destruct (input_utils.get_numeric_input _ _ _) as [index|]; [|discriminate].
    injection Happ as <-. unfold activity_service.remove_at.
    destruct (_ || _); [apply ledger_sum; lra|].
    destruct (pop _ _) as [[removed rest]|] eqn:Ep; [|apply ledger_sum; lra].
    apply ledger_sum. simpl. rewrite (pop_total _ _ _ _ Ep) in Hl. lra.
  - (* EditBudget *)
    unfold cli.edit_budget in Happ.
    destruct p as [tb rb dep dst dd rd tr fl ho ac]; simpl in *.
    destruct (_ && _); [close_ledger|].
    destruct (input_utils.get_numeric_input _ _ _) as [b|]; [|discriminate].
    injection Happ as <-.
    destruct fl, ho, ac; apply ledger_sum; unfold activities_total; simpl; lra.
Qed.

(** Along a session in which no operation writes over a booking, the
    ledger equation holds after every operation. *)
Lemma run_keeps_ledger (ops : list session.operation) :
  forall (p : TravelPlan) (ps : list TravelPlan),
    session.ledger p ->
    session.run strptime ops p = Some ps ->
    Forall2 (fun op q => session.overwrites op q = false) ops (p :: removelast ps) ->
    Forall session.ledger ps.
Proof.
  induction ops as [|op ops IH]; intros p ps Hl Hrun Hsafe; simpl in Hrun.
  - injection Hrun as <-. constructor.
  - destruct (session.apply strptime op p) as [p'|] eqn:Ea; [|discriminate].
    destruct (session.run strptime ops p') as [ps'|] eqn:Er; [|discriminate].
    injection Hrun as <-.
    inversion Hsafe as [|? ? ? ? Hop Hrest]; subst.
    assert (Hl' : session.ledger p') by (eapply apply_keeps_ledger; eauto).
    constructor; [assumption|].
    destruct ops as [|op' ops'].
    + simpl in Er. injection Er as <-. constructor.
    + apply (IH p' ps' Hl' Er).
      simpl in Er.
      destruct (session.apply strptime op' p'); [|discriminate].
      destruct (session.run strptime ops' t); [|discriminate].
      injection Er as <-. exact Hrest.
Qed.

End Preservation.

(** ** The guarded divisions *)

Lemma py_div_returns (a b : Q) :
  ~ (b == 0)%Q -> py_div a b = Returns (a / b)%Q.
Proof.
  intro H. unfold py_div.
  destruct (Qeq_bool b 0) eqn:E; [|reflexivity].
  apply Qeq_bool_iff in E. contradiction.
Qed.

Lemma inject_Z_pos_nonzero (n : Z) : 0 < n -> ~ (inject_Z n == 0)%Q.
Proof.
  intros Hn H. unfold Qeq in H. simpl in H. lia.
Qed.

(** [budget / nights if nights > 0 else budget] never raises. *)
Lemma max_per_night_returns (budget : Q) (nights : Z) :
  hotel_service.max_per_night budget nights
  = Returns (if 0 <? nights then (budget / inject_Z nights)%Q else budget).
Proof.
  unfold hotel_service.max_per_night.
  destruct (0 <? nights) eqn:E; [|reflexivity].
  apply py_div_returns, inject_Z_pos_nonzero. lia.
Qed.

Lemma daily_budget_returns (budget : Q) (days : Z) :
  activity_service.daily_budget budget days
  = Returns (if 0 <? days then (budget / inject_Z days)%Q else budget).
Proof.
  unfold activity_service.daily_budget.
  destruct (0 <? days) eqn:E; [|reflexivity].
  apply py_div_returns, inject_Z_pos_nonzero. lia.
Qed.

(** ** The budget gate (C2) *)

(** C2, as stated, fails on the flight path: an offer at 1500 against a
    remaining budget of 1000 is not booked, but the user who accepts the
    offer to increase the budget and enters 2000 leaves the prompt with both
    budgets at 2000. *)
Lemma C2_rejected_flight_can_raise_budget :
  (remaining_budget nothing_booked < 1500)%Q
  /\ exists p',
       flight_service.select_option [1500%Q] "[OPTION 1] $1500.00" 1 false true
                                    [2000%Q] nothing_booked = Some (p', false)
       /\ flights p' = None
       /\ total_budget p' = 2000%Q
       /\ remaining_budget p' = 2000%Q
       /\ ~ (total_budget p' == total_budget nothing_booked)%Q
       /\ ~ (remaining_budget p' == remaining_budget nothing_booked)%Q.
Proof.
  split; [reflexivity|].
  eexists. split; [reflexivity|].
  repeat split; try reflexivity; intro H; discriminate H.
Qed.

Lemma in_menu (k n : Z) : 1 <= k <= n -> negb ((1 <=? k) && (k <=? n)) = false.
Proof.
  intros [H1 H2].
  apply Z.leb_le in H1. apply Z.leb_le in H2. rewrite H1, H2. reflexivity.
Qed.

Section BudgetGate.

Variable strptime : string -> option Z.

(** The flight prompt of [search_flights]. *)
Lemma flight_gate (p : TravelPlan) (data : list Q) (details : string) (k : Z)
    (price : Q) (confirm modify : bool) (entries : list Q) :
  1 <= k <= 3 ->
  data !! Z.to_nat (k - 1) = Some price ->
  ((remaining_budget p < price)%Q ->
     (modify = false ->
        flight_service.select_option data details k confirm modify entries p
        = Some (p, false))
     /\ (forall r,
           flight_service.select_option data details k confirm modify entries p
           = Some r ->
           snd r = false
           /\ flights (fst r) = flights p
           /\ hotels (fst r) = hotels p
           /\ activities (fst r) = activities p
           /\ (total_budget p <= total_budget (fst r))%Q
           /\ (remaining_budget (fst r) - remaining_budget p
               == total_budget (fst r) - total_budget p)%Q))
  /\ ((price <= remaining_budget p)%Q ->
        exists p',
          flight_service.select_option data details k true modify entries p
          = Some (p', true)
          /\ flights p' = Some (mkFlight k price details)
          /\ remaining_budget p' = (remaining_budget p - price)%Q
          /\ total_budget p' = total_budget p
          /\ hotels p' = hotels p
          /\ activities p' = activities p).
Proof.
  intros Hk Hd. unfold flight_service.select_option.
  rewrite (in_menu k 3 Hk), Hd. split.
  - intro Hlt. apply Qle_bool_false in Hlt. rewrite Hlt. split.
    + intros ->. reflexivity.
    + intros r Hr. destruct modify.
      * destruct (input_utils.get_numeric_input _ _ _) as [nb|] eqn:En;
          [|discriminate].
        injection Hr as <-. simpl. repeat split; try reflexivity.
        -- clear - En. induction entries as [|e es IH]; simpl in En; [discriminate|].
           destruct (input_utils.in_range _ _ e) eqn:Er.
           ++ injection En as <-. unfold input_utils.in_range in Er.
              apply andb_true_iff in Er as [Er _].
              apply Qle_bool_iff in Er. exact Er.
           ++ apply IH, En.
        -- ring.
      * injection Hr as <-. simpl. repeat split; try reflexivity.
        -- apply Qle_refl.
        -- ring.
  - intro Hle. apply Qle_bool_iff in Hle. rewrite Hle.
    eexists. split; [reflexivity|]. repeat split.
Qed.

(** The hotel prompt of [discuss_hotels]. *)
Lemma hotel_gate (p : TravelPlan) (choice : Z) (f : FlightBooking) :
  1 <= choice <= 3 ->
  flights p = Some f ->
  let nights := get_trip_duration_days strptime p in
  let price := hotel_service.estimated_prices (remaining_budget p) nights choice in
  ((remaining_budget p < price)%Q ->
     forall confirm,
       hotel_service.discuss_hotels strptime choice confirm p = Returns (p, false))
  /\ ((price <= remaining_budget p)%Q ->
        exists p',
          hotel_service.discuss_hotels strptime choice true p = Returns (p', true)
          /\ hotels p' = Some (mkHotel choice price nights (name (destination p)))
          /\ remaining_budget p' = (remaining_budget p - price)%Q
          /\ total_budget p' = total_budget p
          /\ flights p' = flights p
          /\ activities p' = activities p).
Proof.
  intros Hk Hf nights price. unfold hotel_service.discuss_hotels.
  rewrite Hf, max_per_night_returns. simpl. rewrite (in_menu choice 3 Hk).
  fold nights. fold price. split.
  - intros Hlt confirm. apply Qle_bool_false in Hlt. rewrite Hlt.
    destruct confirm; reflexivity.
  - intro Hle. apply Qle_bool_iff in Hle. rewrite Hle.
    eexists. split; [reflexivity|]. repeat split. simpl. exact Hf.
Qed.

(** The activity prompt of [discuss_activities]. *)
Lemma activity_gate (p : TravelPlan) (choice : Z) (h : HotelBooking) :
  1 <= choice <= 5 ->
  hotels p = Some h ->
  let selected := activity_service.activity_details (remaining_budget p) choice in
  ((remaining_budget p < activity_price selected)%Q ->
     forall confirm,
       activity_service.discuss_activities strptime choice confirm p
       = Returns (p, false))
  /\ ((activity_price selected <= remaining_budget p)%Q ->
        exists p',
          activity_service.discuss_activities strptime choice true p
          = Returns (p', true)
          /\ activities p' = activities p ++ [selected]
          /\ remaining_budget p' = (remaining_budget p - activity_price selected)%Q
          /\ total_budget p' = total_budget p
          /\ flights p' = flights p
          /\ hotels p' = hotels p).
Proof.
  intros Hk Hh selected. unfold activity_service.discuss_activities.
  rewrite Hh, daily_budget_returns. simpl. rewrite (in_menu choice 5 Hk).
  fold selected. split.
  - intros Hlt confirm. apply Qle_bool_false in Hlt. rewrite Hlt.
    destruct confirm; reflexivity.
  - intro Hle. apply Qle_bool_iff in Hle. rewrite Hle.
    eexists. split; [reflexivity|]. repeat split. simpl. exact Hh.
Qed.

(** C2 (amended).  At the flight, hotel and activity prompts, an option
    whose price is strictly greater than [remaining_budget] is not booked:
    the booking fields do not change, and neither budget changes, except
    when the user accepts the flight prompt's offer to increase the budget,
    which raises [total_budget] and [remaining_budget] by the same
    non-negative amount.  A confirmed option whose price is at most
    [remaining_budget] (equality included) is booked and debits
    [remaining_budget] by exactly its price. *)
Theorem C2_budget_gate (p : TravelPlan) :
  (forall data details k price confirm modify entries,
     1 <= k <= 3 ->
     data !! Z.to_nat (k - 1) = Some price ->
     ((remaining_budget p < price)%Q ->
        (modify = false ->
           flight_service.select_option data details k confirm modify entries p
           = Some (p, false))
        /\ (forall r,
              flight_service.select_option data details k confirm modify
                                           entries p = Some r ->
              snd r = false
              /\ flights (fst r) = flights p
              /\ hotels (fst r) = hotels p
              /\ activities (fst r) = activities p
              /\ (total_budget p <= total_budget (fst r))%Q
              /\ (remaining_budget (fst r) - remaining_budget p
                  == total_budget (fst r) - total_budget p)%Q))
     /\ ((price <= remaining_budget p)%Q ->
           exists p',
             flight_service.select_option data details k true modify entries p
             = Some (p', true)
             /\ flights p' = Some (mkFlight k price details)
             /\ remaining_budget p' = (remaining_budget p - price)%Q
             /\ total_budget p' = total_budget p
             /\ hotels p' = hotels p
             /\ activities p' = activities p))
  /\ (forall choice f,
        1 <= choice <= 3 ->
        flights p = Some f ->
        let nights := get_trip_duration_days strptime p in
        let price :=
          hotel_service.estimated_prices (remaining_budget p) nights choice in
        ((remaining_budget p < price)%Q ->
           forall confirm,
             hotel_service.discuss_hotels strptime choice confirm p
             = Returns (p, false))
        /\ ((price <= remaining_budget p)%Q ->
              exists p',
                hotel_service.discuss_hotels strptime choice true p
                = Returns (p', true)
                /\ hotels p'
                   = Some (mkHotel choice price nights (name (destination p)))
                /\ remaining_budget p' = (remaining_budget p - price)%Q
                /\ total_budget p' = total_budget p
                /\ flights p' = flights p
                /\ activities p' = activities p))
  /\ (forall choice h,
        1 <= choice <= 5 ->
        hotels p = Some h ->
        let selected :=
          activity_service.activity_details (remaining_budget p) choice in
        ((remaining_budget p < activity_price selected)%Q ->
           forall confirm,
             activity_service.discuss_activities strptime choice confirm p
             = Returns (p, false))
        /\ ((activity_price selected <= remaining_budget p)%Q ->
              exists p',
                activity_service.discuss_activities strptime choice true p
                = Returns (p', true)
                /\ activities p' = activities p ++ [selected]
                /\ remaining_budget p'
                   = (remaining_budget p - activity_price selected)%Q
                /\ total_budget p' = total_budget p
                /\ flights p' = flights p
                /\ hotels p' = hotels p)).
Proof.
  split; [|split].
  - intros. apply flight_gate; assumption.
  - intros choice f Hk Hf. exact (hotel_gate p choice f Hk Hf).
  - intros choice h Hk Hh. exact (activity_gate p choice h Hk Hh).
Qed.

End BudgetGate.

(** The gate at work: on [both_booked] a flight at exactly the 600 left is
    booked and one at 601 is not; on [overdrawn] hotels and activities are
    refused. *)
Lemma C2_budget_gate_witness :
  (* a flight at exactly the remaining budget is booked *)
  (exists p',
     flight_service.select_option [600%Q] "[OPTION 1] $600.00" 1 true false []
                                  both_booked = Some (p', true)
     /\ remaining_budget p' = (600 - 600)%Q)
  (* a flight above it is not *)
  /\ flight_service.select_option [601%Q] "[OPTION 1] $601.00" 1 true false []
                                  both_booked = Some (both_booked, false)
  (* hotels and activities within the budget are booked *)
  /\ (exists p',
        hotel_service.discuss_hotels (fun _ => Some 0) 1 true both_booked
        = Returns (p', true))
  /\ (exists p',
        activity_service.discuss_activities (fun _ => Some 0) 1 true both_booked
        = Returns (p', true))
  (* and rejected on an overdrawn plan *)
  /\ hotel_service.discuss_hotels (fun _ => Some 0) 1 true overdrawn
     = Returns (overdrawn, false)
  /\ activity_service.discuss_activities (fun _ => Some 0) 1 true overdrawn
     = Returns (overdrawn, false).
Proof.
  destruct (C2_budget_gate (fun _ => Some 0) both_booked) as (Hf & Hh & Ha).
  destruct (C2_budget_gate (fun _ => Some 0) overdrawn) as (_ & Hh' & Ha').
  split; [|split; [|split; [|split; [|split]]]].
  - destruct (Hf [600%Q] "[OPTION 1] $600.00"%string 1 600%Q true false []
                 ltac:(lia) eq_refl) as [_ Hok].
    destruct (Hok ltac:(apply Qle_refl)) as (p' & H1 & _ & H3 & _).
    exists p'. split; assumption.
  - destruct (Hf [601%Q] "[OPTION 1] $601.00"%string 1 601%Q true false []
                 ltac:(lia) eq_refl) as [Hno _].
    destruct (Hno eq_refl) as [Hsame _]. exact (Hsame eq_refl).
  - destruct (Hh 1 (mkFlight 1 500 "[OPTION 1] $500.00") ltac:(lia) eq_refl)
      as [_ Hok].
    destruct (Hok ltac:(vm_compute; discriminate)) as (p' & H1 & _).
    exists p'. exact H1.
  - destruct (Ha 1 (mkHotel 2 900 7 (Some "Casablanca"%string)) ltac:(lia) eq_refl)
      as [_ Hok].
    destruct (Hok ltac:(vm_compute; discriminate)) as (p' & H1 & _).
    exists p'. exact H1.
  - destruct (Hh' 1 (mkFlight 1 500 "[OPTION 1] $500.00") ltac:(lia) eq_refl)
      as [Hno _].
    exact (Hno eq_refl true).
  - destruct (Ha' 1 (mkHotel 2 900 7 (Some "Casablanca"%string)) ltac:(lia) eq_refl)
      as [Hno _].
    exact (Hno eq_refl true).
Defined.

(** ** Removing an activity (C10) *)

Lemma pop_lookup {A : Type} (l : list A) (i : nat) :
  pop l i = match l !! i with
            | Some a => Some (a, take i l ++ drop (S i) l)
            | None => None
            end.
Proof.
  revert i. induction l as [|x l IH]; intro i; simpl.
  - destruct i; reflexivity.
  - destruct i as [|j]; simpl.
    + rewrite drop_0. reflexivity.
    + rewrite IH. destruct (l !! j); reflexivity.
Qed.

Lemma is_integer_inject_Z (index : Q) (z : Z) :
  (index == inject_Z z)%Q -> is_integer index = true /\ Qfloor index = z.
Proof.
  intro H. assert (Hf : Qfloor index = z).
  { rewrite (Qfloor_comp _ _ H). apply Qfloor_Z. }
  split; [|exact Hf].
  unfold is_integer. rewrite Hf. apply Qeq_bool_iff. exact H.
Qed.

Lemma is_integer_floor (index : Q) :
  is_integer index = true -> (index == inject_Z (Qfloor index))%Q.
Proof.
  unfold is_integer. intro H. apply Qeq_bool_iff in H. exact H.
Qed.

Lemma remove_at_invalid (p : TravelPlan) (index : Q) :
  ~ position (activities p) index -> activity_service.remove_at index p = p.
Proof.
  intro Hinv. unfold activity_service.remove_at.
  destruct (is_integer index) eqn:Ei; [|reflexivity].
  destruct (Qle_bool 1 index) eqn:E1; [|reflexivity].
  destruct (Qle_bool index _) eqn:E2; [|reflexivity].
  exfalso. apply Hinv.
  apply is_integer_floor in Ei.
  apply Qle_bool_iff in E1, E2.
  rewrite Ei in E1, E2.
  rewrite <- (Zle_Qle 1) in E1. rewrite <- Zle_Qle in E2.
  exists (Z.to_nat (Qfloor index)). split; [lia|].
  rewrite Z2Nat.id by lia. exact Ei.
Qed.

(** C10.  With [n] activities booked, removing the activity at a position
    [i] between 1 and [n] credits [remaining_budget] by exactly the price of
    that activity, removes that element and keeps the others in their order,
    and leaves [total_budget], the flight and hotel bookings, the dates, the
    travelers and the locations as they were; a number that is not such a
    position (out of range or not an integer) changes nothing, whether the
    prompt refuses it or the menu rejects it. *)
Theorem C10_remove_activity (p : TravelPlan) :
  (forall (i : nat) (index : Q) (rest : list Q),
     (1 <= i <= length (activities p))%nat ->
     (index == inject_Z (Z.of_nat i))%Q ->
     exists removed p',
       activities p !! (i - 1)%nat = Some removed
       /\ activity_service.remove_activity (index :: rest) p = Some p'
       /\ remaining_budget p' = (remaining_budget p + activity_price removed)%Q
       /\ activities p' = take (i - 1) (activities p) ++ drop i (activities p)
       /\ total_budget p' = total_budget p
       /\ flights p' = flights p
       /\ hotels p' = hotels p
       /\ departure_date p' = departure_date p
       /\ return_date p' = return_date p
       /\ travelers p' = travelers p
       /\ departure p' = departure p
       /\ destination p' = destination p)
  /\ (forall (index : Q) (rest : list Q),
        ~ position (activities p) index ->
        activity_service.remove_activity (index :: rest) p = Some p
        \/ activity_service.remove_activity (index :: rest) p
           = activity_service.remove_activity rest p).
Proof.
  split.
  - intros i index rest Hi Hindex.
    destruct (is_integer_inject_Z _ _ Hindex) as [Hint Hfloor].
    destruct (lookup_lt_is_Some_2 (activities p) (i - 1)%nat ltac:(lia))
      as [removed Hrem].
    exists removed.
    unfold activity_service.remove_activity.
    destruct (activities p) as [|a0 l0] eqn:Ea; [simpl in Hi; lia|].
    rewrite <- Ea in *.
    assert (Hin : input_utils.in_range 0 None index = true).
    { unfold input_utils.in_range. rewrite andb_true_r.
      apply Qle_bool_iff. rewrite Hindex.
      rewrite <- (Zle_Qle 0). lia. }
    simpl. rewrite Hin.
    unfold activity_service.remove_at. rewrite Hint, Hfloor.
    assert (H1 : Qle_bool 1 index = true).
    { apply Qle_bool_iff. rewrite Hindex. rewrite <- (Zle_Qle 1). lia. }
    assert (H2 : Qle_bool index (inject_Z (Z.of_nat (length (activities p)))) = true).
    { apply Qle_bool_iff. rewrite Hindex. rewrite <- Zle_Qle. lia. }
    rewrite H1, H2. simpl.
    replace (Z.to_nat (Z.of_nat i - 1)) with (i - 1)%nat by lia.
    rewrite pop_lookup, Hrem.
    replace (S (i - 1)) with i by lia.
    eexists. split; [reflexivity|]. split; [reflexivity|]. repeat split.
  - intros index rest Hinv.
    unfold activity_service.remove_activity.
    destruct (activities p) as [|a0 l0] eqn:Ea; [left; reflexivity|].
    rewrite <- Ea in *. simpl.
    destruct (input_utils.in_range 0 None index).
    + left. rewrite (remove_at_invalid p index Hinv). reflexivity.
    + right. reflexivity.
Qed.

(** Removing the second of three activities credits its 30 and keeps the
    first and the third; the numbers 4 and 1.5 change nothing. *)
Lemma C10_remove_activity_witness :
  (exists p',
     activity_service.remove_activity [2%Q] three_activities = Some p'
     /\ remaining_budget p' = (440 + 30)%Q
     /\ map activity_option (activities p') = [1; 3])
  /\ activity_service.remove_activity [4%Q] three_activities = Some three_activities
  /\ activity_service.remove_activity [1.5%Q] three_activities = Some three_activities.
Proof.
  destruct (C10_remove_activity three_activities) as [Hok Hbad].
  split; [|split].
  - destruct (Hok 2%nat 2%Q [] ltac:(simpl; lia) ltac:(reflexivity))
      as (removed & p' & Hl & Hr & Hb & Ha & _).
    exists p'. split; [exact Hr|].
    injection Hl as <-. split; [exact Hb|].
    rewrite Ha. reflexivity.
  - destruct (Hbad 4%Q []) as [H|H].
    + intros (i & Hi & Hq). simpl in Hi.
      unfold Qeq in Hq. simpl in Hq. lia.
    + exact H.
    + exfalso. vm_compute in H. discriminate H.
  - destruct (Hbad 1.5%Q []) as [H|H].
    + intros (i & Hi & Hq). simpl in Hi.
      unfold Qeq in Hq. simpl in Hq. lia.
    + exact H.
    + exfalso. vm_compute in H. discriminate H.
Defined.

(** ** The trip duration and the divisions by it (C9) *)

Section Duration.

Variable strptime : string -> option Z.

(** [get_trip_duration_days] is 0 when a date is missing or empty, or when
    [strptime] rejects one of them. *)
Lemma duration_without_dates (p : TravelPlan) :
  falsy (departure_date p) = true \/ falsy (return_date p) = true
  \/ (exists d, departure_date p = Some d /\ strptime d = None)
  \/ (exists r, return_date p = Some r /\ strptime r = None) ->
  get_trip_duration_days strptime p = 0.
Proof.
  unfold get_trip_duration_days.
  intros [H | [H | [(d & Hd & Hp) | (r & Hr & Hp)]]].
  - rewrite H. reflexivity.
  - rewrite H, orb_true_r. reflexivity.
  - rewrite Hd, Hp. destruct (_ || _); [reflexivity|].
    destruct (return_date p) as [r|]; [|reflexivity].
    destruct (strptime r); reflexivity.
  - rewrite Hr, Hp. destruct (_ || _); [reflexivity|].
    destruct (departure_date p); reflexivity.
Qed.

(** The callers of [get_trip_duration_days] in the services guard their
    division: they return whatever the duration is. *)
Lemma service_divisions_guarded (p : TravelPlan) :
  (exists q, hotel_service.max_per_night
               (remaining_budget p) (get_trip_duration_days strptime p)
             = Returns q)
  /\ (exists q, activity_service.daily_budget
                  (remaining_budget p) (get_trip_duration_days strptime p)
                = Returns q).
Proof.
  split; eexists; [apply max_per_night_returns | apply daily_budget_returns].
Qed.

(** A stay that starts and ends on the same day reaches the unguarded
    division of the simulators, from the chat front end and from the
    command line without services. *)
Lemma same_day_stay_divides_by_zero (p : TravelPlan) (d : string) (o : Z)
    (f : FlightBooking) :
  departure_date p = Some d ->
  return_date p = Some d ->
  strptime d = Some o ->
  flights p = Some f ->
  fallback.pui_process_hotels strptime p = Raises ZeroDivisionError
  /\ fallback.cli_discuss_hotels strptime p = Raises ZeroDivisionError.
Proof.
  intros Hd Hr Hs Hf.
  unfold fallback.pui_process_hotels, fallback.cli_discuss_hotels, fallback.stay.
  rewrite Hf, Hd, Hr, Hs. simpl. rewrite Z.sub_diag. split; reflexivity.
Qed.

End Duration.

(** C9.  The division by the duration is not guarded everywhere: the
    simulated suggestions of [api_wrappers], which the chat front end and the
    command line without services call with the stay they compute, divide
    the budget by the number of nights or days and raise
    [ZeroDivisionError] when it is 0, where the suggestions of the services
    return for every duration. *)
Theorem C9_simulated_suggestions_divide_by_zero :
  (forall destination budget travelers,
     api_wrappers.get_hotel_suggestions destination budget 0 travelers
     = Raises ZeroDivisionError)
  /\ (forall destination budget,
        api_wrappers.get_activity_suggestions destination budget 0
        = Raises ZeroDivisionError)
  /\ (forall budget,
        hotel_service.max_per_night budget 0 = Returns budget
        /\ activity_service.daily_budget budget 0 = Returns budget).
Proof.
  split; [|split]; intros; try split; reflexivity.
Qed.

(** ** The token manager (C4) *)

Lemma sleep_returns (secs c : Q) :
  (0 <= secs)%Q -> api_service.sleep secs c = Returns (c + secs)%Q.
Proof.
  intro H. unfold api_service.sleep.
  apply Qle_bool_iff in H. rewrite H. reflexivity.
Qed.

Lemma backoff_nonneg (tm : api_service.AmadeusTokenManager) (retries : nat) :
  (0 <= api_service.retry_delay tm)%Q -> (0 <= api_service.backoff tm retries)%Q.
Proof.
  intro H. unfold api_service.backoff.
  apply Qmult_le_0_compat; [exact H|].
  rewrite <- (Zle_Qle 0). apply Z.pow_nonneg. lia.
Qed.

Lemma py_int_nonneg (x : Q) : (0 <= x)%Q -> 0 <= py_int x.
Proof.
  intro H. unfold py_int.
  apply Qle_bool_iff in H. rewrite H. apply Qle_bool_iff in H.
  rewrite <- (Qfloor_Z 0). apply Qfloor_resp_le. exact H.
Qed.

Section TokenLoop.

Variable post : nat -> api_service.reply.

(** With fuel beyond the retries that are left the loop returns, having
    sent at most one request for each of them. *)
Lemma retry_loop_returns (fuel retries : nat) (e : api_service.token_effect) :
  (api_service.max_retries (api_service.manager e) - retries < fuel)%nat ->
  exists r e',
    api_service.retry_loop post fuel retries e = Some (r, e')
    /\ (api_service.attempts e'
        <= api_service.attempts e
           + (api_service.max_retries (api_service.manager e) - retries))%nat.
Proof.
  revert retries e. induction fuel as [|fuel IH]; intros retries e Hfuel; [lia|].
  simpl.
  destruct (retries <? api_service.max_retries (api_service.manager e))%nat eqn:Elt;
    simpl.
  2:{ eexists _, _. split; [reflexivity|]. lia. }
  apply Nat.ltb_lt in Elt.
  assert (Hnext : forall c,
            exists r e',
              api_service.retry_loop post fuel (S retries)
                (api_service.mkTokenEffect (api_service.manager e) c
                   (S (api_service.attempts e))) = Some (r, e')
              /\ (api_service.attempts e'
                  <= api_service.attempts e
                     + (api_service.max_retries (api_service.manager e) - retries))%nat).
  { intro c.
    destruct (IH (S retries)
                 (api_service.mkTokenEffect (api_service.manager e) c
                    (S (api_service.attempts e)))) as (r & e' & Hr & Ha).
    - simpl. lia.
    - exists r, e'. split; [exact Hr|]. simpl in Ha. lia. }
  assert (Hagain : forall slept,
            exists r e',
              match slept with
              | Raises x =>
                  Some (Raises x,
                        api_service.mkTokenEffect (api_service.manager e)
                          (api_service.clock e) (S (api_service.attempts e)))
              | Returns c =>
                  api_service.retry_loop post fuel (S retries)
                    (api_service.mkTokenEffect (api_service.manager e) c
                       (S (api_service.attempts e)))
              end = Some (r, e')
              /\ (api_service.attempts e'
                  <= api_service.attempts e
                     + (api_service.max_retries (api_service.manager e) - retries))%nat).
  { intros [c|x]; [apply Hnext|].
    eexists _, _. split; [reflexivity|]. simpl. lia. }
  destruct (post (api_service.attempts e)) as [status ra tok ttl|].
  - destruct (status =? 200).
    { eexists _, _. split; [reflexivity|]. simpl. lia. }
    destruct (status =? 429).
    { destruct ra as [[w|]|]; [apply Hagain| |apply Hagain].
      eexists _, _. split; [reflexivity|]. simpl. lia. }
    destruct (500 <=? status); [apply Hagain|].
    eexists _, _. split; [reflexivity|]. simpl. lia.
  - apply Hagain.
Qed.

(** When every reply is one after which the loop goes round again, the
    loop sends one request for each retry that is left and returns
    [None]. *)
Lemma retry_loop_exhausted (fuel retries : nat) (e : api_service.token_effect) :
  (api_service.max_retries (api_service.manager e) - retries < fuel)%nat ->
  (0 <= api_service.retry_delay (api_service.manager e))%Q ->
  (forall n, (n < api_service.max_retries (api_service.manager e) - retries)%nat ->
             api_service.retryable (post (api_service.attempts e + n)) = true) ->
  exists e',
    api_service.retry_loop post fuel retries e = Some (Returns None, e')
    /\ api_service.attempts e'
       = (api_service.attempts e
          + (api_service.max_retries (api_service.manager e) - retries))%nat
    /\ api_service.manager e' = api_service.manager e.
Proof.
  revert retries e. induction fuel as [|fuel IH];
    intros retries e Hfuel Hdelay Hretry; [lia|].
  simpl.
  destruct (retries <? api_service.max_retries (api_service.manager e))%nat eqn:Elt;
    simpl.
  2:{ apply Nat.ltb_ge in Elt. eexists. split; [reflexivity|]. split; [lia|reflexivity]. }
  apply Nat.ltb_lt in Elt.
  assert (Hnext : forall c,
            exists e',
              api_service.retry_loop post fuel (S retries)
                (api_service.mkTokenEffect (api_service.manager e) c
                   (S (api_service.attempts e))) = Some (Returns None, e')
              /\ api_service.attempts e'
                 = (api_service.attempts e
                    + (api_service.max_retries (api_service.manager e) - retries))%nat
              /\ api_service.manager e' = api_service.manager e).
  { intro c.
    destruct (IH (S retries)
                 (api_service.mkTokenEffect (api_service.manager e) c
                    (S (api_service.attempts e)))) as (e' & Hr & Ha & Hm).
    - simpl. lia.
    - exact Hdelay.
    - intros n Hn. simpl in Hn. simpl api_service.attempts.
      replace (S (api_service.attempts e) + n)%nat
        with (api_service.attempts e + S n)%nat by lia.
      apply Hretry. lia.
    - exists e'. split; [exact Hr|]. simpl in Ha, Hm. split; [lia|exact Hm]. }
  pose proof (Hretry 0%nat ltac:(lia)) as H0.
  rewrite Nat.add_0_r in H0.
  destruct (post (api_service.attempts e)) as [status ra tok ttl|]; simpl in H0.
  - destruct (status =? 200); [discriminate|].
    destruct (status =? 429).
    + destruct ra as [[w|]|]; [| discriminate |].
      * rewrite sleep_returns; [apply Hnext|].
        rewrite <- (Zle_Qle 0). lia.
      * rewrite sleep_returns; [apply Hnext|].
        rewrite <- (Zle_Qle 0). apply py_int_nonneg, backoff_nonneg, Hdelay.
    + rewrite H0. rewrite sleep_returns; [apply Hnext|].
      apply backoff_nonneg, Hdelay.
  - rewrite sleep_returns; [apply Hnext|]. apply backoff_nonneg, Hdelay.
Qed.

End TokenLoop.

(** [get_token] returns, having sent at most [max_retries] requests. *)
Lemma get_token_returns (post : nat -> api_service.reply)
    (tm : api_service.AmadeusTokenManager) (now : Q) :
  exists r e,
    api_service.get_token post tm now = Some (r, e)
    /\ (api_service.attempts e <= api_service.max_retries tm)%nat.
Proof.
  unfold api_service.get_token.
  destruct (_ && _).
  - eexists _, _. split; [reflexivity|]. simpl. lia.
  - destruct (retry_loop_returns post (S (api_service.max_retries tm)) 0
                (api_service.mkTokenEffect tm now 0)) as (r & e & Hr & Ha).
    + simpl. lia.
    + exists r, e. split; [exact Hr|]. simpl in Ha. lia.
Qed.

(** When no token is cached and every reply asks for another try,
    [get_token] sends [max_retries] requests and returns [None], leaving the
    manager as it was. *)
Lemma get_token_exhausted (post : nat -> api_service.reply)
    (tm : api_service.AmadeusTokenManager) (now : Q) :
  api_service.cached tm now = false ->
  (0 <= api_service.retry_delay tm)%Q ->
  (forall n, (n < api_service.max_retries tm)%nat ->
             api_service.retryable (post n) = true) ->
  exists e,
    api_service.get_token post tm now = Some (Returns None, e)
    /\ api_service.attempts e = api_service.max_retries tm
    /\ api_service.manager e = tm.
Proof.
  intros Hc Hdelay Hretry. unfold api_service.get_token.
  unfold api_service.cached in Hc. rewrite Hc.
  destruct (retry_loop_exhausted post (S (api_service.max_retries tm)) 0
              (api_service.mkTokenEffect tm now 0)) as (e & Hr & Ha & Hm).
  - simpl. lia.
  - exact Hdelay.
  - intros n Hn. simpl in *. apply Hretry. lia.
  - exists e. split; [exact Hr|]. simpl in Ha, Hm. split; [lia|exact Hm].
Qed.



(** ** The flight search and the expired token (C8) *)

Lemma refresh_returns (w : flight_service.flight_world)
    (fs : flight_service.FlightService) :
  exists r fs',
    flight_service.refresh w fs = Some (r, fs')
    /\ flight_service.sent fs' = flight_service.sent fs
    /\ flight_service.refreshes fs' = S (flight_service.refreshes fs)
    /\ flight_service.access_token fs' = flight_service.access_token fs.
Proof.
  unfold flight_service.refresh.
  destruct (get_token_returns
              (fun n => flight_service.post w (flight_service.posts fs + n)%nat)
              (flight_service.amadeus_token_manager fs) (flight_service.time fs))
    as (r & e & Hr & _).
  rewrite Hr. eexists _, _. split; [reflexivity|]. repeat split.
Qed.

(** The search after a first answer 401, for a service that holds a token. *)
Lemma search_after_401 (w : flight_service.flight_world)
    (fs : flight_service.FlightService) (p : TravelPlan)
    (json : outcome flight_service.flight_options) :
  api_service.truthy (flight_service.access_token fs) = true ->
  flight_service.fetch w (length (flight_service.sent fs))
  = flight_service.FlightsResponse 401 json ->
  let ps := flight_service.params_of p in
  flight_service.search_amadeus_flights w fs p
  = match flight_service.refresh w (snd (flight_service.send w ps fs)) with
    | None => None
    | Some (Raises _, fs3) => Some (Returns flight_service.EmptyDict, fs3)
    | Some (Returns t, fs3) =>
        let fs4 := flight_service.set_access_token t fs3 in
        if api_service.truthy t then
          Some (Returns (flight_service.body_of (fst (flight_service.send w ps fs4))),
                snd (flight_service.send w ps fs4))
        else Some (Returns flight_service.EmptyDict, fs4)
    end.
Proof.
  intros Htok Hfetch ps.
  unfold flight_service.search_amadeus_flights.
  rewrite Htok. cbv zeta beta iota. rewrite Htok. simpl negb. cbv iota.
  fold (flight_service.params_of p). fold ps.
  unfold flight_service.send at 1 3. rewrite Hfetch.
  change (401 =? 200) with false. change (401 =? 401) with true. cbv iota.
  cbn [snd].
  destruct (flight_service.refresh w _) as [[[t|x] fs3]|]; try reflexivity.
  destruct (api_service.truthy t); [|reflexivity].
  unfold flight_service.send, flight_service.body_of. cbn [fst snd].
  match goal with
  | |- context [flight_service.fetch w ?n] =>
      destruct (flight_service.fetch w n) as [s' json'|]; [|reflexivity]
  end.
  destruct (s' =? 200); reflexivity.
Qed.

(** C8.  [search_amadeus_flights] always returns, and sends at most two
    requests.  When the service holds a token and the first answer is 401,
    the token is refreshed once through the token manager; if the refresh
    yields a token, the same request (same parameters, new token) is sent
    once more and its answer decides: the body when it succeeds, [{}]
    otherwise, with no third request; if the refresh yields no token or
    raises, nothing more is sent and the result is [{}]. *)
Theorem C8_expired_token_retried_once :
  (forall w fs p,
     exists r fs',
       flight_service.search_amadeus_flights w fs p = Some (r, fs')
       /\ (length (flight_service.sent fs')
           <= length (flight_service.sent fs) + 2)%nat)
  /\ (forall w fs p json,
        api_service.truthy (flight_service.access_token fs) = true ->
        flight_service.fetch w (length (flight_service.sent fs))
        = flight_service.FlightsResponse 401 json ->
        let ps := flight_service.params_of p in
        let first := flight_service.mkRequest (flight_service.access_token fs) ps in
        forall r fs3,
          flight_service.refresh w (snd (flight_service.send w ps fs)) = Some (r, fs3) ->
          match r with
          | Returns (Some t) =>
              if api_service.truthy (Some t) then
                exists fs',
                  flight_service.search_amadeus_flights w fs p
                  = Some (Returns
                            (flight_service.body_of
                               (flight_service.fetch w
                                  (S (length (flight_service.sent fs))))), fs')
                  /\ flight_service.sent fs'
                     = flight_service.sent fs
                       ++ [first; flight_service.mkRequest (Some t) ps]
                  /\ flight_service.refreshes fs'
                     = S (flight_service.refreshes fs)
                  /\ flight_service.access_token fs' = Some t
              else
                exists fs',
                  flight_service.search_amadeus_flights w fs p
                  = Some (Returns flight_service.EmptyDict, fs')
                  /\ flight_service.sent fs' = flight_service.sent fs ++ [first]
          | _ =>
              exists fs',
                flight_service.search_amadeus_flights w fs p
                = Some (Returns flight_service.EmptyDict, fs')
                /\ flight_service.sent fs' = flight_service.sent fs ++ [first]
          end).
Proof.
  split.
  - intros w fs p. unfold flight_service.search_amadeus_flights.
    assert (Hmain : forall fs1,
              length (flight_service.sent fs1) = length (flight_service.sent fs) ->
              exists r fs',
                (if negb (api_service.truthy (flight_service.access_token fs1))
                 then Some (Returns flight_service.EmptyDict, fs1)
                 else
                   match flight_service.send w
                           (flight_service.mkParams (iata (departure p))
                              (iata (destination p)) (departure_date p)
                              (return_date p) (travelers p) 3 "USD") fs1 with
                   | (flight_service.FlightsException, fs2) =>
                       Some (Returns flight_service.EmptyDict, fs2)
                   | (flight_service.FlightsResponse status_code json, fs2) =>
                       if status_code =? 200
                       then Some (Returns (try_except json flight_service.EmptyDict), fs2)
                       else if status_code =? 401 then
                         match flight_service.refresh w fs2 with
                         | None => None
                         | Some (Raises _, fs3) =>
                             Some (Returns flight_service.EmptyDict, fs3)
                         | Some (Returns t, fs3) =>
                             let fs4 := flight_service.set_access_token t fs3 in
                             if api_service.truthy t then
                               match flight_service.send w
                                       (flight_service.mkParams (iata (departure p))
                                          (iata (destination p)) (departure_date p)
                                          (return_date p) (travelers p) 3 "USD") fs4 with
                               | (flight_service.FlightsException, fs5) =>
                                   Some (Returns flight_service.EmptyDict, fs5)
                               | (flight_service.FlightsResponse status_code' json', fs5) =>
                                   if status_code' =? 200
                                   then Some (Returns (try_except json'
                                                         flight_service.EmptyDict), fs5)
                                   else Some (Returns flight_service.EmptyDict, fs5)
                               end
                             else Some (Returns flight_service.EmptyDict, fs4)
                         end
                       else Some (Returns flight_service.EmptyDict, fs2)
                   end) = Some (r, fs')
                /\ (length (flight_service.sent fs')
                    <= length (flight_service.sent fs) + 2)%nat).
    { intros fs1 Hlen.
      destruct (negb _); [eexists _, _; split; [reflexivity|lia]|].
      unfold flight_service.send at 1. simpl.
      destruct (flight_service.fetch w _) as [s json|];
        [|eexists _, _; split; [reflexivity|]; simpl; rewrite length_app; simpl; lia].
      destruct (s =? 200);
        [eexists _, _; split; [reflexivity|]; simpl; rewrite length_app; simpl; lia|].
      destruct (s =? 401);
        [|eexists _, _; split; [reflexivity|]; simpl; rewrite length_app; simpl; lia].
      match goal with
      | |- context [flight_service.refresh w ?x] =>
          destruct (refresh_returns w x) as (r & fs3 & Hr & Hs & _)
      end.
      rewrite Hr. simpl in Hs.
      destruct r as [t|x];
        [|eexists _, _; split; [reflexivity|]; rewrite Hs, length_app; simpl; lia].
      destruct (api_service.truthy t);
        [|eexists _, _; split; [reflexivity|]; simpl; rewrite Hs, length_app; simpl; lia].
      unfold flight_service.send. simpl.
      destruct (flight_service.fetch w _) as [s' json'|];
        [destruct (s' =? 200)|];
        eexists _, _; (split; [reflexivity|]); simpl;
        rewrite !length_app, Hs, length_app; simpl; lia. }
    destruct (api_service.truthy (flight_service.access_token fs)).
    + apply Hmain. reflexivity.
    + destruct (refresh_returns w fs) as (r & fs1 & Hr & Hs & _).
      rewrite Hr. destruct r as [t|x].
      * apply Hmain. simpl. rewrite Hs. reflexivity.
      * eexists _, _. split; [reflexivity|]. rewrite Hs. lia.
  - intros w fs p json Htok Hfetch ps first r fs3 Hr.
    rewrite (search_after_401 w fs p json Htok Hfetch). fold ps. rewrite Hr.
    destruct (refresh_returns w (snd (flight_service.send w ps fs)))
      as (r' & fs3' & Hr' & Hs & Hn & _).
    rewrite Hr in Hr'. injection Hr' as <- <-. simpl in Hs, Hn. fold first in Hs.
    destruct r as [[t|]|x].
    + cbv zeta. destruct (api_service.truthy (Some t)) eqn:Et.
      * eexists. split; [|split; [|split]].
        -- unfold flight_service.send at 1. cbn [fst]. simpl flight_service.sent.
           rewrite Hs, length_app, Nat.add_comm. reflexivity.
        -- simpl. rewrite Hs, <- app_assoc. reflexivity.
        -- simpl. exact Hn.
        -- reflexivity.
      * eexists. split; [reflexivity|]. exact Hs.
    + eexists. split; [reflexivity|]. exact Hs.
    + eexists. split; [reflexivity|]. exact Hs.
Qed.

(** With an expired token the search is sent twice, first with the old
    token and then with the new one; when the exchange is down it is sent
    once and the result is [{}]. *)
Lemma C8_expired_token_retried_once_witness :
  (exists fs',
     flight_service.search_amadeus_flights expired_world expired_service
                                           both_booked
     = Some (Returns (flight_service.Offers [450%Q]), fs')
     /\ map flight_service.bearer (flight_service.sent fs')
        = [Some "old"; Some "new"]%string
     /\ flight_service.refreshes fs' = 1%nat)
  /\ (exists fs',
        flight_service.search_amadeus_flights exchange_down expired_service
                                              both_booked
        = Some (Returns flight_service.EmptyDict, fs')
        /\ map flight_service.bearer (flight_service.sent fs') = [Some "old"]%string).
Proof.
  destruct C8_expired_token_retried_once as [_ H].
  split.
  - destruct (flight_service.refresh expired_world
                (snd (flight_service.send expired_world
                        (flight_service.params_of both_booked) expired_service)))
      as [[r fs3]|] eqn:Er; [|vm_compute in Er; discriminate Er].
    pose proof (H expired_world expired_service both_booked (Raises ValueError)
                  eq_refl eq_refl r fs3 Er) as Hw.
    vm_compute in Er. injection Er as <- <-.
    cbv beta iota in Hw. simpl api_service.truthy in Hw. cbv iota in Hw.
    destruct Hw as (fs' & Hs & Hsent & Href & _).
    exists fs'. split; [exact Hs|]. split; [rewrite Hsent; reflexivity|exact Href].
  - destruct (flight_service.refresh exchange_down
                (snd (flight_service.send exchange_down
                        (flight_service.params_of both_booked) expired_service)))
      as [[r fs3]|] eqn:Er; [|vm_compute in Er; discriminate Er].
    pose proof (H exchange_down expired_service both_booked (Raises ValueError)
                  eq_refl eq_refl r fs3 Er) as Hw.
    vm_compute in Er. injection Er as <- <-.
    cbv beta iota in Hw.
    destruct Hw as (fs' & Hs & Hsent).
    exists fs'. split; [exact Hs|]. rewrite Hsent. reflexivity.
Defined.

(** ** The location resolver: order of the strategies and cache (C7) *)

Lemma special_cases_miss (key : string) :
  key <> "abidjan"%string -> key <> "maroc"%string -> key <> "casablanca"%string ->
  key <> "kigali"%string -> key <> "nairobi"%string -> key <> "dakar"%string ->
  api_service.special_cases !! key = None.
Proof.
  intros. unfold api_service.special_cases.
  rewrite !lookup_insert_ne by congruence. apply lookup_empty.
Qed.

Section ResolverCache.

Variable ratio : string -> string -> Q.

(** What the first three strategies leave in the cache. *)
Lemma strategies_cache (w : api_service.world) (s : api_service.session)
    (location_name : string) :
  match api_service.strategies ratio w s location_name with
  | api_service.Resolved result s' =>
      api_service.location_cache (api_service.service s')
        !! py_str.lower location_name = Some result
      /\ api_service.geocodes s' = api_service.geocodes s
  | api_service.Unresolved s' | api_service.Raised _ s' =>
      api_service.location_cache (api_service.service s')
      = api_service.location_cache (api_service.service s)
      /\ api_service.geocodes s' = api_service.geocodes s
  | api_service.Unfinished => True
  end.
Proof.
  unfold api_service.strategies.
  destruct (api_service.location_cache (api_service.service s)
              !! py_str.lower location_name) as [cached|] eqn:Ec.
  { split; [exact Ec|reflexivity]. }
  destruct (api_service.special_cases !! py_str.lower location_name)
    as [[code nm]|].
  { split; [apply lookup_insert_eq|reflexivity]. }
  destruct (api_service.get_token _ _ _) as [[[tok|e] eff]|]; [| |exact I].
  - destruct (api_service.truthy tok).
    + destruct (api_service.provider_search ratio w location_name) as [result|].
      * split; [apply lookup_insert_eq|reflexivity].
      * split; reflexivity.
    + split; reflexivity.
  - split; reflexivity.
Qed.


(** A resolution that fails leaves the cache as it was. *)
Lemma failure_not_cached (fuel : nat) :
  forall (w : api_service.world) (s s' : api_service.session)
         (location_name : string) (r : outcome (option Location)),
    api_service.find_iata_code ratio fuel w s location_name = Some (r, s') ->
    (forall result, r <> Returns (Some result)) ->
    api_service.location_cache (api_service.service s')
    = api_service.location_cache (api_service.service s).
Proof.
  induction fuel as [|fuel IH]; intros w s s' location_name r Hf Hr; simpl in Hf;
    [discriminate|].
  pose proof (strategies_cache w s location_name) as Hs.
  destruct (api_service.strategies ratio w s location_name)
    as [result s1|s2|e s1|]; [| | |discriminate].
  - injection Hf as <- <-. exfalso. exact (Hr result eq_refl).
  - destruct Hs as [Hc _].
    assert (Hstop : Some (Returns None, api_service.count_geocode s2) = Some (r, s') ->
                    api_service.location_cache (api_service.service s')
                    = api_service.location_cache (api_service.service s)).
    { intro H. injection H as <- <-. exact Hc. }
    destruct (api_service.geocode w location_name) as [[|components rest]|];
      [apply Hstop, Hf| |apply Hstop, Hf].
    destruct (api_service.locality components) as [component|];
      [|apply Hstop, Hf].
    destruct (api_service.find_iata_code ratio fuel w _ _)
      as [[[r4|e4] s4]|] eqn:Er; [| |discriminate].
    + injection Hf as <- <-.
      rewrite (IH _ _ _ _ _ Er Hr). exact Hc.
    + injection Hf as <- <-.
      rewrite (IH _ _ _ _ _ Er); [exact Hc|]. discriminate.
  - injection Hf as <- <-. apply Hs.
Qed.

(** The first three strategies write to the cache under the lower-cased
    input only. *)
Lemma strategies_other_keys (w : api_service.world) (s : api_service.session)
    (location_name : string) (result : Location) (s' : api_service.session)
    (key : string) :
  api_service.strategies ratio w s location_name
  = api_service.Resolved result s' ->
  key <> py_str.lower location_name ->
  api_service.location_cache (api_service.service s') !! key
  = api_service.location_cache (api_service.service s) !! key.
Proof.
  unfold api_service.strategies. intros H Hkey.
  destruct (api_service.location_cache (api_service.service s)
              !! py_str.lower location_name) as [cached|].
  { injection H as _ <-. reflexivity. }
  destruct (api_service.special_cases !! py_str.lower location_name)
    as [[code nm]|].
  { injection H as _ <-. simpl. apply lookup_insert_ne. congruence. }
  destruct (api_service.get_token _ _ _) as [[[tok|e] eff]|];
    try discriminate.
  destruct (api_service.truthy tok); [|discriminate].
  destruct (api_service.provider_search ratio w location_name) as [found|];
    [|discriminate].
  injection H as _ <-. simpl. apply lookup_insert_ne. congruence.
Qed.

(** A resolution that succeeds is in the cache afterwards, under the
    lower-cased name at which the strategies resolved: the input after as
    many refinements as the geocoder was called; no other key of the cache
    is written. *)
Lemma success_cached (fuel : nat) :
  forall (w : api_service.world) (s s' : api_service.session)
         (location_name : string) (result : Location),
    api_service.find_iata_code ratio fuel w s location_name
    = Some (Returns (Some result), s') ->
    exists (n : nat) (cleaned : string),
      api_service.cleaned_name w n location_name = Some cleaned
      /\ api_service.geocodes s' = (api_service.geocodes s + n)%nat
      /\ api_service.location_cache (api_service.service s')
           !! py_str.lower cleaned = Some result
      /\ (forall key,
            key <> py_str.lower cleaned ->
            api_service.location_cache (api_service.service s') !! key
            = api_service.location_cache (api_service.service s) !! key).
Proof.
  induction fuel as [|fuel IH]; intros w s s' location_name result Hf;
    simpl in Hf; [discriminate|].
  pose proof (strategies_cache w s location_name) as Hs.
  destruct (api_service.strategies ratio w s location_name)
    as [result1 s1|s2|e s1|] eqn:Es; try discriminate.
  - injection Hf as <- <-. exists 0%nat, location_name.
    split; [reflexivity|]. destruct Hs as [Hc Hg].
    split; [rewrite Hg; lia|]. split; [exact Hc|].
    intros key Hkey. exact (strategies_other_keys _ _ _ _ _ _ Es Hkey).
  - destruct (api_service.geocode w location_name)
      as [[|components rest]|] eqn:Eg; try discriminate.
    destruct (api_service.locality components) as [component|] eqn:El;
      try discriminate.
    destruct (api_service.find_iata_code ratio fuel w _ _)
      as [[[r4|e4] s4]|] eqn:Er; try discriminate.
    injection Hf as -> <-.
    destruct (IH _ _ _ _ _ Er) as (n & cleaned & Hn & Hg & Hc & Hother).
    destruct Hs as [Hcache Hgeo].
    exists (S n), cleaned. split.
    { simpl. unfold api_service.refine. rewrite Eg, El. exact Hn. }
    split; [rewrite Hg; simpl; rewrite Hgeo; lia|].
    split; [exact Hc|].
    intros key Hkey. rewrite (Hother key Hkey). simpl. rewrite Hcache.
    reflexivity.
Qed.

(** C7 (amended).  The resolver looks the lower-cased input up in the cache
    first, then in the curated table, then asks the provider, and stops at
    the first hit without calling the geocoder; a resolution by the curated
    table or by the provider is stored in the cache under the lower-cased
    input, so that "Casablanca" is answered the second time from the cache,
    with no call at all; a resolution that comes out of the geocoding
    fallback is stored as well, under the lower-cased cleaned name, which is
    the input after as many refinements by the geocoder as the call made
    geocoder requests, and every other key of the cache, that of the input
    among them, is left as it was; and a resolution that fails leaves the
    cache as it was. *)
Theorem C7_resolution_order_and_cache :
  (forall w s location_name,
     (forall cached,
        api_service.location_cache (api_service.service s)
          !! py_str.lower location_name = Some cached ->
        api_service.strategies ratio w s location_name
        = api_service.Resolved cached s)
     /\ (forall code nm,
           api_service.location_cache (api_service.service s)
             !! py_str.lower location_name = None ->
           api_service.special_cases !! py_str.lower location_name
           = Some (code, nm) ->
           api_service.strategies ratio w s location_name
           = api_service.Resolved
               (mkLocation (Some nm) (Some code))
               (api_service.store (py_str.lower location_name)
                                  (mkLocation (Some nm) (Some code)) s))
     /\ (forall tok eff result,
           api_service.location_cache (api_service.service s)
             !! py_str.lower location_name = None ->
           api_service.special_cases !! py_str.lower location_name = None ->
           api_service.get_token
             (fun n => api_service.post w (api_service.posts s + n)%nat)
             (api_service.token_manager (api_service.service s))
             (api_service.time s) = Some (Returns tok, eff) ->
           api_service.truthy tok = true ->
           api_service.provider_search ratio w location_name = Some result ->
           api_service.strategies ratio w s location_name
           = api_service.Resolved
               result
               (api_service.store (py_str.lower location_name) result
                  (api_service.count_get (api_service.after_token eff s)))))
  /\ (forall fuel w s location_name result s',
        api_service.strategies ratio w s location_name
        = api_service.Resolved result s' ->
        api_service.find_iata_code ratio (S fuel) w s location_name
        = Some (Returns (Some result), s')
        /\ api_service.location_cache (api_service.service s')
             !! py_str.lower location_name = Some result
        /\ api_service.geocodes s' = api_service.geocodes s)
  /\ (forall fuel fuel' w w' now,
        exists s1,
          api_service.find_iata_code ratio (S fuel) w
            (api_service.new_session now) "Casablanca"
          = Some (Returns (Some casablanca), s1)
          /\ api_service.posts s1 = 0%nat
          /\ api_service.gets s1 = 0%nat
          /\ api_service.geocodes s1 = 0%nat
          /\ api_service.find_iata_code ratio (S fuel') w' s1 "Casablanca"
             = Some (Returns (Some casablanca), s1))
  /\ (forall fuel w s location_name r s',
        api_service.find_iata_code ratio fuel w s location_name = Some (r, s') ->
        (forall result, r <> Returns (Some result)) ->
        api_service.location_cache (api_service.service s')
        = api_service.location_cache (api_service.service s))
  /\ (forall fuel w s location_name result s',
        api_service.find_iata_code ratio fuel w s location_name
        = Some (Returns (Some result), s') ->
        exists (n : nat) (cleaned : string),
          api_service.cleaned_name w n location_name = Some cleaned
          /\ api_service.geocodes s' = (api_service.geocodes s + n)%nat
          /\ api_service.location_cache (api_service.service s')
               !! py_str.lower cleaned = Some result
          /\ (forall key,
                key <> py_str.lower cleaned ->
                api_service.location_cache (api_service.service s') !! key
                = api_service.location_cache (api_service.service s) !! key)).
Proof.
  split; [|split; [|split; [|split]]].
  - intros w s location_name. split; [|split].
    + intros cached Hc. unfold api_service.strategies. rewrite Hc. reflexivity.
    + intros code nm Hc Hsp. unfold api_service.strategies.
      rewrite Hc, Hsp. reflexivity.
    + intros tok eff result Hc Hsp Htok Ht Hp. unfold api_service.strategies.
      rewrite Hc, Hsp, Htok, Ht, Hp. reflexivity.
  - intros fuel w s location_name result s' Hs.
    pose proof (strategies_cache w s location_name) as Hc. rewrite Hs in Hc.
    split; [|exact Hc]. simpl. rewrite Hs. reflexivity.
  - intros fuel fuel' w w' now.
    eexists. split; [reflexivity|].
    split; [reflexivity|]. split; [reflexivity|]. split; [reflexivity|].
    reflexivity.
  - intros fuel w s location_name r s'. apply failure_not_cached.
  - intros fuel w s location_name result s'. apply success_cached.
Qed.

End ResolverCache.

(** C7, as stated, fails when the geocoding fallback resolves the input:
    "Dar el Beida" is resolved to Casablanca through the cleaned name, which
    is the key the result is stored under; the lower-cased input is not in
    the cache, and a second call goes back to the exchange and the
    geocoder. *)
Lemma C7_fallback_result_stored_under_cleaned_name :
  exists s1 s2,
    api_service.find_iata_code exact_ratio 2 morocco (api_service.new_session 0)
                               "Dar el Beida"
    = Some (Returns (Some casablanca), s1)
    /\ api_service.location_cache (api_service.service s1) !! "dar el beida"%string
       = None
    /\ api_service.location_cache (api_service.service s1) !! "casablanca"%string
       = Some casablanca
    /\ api_service.find_iata_code exact_ratio 2 morocco s1 "Dar el Beida"
       = Some (Returns (Some casablanca), s2)
    /\ api_service.geocodes s1 = 1%nat
    /\ api_service.geocodes s2 = 2%nat
    /\ api_service.posts s2 = (api_service.posts s1 + 3)%nat.
Proof.
  eexists _, _.
  split; [vm_compute; reflexivity|].
  split; [vm_compute; reflexivity|].
  split; [vm_compute; reflexivity|].
  split; [vm_compute; reflexivity|].
  split; [reflexivity|]. split; reflexivity.
Qed.

(** The three strategies at work, a failure that leaves the cache empty and
    a success of the fallback that is found in the cache. *)
Lemma C7_resolution_order_and_cache_witness :
  (* a cached text is answered from the cache *)
  api_service.strategies exact_ratio chain
    (api_service.store "paris" casablanca (api_service.new_session 0)) "PARIS"
  = api_service.Resolved casablanca
      (api_service.store "paris" casablanca (api_service.new_session 0))
  (* the curated table comes next *)
  /\ api_service.strategies exact_ratio chain (api_service.new_session 0) "Maroc"
     = api_service.Resolved casablanca
         (api_service.store "maroc" casablanca (api_service.new_session 0))
  (* then the provider *)
  /\ (exists s',
        api_service.find_iata_code exact_ratio 1 amadeus_up
                                   (api_service.new_session 0) "Paris"
        = Some (Returns (Some (mkLocation (Some "PARIS") (Some "PAR"))), s')
        /\ api_service.location_cache (api_service.service s') !! "paris"%string
           = Some (mkLocation (Some "PARIS") (Some "PAR"))
        /\ api_service.geocodes s' = 0%nat)
  (* a failure leaves the cache empty *)
  /\ (exists s',
        api_service.find_iata_code exact_ratio 1 chain
                                   (api_service.new_session 0) "c"
        = Some (Returns None, s')
        /\ api_service.location_cache (api_service.service s') = ∅)
  (* a success through the fallback is in the cache under the cleaned name *)
  /\ (exists n cleaned s',
        api_service.find_iata_code exact_ratio 2 morocco
                                   (api_service.new_session 0) "Dar el Beida"
        = Some (Returns (Some casablanca), s')
        /\ api_service.cleaned_name morocco n "Dar el Beida" = Some cleaned
        /\ api_service.geocodes s' = n
        /\ api_service.location_cache (api_service.service s')
             !! py_str.lower cleaned = Some casablanca).
Proof.
  destruct (C7_resolution_order_and_cache exact_ratio)
    as (Horder & Hfind & _ & Hfail & Hsucc).
  split; [|split; [|split; [|split]]].
  - destruct (Horder chain
                (api_service.store "paris" casablanca (api_service.new_session 0))
                "PARIS"%string) as (Hc & _ & _).
    apply Hc. vm_compute. reflexivity.
  - destruct (Horder chain (api_service.new_session 0) "Maroc"%string)
      as (_ & Hsp & _).
    apply (Hsp "CMN"%string "Casablanca"%string); vm_compute; reflexivity.
  - destruct (Horder amadeus_up (api_service.new_session 0) "Paris"%string)
      as (_ & _ & Hp).
    destruct (api_service.get_token
                (fun n => api_service.post amadeus_up
                            (api_service.posts (api_service.new_session 0) + n)%nat)
                (api_service.token_manager
                   (api_service.service (api_service.new_session 0)))
                (api_service.time (api_service.new_session 0)))
      as [[[tok|e] eff]|] eqn:Et; try (vm_compute in Et; discriminate Et).
    assert (Htok : tok = Some "token"%string)
      by (vm_compute in Et; congruence).
    pose proof (Hp tok eff (mkLocation (Some "PARIS"%string) (Some "PAR"%string))
                   ltac:(vm_compute; reflexivity) ltac:(vm_compute; reflexivity)
                   eq_refl ltac:(rewrite Htok; reflexivity)
                   ltac:(vm_compute; reflexivity)) as Hres.
    destruct (Hfind 0%nat _ _ _ _ _ Hres) as (Hf & Hcache & Hg).
    eexists. split; [exact Hf|]. split; [exact Hcache|exact Hg].
  - destruct (api_service.find_iata_code exact_ratio 1 chain
                (api_service.new_session 0) "c") as [[r s']|] eqn:Ef;
      [|vm_compute in Ef; discriminate Ef].
    assert (Hr : r = Returns None) by (vm_compute in Ef; congruence).
    subst r. exists s'. split; [reflexivity|].
    apply (Hfail _ _ _ _ _ _ Ef). discriminate.
  - destruct (api_service.find_iata_code exact_ratio 2 morocco
                (api_service.new_session 0) "Dar el Beida") as [[r s']|] eqn:Ef;
      [|vm_compute in Ef; discriminate Ef].
    assert (Hr : r = Returns (Some casablanca))
      by (vm_compute in Ef; injection Ef as <- _; reflexivity).
    subst r.
    destruct (Hsucc _ _ _ _ _ _ Ef) as (n & cleaned & Hn & Hg & Hc & _).
    exists n, cleaned, s'. split; [reflexivity|]. split; [exact Hn|].
    split; [exact Hg|exact Hc].
Defined.

(** ** The geocoding fallback (C6) *)



Lemma xs_not_special (n : nat) : api_service.special_cases !! xs n = None.
Proof.
  apply special_cases_miss; destruct n; discriminate.
Qed.

Section Offline.

Variable ratio : string -> string -> Q.

(** With the exchange unreachable, a text that is neither cached nor in the
    curated table goes on to the fallback. *)
Lemma strategies_offline (w : api_service.world) (s : api_service.session)
    (location_name : string) :
  (forall n, api_service.post w n = api_service.RequestException) ->
  fresh s ->
  api_service.special_cases !! py_str.lower location_name = None ->
  exists s2,
    api_service.strategies ratio w s location_name = api_service.Unresolved s2
    /\ fresh s2
    /\ api_service.geocodes s2 = api_service.geocodes s.
Proof.
  intros Hpost [Htm Hcache] Hsp. unfold api_service.strategies.
  rewrite Hcache, lookup_empty, Hsp, Htm.
  destruct (get_token_exhausted
              (fun n => api_service.post w (api_service.posts s + n)%nat)
              api_service.new_token_manager (api_service.time s))
    as (e & He & _ & Hm).
  - reflexivity.
  - vm_compute. discriminate.
  - intros n _. rewrite Hpost. reflexivity.
  - rewrite He. simpl. eexists. split; [reflexivity|].
    split; [|reflexivity]. split; [exact Hm|exact Hcache].
Qed.


(** When the geocoder refines a text to itself, no depth of recursion
    suffices. *)
Lemma mirror_never_returns (fuel : nat) :
  forall s : api_service.session,
    fresh s ->
    api_service.find_iata_code ratio fuel mirror s "x" = None.
Proof.
  induction fuel as [|fuel IH]; intros s Hs; [reflexivity|].
  destruct (strategies_offline mirror s "x") as (s2 & H2 & Hf2 & _);
    [reflexivity | exact Hs | apply (xs_not_special 1) |].
  cbn [api_service.find_iata_code]. rewrite H2.
  cbn [api_service.geocode mirror refined_to api_service.locality List.find
       api_service.types api_service.long_name existsb String.eqb Ascii.eqb
       Bool.eqb orb].
  rewrite (IH (api_service.count_geocode s2) Hf2). reflexivity.
Qed.

End Offline.


Section FallbackRecursion.

Variable ratio : string -> string -> Q.




End FallbackRecursion.



(** ** The suggestion parsers (C3) *)

Lemma split_nonempty (s : string) (sep : ascii) : py_str.split s sep <> [].
Proof.
  destruct s as [|c r]; simpl; [discriminate|].
  destruct (Ascii.eqb c sep); [discriminate|].
  destruct (py_str.split r sep); discriminate.
Qed.

Lemma last_item_returns {A : Type} (l : list A) :
  l <> [] -> exists x, py_str.last_item l = Returns x.
Proof.
  intro H. unfold py_str.last_item, py_str.item.
  destruct (rev l) as [|x t] eqn:E.
  - exfalso. apply H. rewrite <- (rev_involutive l), E. reflexivity.
  - exists x. reflexivity.
Qed.

Section ActivityParser.

Variable float : string -> option Q.

Lemma activity_after_colon_returns (line : string) :
  exists v, activity_service.after_colon line = Returns v.
Proof.
  unfold activity_service.after_colon.
  destruct (last_item_returns (py_str.split line ":") (split_nonempty _ _))
    as (x & Hx).
  rewrite Hx. eexists. reflexivity.
Qed.

Lemma activity_read_price_source (line : string) (q : Q) :
  activity_service.read_price float line = Returns q ->
  exists text, float text = Some q.
Proof.
  unfold activity_service.read_price. intro H.
  destruct (py_str.item _ 1) as [after|]; simpl in H; [|discriminate].
  destruct (py_str.item _ 0) as [first|]; simpl in H; [|discriminate].
  destruct (float _) as [q'|] eqn:E; [|discriminate].
  injection H as <-. eexists. exact E.
Qed.

(** The chain of tests on a line returns, keeps the number of the option
    and, if it writes a price, writes one that was read or estimated. *)
Lemma activity_details_returns (daily_budget : Q) (line : string)
    (c : activity_service.activity_option) :
  exists c',
    activity_service.details float daily_budget line c = Returns c'
    /\ activity_service.opt_number c' = activity_service.opt_number c
    /\ (activity_price_source float daily_budget c ->
        activity_price_source float daily_budget c').
Proof.
  unfold activity_service.details.
  destruct (activity_after_colon_returns line) as (v & Hv).
  destruct (_ && _).
  { eexists. split; [reflexivity|]. split; [reflexivity|]. intro H; exact H. }
  destruct (_ || _).
  { eexists. split; [reflexivity|]. split; [reflexivity|].
    intros _ q Hq. simpl in Hq. injection Hq as <-.
    destruct (activity_service.read_price float line) as [q|e] eqn:Er; simpl.
    - left. exact (activity_read_price_source line q Er).
    - right. reflexivity. }
  destruct (_ || _).
  { rewrite Hv. eexists. split; [reflexivity|]. split; [reflexivity|].
    intro H; exact H. }
  destruct (_ || _).
  { rewrite Hv. eexists. split; [reflexivity|]. split; [reflexivity|].
    intro H; exact H. }
  destruct (_ || _).
  { rewrite Hv. eexists. split; [reflexivity|]. split; [reflexivity|].
    intro H; exact H. }
  eexists. split; [reflexivity|]. split; [reflexivity|]. intro H; exact H.
Qed.

Lemma activity_header_range (line : string) (k : Z) :
  activity_service.header line = Some k -> 1 <= k <= 5.
Proof.
  unfold activity_service.header.
  repeat (destruct (_ || _); [intro H; injection H as <-; lia|]).
  discriminate.
Qed.

(** One line: the loop body returns, an option is appended exactly when the
    line is a header, and the prices stay read or estimated. *)
Lemma activity_parse_line_returns (daily_budget : Q)
    (st : activity_service.parser_state) (line : string) :
  exists st',
    activity_service.parse_line float daily_budget st line = Returns st'
    /\ map activity_service.opt_number (activity_service.activity_options st')
       = map activity_service.opt_number (activity_service.activity_options st)
         ++ match activity_service.header (py_str.strip line) with
            | Some k => [k]
            | None => []
            end
    /\ (Forall (activity_price_source float daily_budget)
               (activity_service.activity_options st) ->
        Forall (activity_price_source float daily_budget)
               (activity_service.activity_options st')).
Proof.
  unfold activity_service.parse_line.
  destruct (String.eqb (py_str.strip line) "") eqn:Eb.
  { apply String.eqb_eq in Eb. rewrite Eb. simpl.
    exists st. split; [reflexivity|]. split; [rewrite app_nil_r; reflexivity|].
    intro H; exact H. }
  destruct (activity_service.header (py_str.strip line)) as [k|] eqn:Eh.
  - simpl.
    destruct (activity_details_returns daily_budget (py_str.strip line)
                (activity_service.new_option k)) as (c' & Hc & Hn & Hp).
    rewrite Hc. simpl. eexists. split; [reflexivity|].
    unfold activity_service.activity_options at 1 3. simpl.
    split.
    + rewrite map_app. simpl. rewrite Hn. reflexivity.
    + intro H. apply Forall_app. split; [exact H|].
      constructor; [|constructor]. apply Hp. intros q Hq. discriminate Hq.
  - destruct st as [closed [c|]]; simpl.
    + destruct (activity_details_returns daily_budget (py_str.strip line) c)
        as (c' & Hc & Hn & Hp).
      rewrite Hc. simpl. eexists. split; [reflexivity|].
      unfold activity_service.activity_options. simpl. split.
      * rewrite !map_app. simpl. rewrite Hn, app_nil_r. reflexivity.
      * intro H. apply Forall_app in H as [H1 H2].
        apply Forall_app. split; [exact H1|].
        constructor; [|constructor]. apply Hp. inversion H2; assumption.
    + eexists. split; [reflexivity|]. split; [rewrite app_nil_r; reflexivity|].
      intro H; exact H.
Qed.

(** The loop over the lines. *)
Lemma activity_loop_returns (daily_budget : Q) (lines : list string) :
  forall st : activity_service.parser_state,
  exists st',
    fold_left
      (fun (acc : outcome activity_service.parser_state) (line : string) =>
         let* st := acc in activity_service.parse_line float daily_budget st line)
      lines (Returns st) = Returns st'
    /\ map activity_service.opt_number (activity_service.activity_options st')
       = map activity_service.opt_number (activity_service.activity_options st)
         ++ omap (fun line => activity_service.header (py_str.strip line)) lines
    /\ (Forall (activity_price_source float daily_budget)
               (activity_service.activity_options st) ->
        Forall (activity_price_source float daily_budget)
               (activity_service.activity_options st')).
Proof.
  induction lines as [|line lines IH]; intro st.
  - exists st. split; [reflexivity|]. split; [rewrite app_nil_r; reflexivity|].
    intro H; exact H.
  - destruct (activity_parse_line_returns daily_budget st line)
      as (st1 & H1 & Hn1 & Hp1).
    destruct (IH st1) as (st' & H' & Hn' & Hp').
    exists st'. simpl. rewrite H1. split; [exact H'|]. split.
    + rewrite Hn', Hn1, <- app_assoc. f_equal.
      destruct (activity_service.header (py_str.strip line)); reflexivity.
    + intro H. apply Hp', Hp1, H.
Qed.

(** The activity parser returns one option for each header line of the
    text. *)
Lemma activity_parser_returns (destination : string) (budget : Q) (days : Z)
    (response : string) :
  exists daily options,
    activity_service.daily_budget budget days = Returns daily
    /\ activity_service.get_activity_suggestions float destination budget days
                                                 response = Returns options
    /\ map activity_service.opt_number options = activity_headers response
    /\ Forall (fun o => 1 <= activity_service.opt_number o <= 5) options
    /\ Forall (activity_price_source float daily) options.
Proof.
  unfold activity_service.get_activity_suggestions.
  rewrite daily_budget_returns. eexists. simpl.
  match goal with
  | |- context [fold_left ?f ?l (Returns ?st)] =>
      destruct (activity_loop_returns
                  (if 0 <? days then (budget / inject_Z days)%Q else budget) l st)
        as (st' & H' & Hn & Hp)
  end.
  rewrite H'. simpl. eexists. split; [reflexivity|]. split; [reflexivity|].
  simpl in Hn. split; [exact Hn|]. split.
  - apply Forall_forall. intros o Ho.
    assert (Hin : activity_service.opt_number o
                  ∈ map activity_service.opt_number
                        (activity_service.activity_options st')).
    { apply list_elem_of_fmap. exists o. split; [reflexivity|exact Ho]. }
    rewrite Hn in Hin. apply list_elem_of_omap in Hin as (line & _ & Hh).
    exact (activity_header_range _ _ Hh).
  - apply Hp. constructor.
Qed.

End ActivityParser.

Section HotelParser.

Variable float : string -> option Q.

Lemma hotel_after_colon_returns (line : string) :
  exists v, hotel_service.after_colon line = Returns v.
Proof.
  unfold hotel_service.after_colon.
  destruct (last_item_returns (py_str.split line ":") (split_nonempty _ _))
    as (x & Hx).
  rewrite Hx. eexists. reflexivity.
Qed.

Lemma hotel_read_price_source (line : string) (q : Q) :
  hotel_service.read_price float line = Returns q ->
  exists text, float text = Some q.
Proof.
  unfold hotel_service.read_price. intro H.
  destruct (py_str.item _ 1) as [after|]; simpl in H; [|discriminate].
  destruct (py_str.item _ 0) as [first|]; simpl in H; [|discriminate].
  destruct (float _) as [q'|] eqn:E; [|discriminate].
  injection H as <-. eexists. exact E.
Qed.

Lemma hotel_details_returns (budget : Q) (line : string)
    (c : hotel_service.hotel_option) :
  exists c',
    hotel_service.details float budget line c = Returns c'
    /\ hotel_service.opt_number c' = hotel_service.opt_number c
    /\ (hotel_price_source float budget c -> hotel_price_source float budget c').
Proof.
  unfold hotel_service.details.
  destruct (hotel_after_colon_returns line) as (v & Hv).
  destruct (_ && _).
  { eexists. split; [reflexivity|]. split; [reflexivity|]. intro H; exact H. }
  destruct (_ || _).
  { eexists. split; [reflexivity|]. split; [reflexivity|]. intro H; exact H. }
  destruct (_ || _).
  { rewrite Hv. eexists. split; [reflexivity|]. split; [reflexivity|].
    intro H; exact H. }
  destruct (py_str.contains _ "breakfast").
  { rewrite Hv. eexists. split; [reflexivity|]. split; [reflexivity|].
    intro H; exact H. }
  destruct (_ || _).
  { eexists. split; [reflexivity|]. split; [reflexivity|].
    intros _ q Hq. simpl in Hq. injection Hq as <-.
    destruct (hotel_service.read_price float line) as [q|e] eqn:Er; simpl.
    - left. exact (hotel_read_price_source line q Er).
    - right. reflexivity. }
  destruct (_ || _).
  { rewrite Hv. eexists. split; [reflexivity|]. split; [reflexivity|].
    intro H; exact H. }
  eexists. split; [reflexivity|]. split; [reflexivity|]. intro H; exact H.
Qed.

Lemma hotel_header_range (line : string) (k : Z) :
  hotel_service.header line = Some k -> 1 <= k <= 3.
Proof.
  unfold hotel_service.header.
  repeat (destruct (_ || _); [intro H; injection H as <-; lia|]).
  discriminate.
Qed.

Lemma hotel_parse_line_returns (budget : Q) (st : hotel_service.parser_state)
    (line : string) :
  exists st',
    hotel_service.parse_line float budget st line = Returns st'
    /\ map hotel_service.opt_number (hotel_service.hotel_options st')
       = map hotel_service.opt_number (hotel_service.hotel_options st)
         ++ match hotel_service.header (py_str.strip line) with
            | Some k => [k]
            | None => []
            end
    /\ (Forall (hotel_price_source float budget) (hotel_service.hotel_options st) ->
        Forall (hotel_price_source float budget) (hotel_service.hotel_options st')).
Proof.
  unfold hotel_service.parse_line.
  destruct (String.eqb (py_str.strip line) "") eqn:Eb.
  { apply String.eqb_eq in Eb. rewrite Eb. simpl.
    exists st. split; [reflexivity|]. split; [rewrite app_nil_r; reflexivity|].
    intro H; exact H. }
  destruct (hotel_service.header (py_str.strip line)) as [k|] eqn:Eh.
  - simpl.
    destruct (hotel_details_returns budget (py_str.strip line)
                (hotel_service.new_option k)) as (c' & Hc & Hn & Hp).
    rewrite Hc. simpl. eexists. split; [reflexivity|].
    unfold hotel_service.hotel_options at 1 3. simpl.
    split.
    + rewrite map_app. simpl. rewrite Hn. reflexivity.
    + intro H. apply Forall_app. split; [exact H|].
      constructor; [|constructor]. apply Hp. intros q Hq. discriminate Hq.
  - destruct st as [closed [c|]]; simpl.
    + destruct (hotel_details_returns budget (py_str.strip line) c)
        as (c' & Hc & Hn & Hp).
      rewrite Hc. simpl. eexists. split; [reflexivity|].
      unfold hotel_service.hotel_options. simpl. split.
      * rewrite !map_app. simpl. rewrite Hn, app_nil_r. reflexivity.
      * intro H. apply Forall_app in H as [H1 H2].
        apply Forall_app. split; [exact H1|].
        constructor; [|constructor]. apply Hp. inversion H2; assumption.
    + eexists. split; [reflexivity|]. split; [rewrite app_nil_r; reflexivity|].
      intro H; exact H.
Qed.

Lemma hotel_loop_returns (budget : Q) (lines : list string) :
  forall st : hotel_service.parser_state,
  exists st',
    fold_left
      (fun (acc : outcome hotel_service.parser_state) (line : string) =>
         let* st := acc in hotel_service.parse_line float budget st line)
      lines (Returns st) = Returns st'
    /\ map hotel_service.opt_number (hotel_service.hotel_options st')
       = map hotel_service.opt_number (hotel_service.hotel_options st)
         ++ omap (fun line => hotel_service.header (py_str.strip line)) lines
    /\ (Forall (hotel_price_source float budget) (hotel_service.hotel_options st) ->
        Forall (hotel_price_source float budget) (hotel_service.hotel_options st')).
Proof.
  induction lines as [|line lines IH]; intro st.
  - exists st. split; [reflexivity|]. split; [rewrite app_nil_r; reflexivity|].
    intro H; exact H.
  - destruct (hotel_parse_line_returns budget st line) as (st1 & H1 & Hn1 & Hp1).
    destruct (IH st1) as (st' & H' & Hn' & Hp').
    exists st'. simpl. rewrite H1. split; [exact H'|]. split.
    + rewrite Hn', Hn1, <- app_assoc. f_equal.
      destruct (hotel_service.header (py_str.strip line)); reflexivity.
    + intro H. apply Hp', Hp1, H.
Qed.

(** The hotel parser returns one option for each header line of the text. *)
Lemma hotel_parser_returns (destination : string) (budget : Q) (nights : Z)
    (response : string) :
  exists options,
    hotel_service.get_hotel_suggestions float destination budget nights response
    = Returns options
    /\ map hotel_service.opt_number options = hotel_headers response
    /\ Forall (fun o => 1 <= hotel_service.opt_number o <= 3) options
    /\ Forall (hotel_price_source float budget) options.
Proof.
  unfold hotel_service.get_hotel_suggestions.
  rewrite max_per_night_returns. simpl.
  match goal with
  | |- context [fold_left ?f ?l (Returns ?st)] =>
      destruct (hotel_loop_returns budget l st) as (st' & H' & Hn & Hp)
  end.
  rewrite H'. simpl. eexists. split; [reflexivity|].
  simpl in Hn. split; [exact Hn|]. split.
  - apply Forall_forall. intros o Ho.
    assert (Hin : hotel_service.opt_number o
                  ∈ map hotel_service.opt_number (hotel_service.hotel_options st')).
    { apply list_elem_of_fmap. exists o. split; [reflexivity|exact Ho]. }
    rewrite Hn in Hin. apply list_elem_of_omap in Hin as (line & _ & Hh).
    exact (hotel_header_range _ _ Hh).
  - apply Hp. constructor.
Qed.

End HotelParser.

(** *** The prices, told from the segments of the text *)

(** A line added to a segment is a price line when it tells a price and is
    not taken as the name. *)
Lemma price_lines_snoc (price_like : string -> bool) (segment : list string)
    (line : string) :
  forall named,
    option_text.price_lines price_like named (segment ++ [line])
    = option_text.price_lines price_like named segment
      ++ (if negb (named || existsb option_text.name_like segment)
             && option_text.name_like line
          then []
          else if price_like line then [line] else []).
Proof.
  induction segment as [|x segment IH]; intro named.
  - simpl. rewrite orb_false_r.
    destruct (negb named && option_text.name_like line);
      [reflexivity|]. destruct (price_like line); reflexivity.
  - simpl. destruct named; simpl.
    + rewrite IH. simpl. destruct (price_like x); reflexivity.
    + destruct (option_text.name_like x); simpl.
      * rewrite IH. reflexivity.
      * rewrite IH. simpl. destruct (price_like x); reflexivity.
Qed.

(** A line that is taken as the name, or tells no price, leaves the price of
    the segment as it was. *)
Lemma told_price_kept (price_like : string -> bool)
    (float : string -> option Q) (estimate : Q) (segment : list string)
    (line : string) :
  negb (existsb option_text.name_like segment) && option_text.name_like line
  = true
  \/ price_like line = false ->
  option_text.told_price price_like float estimate (segment ++ [line])
  = option_text.told_price price_like float estimate segment.
Proof.
  intro H. unfold option_text.told_price. rewrite price_lines_snoc. simpl.
  destruct (negb (existsb option_text.name_like segment)
            && option_text.name_like line).
  - rewrite app_nil_r. reflexivity.
  - destruct H as [H|H]; [discriminate H|]. rewrite H, app_nil_r.
    reflexivity.
Qed.

(** A price line sets the price of the segment. *)
Lemma told_price_set (price_like : string -> bool)
    (float : string -> option Q) (estimate : Q) (segment : list string)
    (line : string) :
  negb (existsb option_text.name_like segment) && option_text.name_like line
  = false ->
  price_like line = true ->
  option_text.told_price price_like float estimate (segment ++ [line])
  = Some (match option_text.dollar_amount float line with
          | Some q => q
          | None => estimate
          end).
Proof.
  intros Hn Hp. unfold option_text.told_price.
  rewrite price_lines_snoc. simpl. rewrite Hn, Hp, last_snoc. reflexivity.
Qed.

(** Whether the segment has a line for the name, after one more line. *)
Lemma named_snoc (segment : list string) (line : string) (unnamed : bool) :
  unnamed = negb (existsb option_text.name_like segment) ->
  unnamed && option_text.name_like line = false ->
  unnamed = negb (existsb option_text.name_like (segment ++ [line])).
Proof.
  intros -> H. rewrite existsb_app. simpl. rewrite orb_false_r.
  destruct (existsb option_text.name_like segment); simpl in *;
    [reflexivity|]. rewrite H. reflexivity.
Qed.

Section ActivityPrices.

Variable float : string -> option Q.

(** The [try] block reads the dollar amount of the line, and the [except]
    branch takes over when there is none. *)
Lemma activity_read_price_dollar (line : string) :
  (forall q, activity_service.read_price float line = Returns q
             <-> option_text.dollar_amount float line = Some q)
  /\ forall h,
       try_except (activity_service.read_price float line) h
       = match option_text.dollar_amount float line with
         | Some q => q
         | None => h
         end.
Proof.
  unfold activity_service.read_price, option_text.dollar_amount, py_str.item.
  destruct (py_str.split line "$") as [|before [|after pieces]]; simpl;
    try (split; [intro q; split; discriminate|reflexivity]).
  destruct (py_str.words after) as [|first others]; simpl;
    try (split; [intro q; split; discriminate|reflexivity]).
  destruct (float (py_str.remove_char first ",")) as [q'|]; simpl.
  - split; [|reflexivity]. intro q. split; intro H; injection H as <-;
      reflexivity.
  - split; [intro q; split; discriminate|reflexivity].
Qed.

(** One line of the segment: the chain of tests keeps the option in step
    with the segment. *)
Lemma activity_details_agrees (daily_budget : Q) (line : string)
    (c : activity_service.activity_option) (k : Z) (segment : list string) :
  activity_agrees float daily_budget c (k, segment) ->
  exists c',
    activity_service.details float daily_budget line c = Returns c'
    /\ activity_agrees float daily_budget c' (k, segment ++ [line]).
Proof.
  intros (Hk & Hprice & Hname). simpl in Hk, Hprice, Hname.
  unfold activity_service.details, activity_agrees. simpl fst. simpl snd.
  destruct (activity_after_colon_returns line) as (v & Hv).
  rewrite <- andb_assoc.
  change (negb (py_str.contains line ":") && (5 <? String.length line)%nat)
    with (option_text.name_like line).
  rewrite Hname.
  destruct (negb (existsb option_text.name_like segment)
            && option_text.name_like line) eqn:En.
  { eexists. split; [reflexivity|]. simpl. split; [exact Hk|]. split.
    - rewrite told_price_kept by (left; exact En). exact Hprice.
    - rewrite existsb_app. simpl.
      apply andb_true_iff in En as [_ ->]. rewrite orb_true_r. reflexivity. }
  rewrite <- Hname in En.
  pose proof (named_snoc segment line _ Hname En) as Hname'.
  rewrite Hname in En.
  change (py_str.contains (py_str.lower line) "cost"
          || py_str.contains (py_str.lower line) "price"
          || py_str.contains line "$")
    with (option_text.activity_price_like line).
  destruct (option_text.activity_price_like line) eqn:Ep.
  { eexists. split; [reflexivity|]. simpl. split; [exact Hk|].
    split; [|exact Hname'].
    rewrite (told_price_set _ _ _ _ _ En Ep).
    destruct (activity_read_price_dollar line) as [_ ->].
    unfold activity_service.estimate, option_text.activity_estimate.
    rewrite Hk. reflexivity. }
  assert (Hkept : option_text.told_price option_text.activity_price_like float
                    (option_text.activity_estimate daily_budget k)
                    (segment ++ [line])
                  = activity_service.opt_price c).
  { rewrite told_price_kept by (right; exact Ep). symmetry. exact Hprice. }
  destruct (_ || _).
  { rewrite Hv. eexists. split; [reflexivity|]. simpl.
    split; [exact Hk|]. split; [symmetry; exact Hkept|exact Hname']. }
  destruct (_ || _).
  { rewrite Hv. eexists. split; [reflexivity|]. simpl.
    split; [exact Hk|]. split; [symmetry; exact Hkept|exact Hname']. }
  destruct (_ || _).
  { rewrite Hv. eexists. split; [reflexivity|]. simpl.
    split; [exact Hk|]. split; [symmetry; exact Hkept|exact Hname']. }
  eexists. split; [reflexivity|].
  split; [exact Hk|]. split; [symmetry; exact Hkept|exact Hname'].
Qed.

Lemma activity_agrees_view (daily_budget : Q)
    (c : activity_service.activity_option) (s : Z * list string) :
  activity_agrees float daily_budget c s ->
  activity_view c = option_text.told_activity float daily_budget s.
Proof.
  intros (Hk & Hprice & _). unfold activity_view, option_text.told_activity.
  rewrite Hk, Hprice. reflexivity.
Qed.

Lemma activity_options_view (daily_budget : Q)
    (st : activity_service.parser_state) (cur : option (Z * list string)) :
  both_or_none (activity_agrees float daily_budget)
               (activity_service.current st) cur ->
  map activity_view (activity_service.activity_options st)
  = map activity_view (activity_service.closed st)
    ++ map (option_text.told_activity float daily_budget)
           (option_text.opened cur).
Proof.
  intro H. unfold activity_service.activity_options. rewrite map_app.
  f_equal. destruct (activity_service.current st) as [c|], cur as [s|];
    simpl in *; try contradiction; [|reflexivity].
  rewrite (activity_agrees_view _ _ _ H). reflexivity.
Qed.

(** The loop over the lines returns the options that the segments tell. *)
Lemma activity_loop_prices (daily_budget : Q) (lines : list string) :
  forall (st : activity_service.parser_state)
         (cur : option (Z * list string)),
    both_or_none (activity_agrees float daily_budget)
                 (activity_service.current st) cur ->
    exists st',
      fold_left
        (fun (acc : outcome activity_service.parser_state) (line : string) =>
           let* st := acc in
           activity_service.parse_line float daily_budget st line)
        lines (Returns st) = Returns st'
      /\ map activity_view (activity_service.activity_options st')
         = map activity_view (activity_service.closed st)
           ++ map (option_text.told_activity float daily_budget)
                  (option_text.segments_from activity_service.header cur
                                             lines).
Proof.
  induction lines as [|line lines IH]; intros st cur Hst.
  - exists st. split; [reflexivity|].
    exact (activity_options_view daily_budget st cur Hst).
  - cbn [fold_left bind option_text.segments_from].
    unfold activity_service.parse_line. cbv zeta.
    destruct (String.eqb (py_str.strip line) "").
    { exact (IH st cur Hst). }
    destruct (activity_service.header (py_str.strip line)) as [k|].
    + cbn [activity_service.current].
      destruct (activity_details_agrees daily_budget (py_str.strip line)
                  (activity_service.new_option k) k [])
        as (c' & Hc & Hagree).
      { repeat split. }
      rewrite Hc. cbn [bind activity_service.closed].
      destruct (IH (activity_service.mkParser
                      (activity_service.activity_options st) (Some c'))
                   (Some (k, [py_str.strip line])) Hagree)
        as (st' & Hfold & Hview).
      exists st'. split; [exact Hfold|].
      rewrite Hview. cbn [activity_service.closed].
      rewrite (activity_options_view daily_budget st cur Hst), map_app,
        app_assoc.
      reflexivity.
    + destruct st as [closed [c|]], cur as [[k segment]|];
        simpl in Hst; try contradiction.
      * cbn [activity_service.current].
        destruct (activity_details_agrees daily_budget (py_str.strip line)
                    c k segment Hst) as (c' & Hc & Hagree).
        rewrite Hc. cbn [bind activity_service.closed].
        exact (IH (activity_service.mkParser closed (Some c'))
                  (Some (k, segment ++ [py_str.strip line])) Hagree).
      * cbn [activity_service.current].
        exact (IH (activity_service.mkParser closed None) None I).
Qed.

(** The activity parser returns, for every segment of the text, the number
    of the option and the price that the segment tells. *)
Lemma activity_parser_prices (destination : string) (budget : Q) (days : Z)
    (response : string) (daily : Q) (options : list activity_service.activity_option) :
  activity_service.daily_budget budget days = Returns daily ->
  activity_service.get_activity_suggestions float destination budget days
                                            response = Returns options ->
  map activity_view options = option_text.activities float daily response.
Proof.
  unfold activity_service.get_activity_suggestions. intros Hd. rewrite Hd.
  cbn [bind].
  destruct (activity_loop_prices daily (py_str.split response "010"%char)
              (activity_service.mkParser [] None) None I)
    as (st' & Hfold & Hview).
  rewrite Hfold. cbn [bind]. intro H. injection H as <-. exact Hview.
Qed.

End ActivityPrices.

Section HotelPrices.

Variable float : string -> option Q.

Lemma hotel_read_price_dollar (line : string) :
  (forall q, hotel_service.read_price float line = Returns q
             <-> option_text.dollar_amount float line = Some q)
  /\ forall h,
       try_except (hotel_service.read_price float line) h
       = match option_text.dollar_amount float line with
         | Some q => q
         | None => h
         end.
Proof.
  unfold hotel_service.read_price, option_text.dollar_amount, py_str.item.
  destruct (py_str.split line "$") as [|before [|after pieces]]; simpl;
    try (split; [intro q; split; discriminate|reflexivity]).
  destruct (py_str.words after) as [|first others]; simpl;
    try (split; [intro q; split; discriminate|reflexivity]).
  destruct (float (py_str.remove_char first ",")) as [q'|]; simpl.
  - split; [|reflexivity]. intro q. split; intro H; injection H as <-;
      reflexivity.
  - split; [intro q; split; discriminate|reflexivity].
Qed.

(** One line of the segment: the chain of tests keeps the option in step
    with the segment.  The tests for the stars, the location and the
    breakfast come before the test for the price. *)
Lemma hotel_details_agrees (budget : Q) (line : string)
    (c : hotel_service.hotel_option) (k : Z) (segment : list string) :
  hotel_agrees float budget c (k, segment) ->
  exists c',
    hotel_service.details float budget line c = Returns c'
    /\ hotel_agrees float budget c' (k, segment ++ [line]).
Proof.
  intros (Hk & Hprice & Hname). simpl in Hk, Hprice, Hname.
  unfold hotel_service.details, hotel_agrees. simpl fst. simpl snd.
  destruct (hotel_after_colon_returns line) as (v & Hv).
  rewrite <- andb_assoc.
  change (negb (py_str.contains line ":") && (5 <? String.length line)%nat)
    with (option_text.name_like line).
  rewrite Hname.
  destruct (negb (existsb option_text.name_like segment)
            && option_text.name_like line) eqn:En.
  { eexists. split; [reflexivity|]. simpl. split; [exact Hk|]. split.
    - rewrite told_price_kept by (left; exact En). exact Hprice.
    - rewrite existsb_app. simpl.
      apply andb_true_iff in En as [_ ->]. rewrite orb_true_r. reflexivity. }
  rewrite <- Hname in En.
  pose proof (named_snoc segment line _ Hname En) as Hname'.
  rewrite Hname in En.
  assert (Hkept : option_text.hotel_price_like line = false ->
                  hotel_service.opt_price c
                  = option_text.told_price option_text.hotel_price_like float
                      (option_text.hotel_estimate budget k)
                      (segment ++ [line])).
  { intro Ep. rewrite told_price_kept by (right; exact Ep). exact Hprice. }
  assert (Hlike : option_text.hotel_price_like line
                  = negb (py_str.contains (py_str.lower line) "star"
                          || py_str.contains line "⭐")
                    && negb (py_str.contains (py_str.lower line) "location"
                             || py_str.contains (py_str.lower line) "area")
                    && negb (py_str.contains (py_str.lower line) "breakfast")
                    && (py_str.contains (py_str.lower line) "price"
                        || py_str.contains line "$")) by reflexivity.
  destruct (py_str.contains (py_str.lower line) "star"
            || py_str.contains line "⭐") eqn:Estar.
  { eexists. split; [reflexivity|]. simpl.
    split; [exact Hk|]. split; [apply Hkept; rewrite Hlike; reflexivity|exact Hname']. }
  destruct (py_str.contains (py_str.lower line) "location"
            || py_str.contains (py_str.lower line) "area") eqn:Earea.
  { rewrite Hv. eexists. split; [reflexivity|]. simpl.
    split; [exact Hk|]. split; [apply Hkept; rewrite Hlike; reflexivity|exact Hname']. }
  destruct (py_str.contains (py_str.lower line) "breakfast") eqn:Emeal.
  { rewrite Hv. eexists. split; [reflexivity|]. simpl.
    split; [exact Hk|]. split; [apply Hkept; rewrite Hlike; reflexivity|exact Hname']. }
  destruct (py_str.contains (py_str.lower line) "price"
            || py_str.contains line "$") eqn:Ep.
  { eexists. split; [reflexivity|]. simpl. split; [exact Hk|].
    split; [|exact Hname'].
    rewrite (told_price_set option_text.hotel_price_like float _ _ _ En).
    - destruct (hotel_read_price_dollar line) as [_ ->].
      unfold hotel_service.estimate, option_text.hotel_estimate.
      rewrite Hk. reflexivity.
    - rewrite Hlike. reflexivity. }
  destruct (py_str.contains (py_str.lower line) "feature"
            || py_str.contains (py_str.lower line) "selling"
            || py_str.contains line ":").
  { rewrite Hv. eexists. split; [reflexivity|]. simpl.
    split; [exact Hk|]. split; [apply Hkept; rewrite Hlike; reflexivity|exact Hname']. }
  eexists. split; [reflexivity|].
  split; [exact Hk|]. split; [apply Hkept; rewrite Hlike; reflexivity|exact Hname'].
Qed.

Lemma hotel_agrees_view (budget : Q) (c : hotel_service.hotel_option)
    (s : Z * list string) :
  hotel_agrees float budget c s ->
  hotel_view c = option_text.told_hotel float budget s.
Proof.
  intros (Hk & Hprice & _). unfold hotel_view, option_text.told_hotel.
  rewrite Hk, Hprice. reflexivity.
Qed.

Lemma hotel_options_view (budget : Q) (st : hotel_service.parser_state)
    (cur : option (Z * list string)) :
  both_or_none (hotel_agrees float budget) (hotel_service.current st) cur ->
  map hotel_view (hotel_service.hotel_options st)
  = map hotel_view (hotel_service.closed st)
    ++ map (option_text.told_hotel float budget) (option_text.opened cur).
Proof.
  intro H. unfold hotel_service.hotel_options. rewrite map_app.
  f_equal. destruct (hotel_service.current st) as [c|], cur as [s|];
    simpl in *; try contradiction; [|reflexivity].
  rewrite (hotel_agrees_view _ _ _ H). reflexivity.
Qed.

(** The loop over the lines returns the options that the segments tell. *)
Lemma hotel_loop_prices (budget : Q) (lines : list string) :
  forall (st : hotel_service.parser_state) (cur : option (Z * list string)),
    both_or_none (hotel_agrees float budget) (hotel_service.current st) cur ->
    exists st',
      fold_left
        (fun (acc : outcome hotel_service.parser_state) (line : string) =>
           let* st := acc in hotel_service.parse_line float budget st line)
        lines (Returns st) = Returns st'
      /\ map hotel_view (hotel_service.hotel_options st')
         = map hotel_view (hotel_service.closed st)
           ++ map (option_text.told_hotel float budget)
                  (option_text.segments_from hotel_service.header cur lines).
Proof.
  induction lines as [|line lines IH]; intros st cur Hst.
  - exists st. split; [reflexivity|].
    exact (hotel_options_view budget st cur Hst).
  - cbn [fold_left bind option_text.segments_from].
    unfold hotel_service.parse_line. cbv zeta.
    destruct (String.eqb (py_str.strip line) "").
    { exact (IH st cur Hst). }
    destruct (hotel_service.header (py_str.strip line)) as [k|].
    + cbn [hotel_service.current].
      destruct (hotel_details_agrees budget (py_str.strip line)
                  (hotel_service.new_option k) k [])
        as (c' & Hc & Hagree).
      { repeat split. }
      rewrite Hc. cbn [bind hotel_service.closed].
      destruct (IH (hotel_service.mkParser
                      (hotel_service.hotel_options st) (Some c'))
                   (Some (k, [py_str.strip line])) Hagree)
        as (st' & Hfold & Hview).
      exists st'. split; [exact Hfold|].
      rewrite Hview. cbn [hotel_service.closed].
      rewrite (hotel_options_view budget st cur Hst), map_app, app_assoc.
      reflexivity.
    + destruct st as [closed [c|]], cur as [[k segment]|];
        simpl in Hst; try contradiction.
      * cbn [hotel_service.current].
        destruct (hotel_details_agrees budget (py_str.strip line)
                    c k segment Hst) as (c' & Hc & Hagree).
        rewrite Hc. cbn [bind hotel_service.closed].
        exact (IH (hotel_service.mkParser closed (Some c'))
                  (Some (k, segment ++ [py_str.strip line])) Hagree).
      * cbn [hotel_service.current].
        exact (IH (hotel_service.mkParser closed None) None I).
Qed.

(** The hotel parser returns, for every segment of the text, the number of
    the option and the price that the segment tells. *)
Lemma hotel_parser_prices (destination : string) (budget : Q) (nights : Z)
    (response : string) (options : list hotel_service.hotel_option) :
  hotel_service.get_hotel_suggestions float destination budget nights response
  = Returns options ->
  map hotel_view options = option_text.hotels float budget response.
Proof.
  unfold hotel_service.get_hotel_suggestions.
  rewrite max_per_night_returns. cbn [bind].
  destruct (hotel_loop_prices budget (py_str.split response "010"%char)
              (hotel_service.mkParser [] None) None I)
    as (st' & Hfold & Hview).
  rewrite Hfold. cbn [bind]. intro H. injection H as <-. exact Hview.
Qed.

End HotelPrices.


Lemma activity_estimate_nonneg (budget : Q) (days : Z) (daily : Q)
    (o : activity_service.activity_option) :
  (0 <= budget)%Q ->
  activity_service.daily_budget budget days = Returns daily ->
  1 <= activity_service.opt_number o ->
  (0 <= activity_service.estimate daily o)%Q.
Proof.
  intros Hb Hd Ho. rewrite daily_budget_returns in Hd. injection Hd as <-.
  unfold activity_service.estimate.
  apply Qmult_le_0_compat.
  - destruct (0 <? days) eqn:E; [|exact Hb].
    apply Qle_shift_div_l.
    + rewrite <- (Zlt_Qlt 0). lia.
    + rewrite Qmult_0_l. exact Hb.
  - apply Qmult_le_0_compat; [discriminate|].
    rewrite <- (Zle_Qle 0). lia.
Qed.

Lemma hotel_estimate_nonneg (budget : Q) (o : hotel_service.hotel_option) :
  (0 <= budget)%Q -> (0 <= hotel_service.estimate budget o)%Q.
Proof.
  intro Hb. unfold hotel_service.estimate.
  apply Qmult_le_0_compat; [exact Hb|].
  destruct (_ =? 3); [discriminate|]. destruct (_ =? 2); discriminate.
Qed.

(** C3, as stated, fails on a text without header lines: the parser returns
    no option at all. *)
Lemma C3_no_header_no_option :
  activity_service.get_activity_suggestions
    py_str.decimal "Paris" 1000 5 "I could not find any activity."
  = Returns []
  /\ hotel_service.get_hotel_suggestions
       py_str.decimal "Paris" 1000 5 "I could not find any hotel."
     = Returns [].
Proof.
  split; vm_compute; reflexivity.
Qed.

(** A header line repeated six times gives six options, and a price line
    may carry a negative number or none. *)
Lemma six_headers_six_options :
  exists options,
    activity_service.get_activity_suggestions
      py_str.decimal "Paris" 1000 5
      (String.concat (String "010" "") ["1."; "1."; "1."; "1."; "1."; "1."])
    = Returns options
    /\ length options = 6%nat
    /\ Forall (fun o => activity_service.opt_price o = None) options.
Proof.
  eexists. split; [vm_compute; reflexivity|]. split; [reflexivity|].
  repeat constructor.
Qed.

Lemma negative_price_is_kept :
  exists o,
    hotel_service.get_hotel_suggestions
      py_str.decimal "Paris" 1000 5
      (String.concat (String "010" "") ["Option 1: Grand Hotel"; "Price: $-5"])
    = Returns [o]
    /\ hotel_service.opt_price o = Some (-5)%Q.
Proof.
  eexists. split; vm_compute; reflexivity.
Qed.

(** C3 (amended).  For every destination, budget, duration and text, the
    activity and hotel parsers return without raising.  They return one
    option for each header line of the text, in order (none when the text has
    no header line, more than five when it has more), numbered from 1 to 5
    for activities and from 1 to 3 for hotels.  The number and the price of
    every option are those its segment tells ([option_text.activities],
    [option_text.hotels]): the segment of an option is made of the lines from
    its header line up to the next header line; an option carries a price
    only when its segment has a price line, which is a line that tells a
    price and is not the line taken as the name; the price is that of the
    last price line, namely the number [float] reads after the dollar sign
    or, when that reading fails, the estimate of the [except] branch (a
    fraction of the budget fixed by the number of the option), which is
    non-negative when the budget is. *)
Theorem C3_suggestion_parsers (float : string -> option Q)
    (destination : string) (budget : Q) (duration : Z) (response : string) :
  (exists daily options,
     activity_service.daily_budget budget duration = Returns daily
     /\ activity_service.get_activity_suggestions float destination budget
                                                  duration response
        = Returns options
     /\ map activity_service.opt_number options = activity_headers response
     /\ Forall (fun o => 1 <= activity_service.opt_number o <= 5) options
     /\ Forall (activity_price_source float daily) options
     /\ map activity_view options
        = option_text.activities float daily response
     /\ ((0 <= budget)%Q ->
         Forall (fun o => (0 <= activity_service.estimate daily o)%Q) options))
  /\ (exists options,
        hotel_service.get_hotel_suggestions float destination budget duration
                                            response
        = Returns options
        /\ map hotel_service.opt_number options = hotel_headers response
        /\ Forall (fun o => 1 <= hotel_service.opt_number o <= 3) options
        /\ Forall (hotel_price_source float budget) options
        /\ map hotel_view options = option_text.hotels float budget response
        /\ ((0 <= budget)%Q ->
            Forall (fun o => (0 <= hotel_service.estimate budget o)%Q) options)).
Proof.
  split.
  - destruct (activity_parser_returns float destination budget duration response)
      as (daily & options & Hd & Hr & Hn & Hrange & Hp).
    exists daily, options. repeat split; try assumption.
    { exact (activity_parser_prices float _ _ _ _ _ _ Hd Hr). }
    intro Hb. eapply Forall_impl; [exact Hrange|].
    intros o [Ho _]. simpl. exact (activity_estimate_nonneg _ _ _ _ Hb Hd Ho).
  - destruct (hotel_parser_returns float destination budget duration response)
      as (options & Hr & Hn & Hrange & Hp).
    exists options. repeat split; try assumption.
    { exact (hotel_parser_prices float _ _ _ _ _ Hr). }
    intro Hb. apply Forall_forall. intros o _. apply hotel_estimate_nonneg, Hb.
Qed.

(** Two header lines give two options; the header lines are taken as the
    names, the first price is the number after the dollar sign, the second
    is the estimate 1000 / 5 * (0.1 * 2). *)
Lemma C3_suggestion_parsers_witness :
  exists options,
    activity_service.get_activity_suggestions
      py_str.decimal "Paris" 1000 5
      (String.concat (String "010" "")
         ["1. Louvre Museum visit"; "Cost: $25.00 per person";
          "2. Seine cruise"; "Price: about twenty dollars"])
    = Returns options
    /\ map activity_service.opt_number options = [1; 2]
    /\ map activity_view options
       = [(1, Some 25.00%Q); (2, Some (2000 # 50)%Q)]
    /\ Forall (fun o => (0 <= activity_service.estimate (1000 / 5) o)%Q) options.
Proof.
  destruct (C3_suggestion_parsers py_str.decimal "Paris" 1000 5
              (String.concat (String "010" "")
                 ["1. Louvre Museum visit"; "Cost: $25.00 per person";
                  "2. Seine cruise"; "Price: about twenty dollars"]))
    as [(daily & options & Hd & Hr & Hn & _ & _ & Htold & Hnonneg) _].
  exists options. split; [exact Hr|].
  assert (Hdaily : daily = (1000 / 5)%Q).
  { rewrite daily_budget_returns in Hd. injection Hd as <-. reflexivity. }
  subst daily.
  split; [rewrite Hn; vm_compute; reflexivity|].
  split; [|apply Hnonneg; discriminate].
  rewrite Htold. vm_compute. reflexivity.
Defined.
(** ** The dictionary form of the plan and the plan file (C5) *)

Lemma not_field (k : string) :
  k ∉ plan_dict.field_names ->
  k <> "total_budget"%string /\ k <> "remaining_budget"%string
  /\ k <> "departure"%string /\ k <> "destination"%string
  /\ k <> "departure_date"%string /\ k <> "return_date"%string
  /\ k <> "travelers"%string /\ k <> "flights"%string
  /\ k <> "hotels"%string /\ k <> "activities"%string.
Proof.
  unfold plan_dict.field_names. rewrite !not_elem_of_cons. tauto.
Qed.

Lemma not_descriptor (k : string) :
  k ∉ plan_dict.descriptor_names ->
  k <> "__class__"%string /\ k <> "__dict__"%string
  /\ k <> "__weakref__"%string.
Proof.
  unfold plan_dict.descriptor_names. rewrite !not_elem_of_cons. tauto.
Qed.

(** A field of the plan is no descriptor name and not the name of the
    method [to_dict]. *)
Lemma field_is_plain (k : string) :
  k ∈ plan_dict.field_names ->
  (k ∉ plan_dict.descriptor_names) /\ k <> "to_dict"%string.
Proof.
  intro H. apply list_elem_of_In in H. simpl in H.
  repeat (destruct H as [<-|H];
          [split; [intro H'; apply list_elem_of_In in H'; simpl in H';
                   repeat (destruct H' as [H'|H']; [discriminate H'|]);
                   exact H'
                  |discriminate]|]).
  destruct H.
Qed.

(** [__init__] sets the ten attributes and nothing else. *)
Lemma init_has_fields :
  Forall (fun k => is_Some (plan_dict.init !! k)) plan_dict.field_names.
Proof.
  repeat constructor; eexists; vm_compute; reflexivity.
Qed.

Lemma init_other (k : string) :
  k ∉ plan_dict.field_names -> plan_dict.init !! k = None.
Proof.
  intro H. apply not_field in H. unfold plan_dict.init.
  rewrite !lookup_insert_ne by (intro; subst; tauto). apply lookup_empty.
Qed.

(** *** [setattr] and the loop of [from_dict] *)

(** On a name that is no descriptor name, [setattr] stores the attribute. *)
Lemma setattr_plain (plan : gmap string plan_dict.value) (key : string)
    (v : plan_dict.value) :
  key ∉ plan_dict.descriptor_names ->
  plan_dict.setattr plan key v = Returns (<[key := v]> plan).
Proof.
  intro H. apply not_descriptor in H. destruct H as (H1 & H2 & H3).
  unfold plan_dict.setattr.
  destruct (String.eqb_spec key "__class__"); [tauto|].
  destruct (String.eqb_spec key "__weakref__"); [tauto|].
  destruct (String.eqb_spec key "__dict__"); [tauto|].
  reflexivity.
Qed.

Lemma setattr_loop_raises (data : plan_dict.dict) (e : exn) :
  plan_dict.setattr_loop data (Raises e) = Raises e.
Proof.
  induction data as [|item data IH]; [reflexivity|exact IH].
Qed.

Lemma setattr_loop_app (before after : plan_dict.dict)
    (plan : outcome (gmap string plan_dict.value)) :
  plan_dict.setattr_loop (before ++ after) plan
  = plan_dict.setattr_loop after (plan_dict.setattr_loop before plan).
Proof.
  apply fold_left_app.
Qed.

Lemma setattr_loop_plain (data : plan_dict.dict)
    (plan : gmap string plan_dict.value) :
  Forall (fun item => fst item ∉ plan_dict.descriptor_names) data ->
  plan_dict.setattr_loop data (Returns plan) = Returns (plan_dict.inserted data plan).
Proof.
  intro H. revert plan. induction H as [|item data Hitem _ IH]; intro plan.
  - reflexivity.
  - unfold plan_dict.setattr_loop, plan_dict.inserted. cbn [fold_left bind].
    rewrite (setattr_plain _ _ _ Hitem). apply IH.
Qed.

(** An attribute after the insertions is the one the items give, and
    otherwise the one that was there. *)
Lemma inserted_lookup (data : plan_dict.dict)
    (plan : gmap string plan_dict.value) (k : string) :
  plan_dict.inserted data plan !! k
  = match plan_dict.get data k with
    | Some v => Some v
    | None => plan !! k
    end.
Proof.
  unfold plan_dict.get, plan_dict.as_attributes.
  revert plan. induction data as [|[key v] data IH]; intro plan.
  - simpl. rewrite lookup_empty. reflexivity.
  - change (plan_dict.inserted ((key, v) :: data) plan)
      with (plan_dict.inserted data (<[key := v]> plan)).
    change (plan_dict.inserted ((key, v) :: data) ∅)
      with (plan_dict.inserted data (<[key := v]> ∅)).
    rewrite (IH (<[key := v]> plan)), (IH (<[key := v]> ∅)).
    destruct (plan_dict.inserted data ∅ !! k); [reflexivity|].
    destruct (decide (key = k)) as [->|Hne].
    + rewrite !lookup_insert_eq. reflexivity.
    + rewrite !lookup_insert_ne by exact Hne. rewrite lookup_empty.
      reflexivity.
Qed.

(** On a dictionary without descriptor names, [from_dict] returns the fresh
    plan overridden by the items. *)
Lemma from_dict_plain (data : plan_dict.dict) :
  Forall (fun item => fst item ∉ plan_dict.descriptor_names) data ->
  exists plan,
    plan_dict.from_dict data = Returns plan
    /\ (forall k, plan !! k = match plan_dict.get data k with
                              | Some v => Some v
                              | None => plan_dict.init !! k
                              end)
    /\ Forall (fun k => is_Some (plan !! k)) plan_dict.field_names.
Proof.
  intro H. exists (plan_dict.inserted data plan_dict.init).
  split; [exact (setattr_loop_plain data plan_dict.init H)|].
  split; [intro k; apply inserted_lookup|].
  pose proof init_has_fields as Hi. rewrite Forall_forall in *.
  intros k Hk. rewrite inserted_lookup.
  destruct (plan_dict.get data k); [eexists; reflexivity|exact (Hi k Hk)].
Qed.

(** What [from_dict] does at the first descriptor name of the data. *)
Lemma from_dict_descriptor (before after : plan_dict.dict) (key : string)
    (v : plan_dict.value) :
  Forall (fun item => fst item ∉ plan_dict.descriptor_names) before ->
  (key = "__class__"%string ->
   plan_dict.from_dict (before ++ (key, v) :: after) = Raises TypeError)
  /\ (key = "__weakref__"%string ->
      plan_dict.from_dict (before ++ (key, v) :: after)
      = Raises AttributeError)
  /\ (key = "__dict__"%string ->
      (forall d, v <> plan_dict.VDict d) ->
      plan_dict.from_dict (before ++ (key, v) :: after) = Raises TypeError)
  /\ (key = "__dict__"%string ->
      forall d, v = plan_dict.VDict d ->
      Forall (fun item => fst item ∉ plan_dict.descriptor_names) after ->
      exists plan,
        plan_dict.from_dict (before ++ (key, v) :: after) = Returns plan
        /\ forall k, plan !! k = match plan_dict.get after k with
                                 | Some v => Some v
                                 | None => plan_dict.get d k
                                 end).
Proof.
  intro Hb.
  assert (E : plan_dict.from_dict (before ++ (key, v) :: after)
              = plan_dict.setattr_loop after
                  (plan_dict.setattr (plan_dict.inserted before plan_dict.init) key v)).
  { change (plan_dict.from_dict (before ++ (key, v) :: after))
      with (plan_dict.setattr_loop (before ++ (key, v) :: after)
              (Returns plan_dict.init)).
    rewrite setattr_loop_app, (setattr_loop_plain before _ Hb).
    reflexivity. }
  rewrite E. clear E. repeat split.
  - intros ->. apply setattr_loop_raises.
  - intros ->. apply setattr_loop_raises.
  - intros -> Hv. destruct v; try apply setattr_loop_raises.
    exfalso. exact (Hv _ eq_refl).
  - intros -> d -> Ha. exists (plan_dict.inserted after (plan_dict.as_attributes d)).
    split.
    + exact (setattr_loop_plain after _ Ha).
    + intro k. apply inserted_lookup.
Qed.

(** *** [to_dict] *)

(** On an instance that has the ten attributes, [to_dict] returns the
    dictionary of exactly these, in the order of the source. *)
Lemma to_dict_returns (self : gmap string plan_dict.value) :
  Forall (fun k => is_Some (self !! k)) plan_dict.field_names ->
  exists d,
    plan_dict.to_dict self = Returns d
    /\ map fst d = plan_dict.field_names
    /\ Forall (fun k => plan_dict.get d k = self !! k) plan_dict.field_names
    /\ (forall k, k ∉ plan_dict.field_names -> plan_dict.get d k = None).
Proof.
  intro H. unfold plan_dict.field_names in H.
  repeat match goal with
         | H : Forall _ (_ :: _) |- _ =>
             apply Forall_cons in H; destruct H as [[? ?] H]
         end.
  unfold plan_dict.to_dict, plan_dict.getattr.
  repeat match goal with
         | H : self !! ?k = Some _ |- context [self !! ?k] => rewrite H
         end.
  simpl. eexists. split; [reflexivity|]. split; [reflexivity|]. split.
  - repeat constructor;
      repeat match goal with
             | H : self !! ?k = Some _ |- context [self !! ?k] => rewrite H
             end;
      vm_compute; reflexivity.
  - intros k Hk. apply not_field in Hk.
    unfold plan_dict.get, plan_dict.as_attributes, plan_dict.inserted.
    cbn [fold_left fst snd].
    rewrite !lookup_insert_ne by (intro; subst; tauto). apply lookup_empty.
Qed.

(** The keys of what [to_dict] returns are no descriptor names. *)
Lemma fields_are_plain (d : plan_dict.dict) :
  map fst d = plan_dict.field_names ->
  Forall (fun item => fst item ∉ plan_dict.descriptor_names) d.
Proof.
  intro H. apply Forall_forall. intros item Hitem.
  apply field_is_plain. rewrite <- H. apply list_elem_of_fmap.
  exists item. split; [reflexivity|exact Hitem].
Qed.

(** The round trip through [to_dict] and [from_dict] gives back every
    attribute that [__init__] names, and the instance itself when it has no
    other attribute. *)
Lemma dict_round_trip (self : gmap string plan_dict.value) :
  Forall (fun k => is_Some (self !! k)) plan_dict.field_names ->
  exists d plan,
    plan_dict.to_dict self = Returns d
    /\ plan_dict.from_dict d = Returns plan
    /\ Forall (fun k => plan !! k = self !! k) plan_dict.field_names
    /\ ((forall k, is_Some (self !! k) -> k ∈ plan_dict.field_names) ->
        plan = self).
Proof.
  intro H.
  destruct (to_dict_returns self H) as (d & Hd & Hkeys & Hsame & Hother).
  destruct (from_dict_plain d (fields_are_plain d Hkeys))
    as (plan & Hplan & Hlookup & _).
  exists d, plan. split; [exact Hd|]. split; [exact Hplan|].
  assert (Hfields : Forall (fun k => plan !! k = self !! k)
                           plan_dict.field_names).
  { rewrite Forall_forall in *. intros k Hk.
    rewrite Hlookup, (Hsame k Hk).
    destruct (H k Hk) as [v ->]. reflexivity. }
  split; [exact Hfields|].
  intro Honly. apply map_eq. intro k.
  destruct (decide (k ∈ plan_dict.field_names)) as [Hk|Hk].
  - rewrite Forall_forall in Hfields. exact (Hfields k Hk).
  - rewrite Hlookup, (Hother k Hk), (init_other k Hk).
    destruct (self !! k) as [v|] eqn:E; [|reflexivity].
    exfalso. apply Hk, Honly. exists v. exact E.
Qed.

(** The attributes of a plan of the ledger model are the ten that
    [__init__] names. *)
Lemma attributes_fields (p : TravelPlan) :
  Forall (fun k => is_Some (plan_dict.attributes p !! k)) plan_dict.field_names
  /\ (forall k, is_Some (plan_dict.attributes p !! k) ->
                k ∈ plan_dict.field_names).
Proof.
  split.
  - unfold plan_dict.attributes, plan_dict.field_names.
    repeat constructor; eexists; simplify_map_eq; reflexivity.
  - intros k [v Hv].
    destruct (decide (k ∈ plan_dict.field_names)) as [Hk|Hk]; [exact Hk|].
    exfalso. apply not_field in Hk. unfold plan_dict.attributes in Hv.
    rewrite !lookup_insert_ne in Hv by (intro; subst; tauto).
    rewrite lookup_empty in Hv. discriminate.
Qed.

(** C5.  For every instance of [TravelPlan] that has the ten attributes of
    [__init__], whatever they hold, and no attribute that hides the method,
    the call of [to_dict] returns and [from_dict] of its result returns an
    instance with the same value in each of the ten attributes; it is the
    same instance when there is no other attribute, as for every plan of
    the ledger model, with any combination of bookings.  On data without
    the keys [__class__], [__dict__] and [__weakref__], [from_dict] returns:
    the attributes named in the data have the values of the data, the
    others the values [__init__] sets, and the ten attributes are there.
    At the first of these three keys, [from_dict] raises [TypeError] for
    [__class__] and for a [__dict__] that is no dictionary, raises
    [AttributeError] for [__weakref__], and for a [__dict__] that is a
    dictionary goes on with that dictionary as the attributes, without
    those of [__init__].  [load_from_file] returns [None] for a missing
    file and for a text that is not JSON, raises [AttributeError] for a
    document that is no object, and otherwise does what [from_dict]
    does. *)
Theorem C5_plan_dictionary_round_trip :
  (forall self : gmap string plan_dict.value,
     Forall (fun k => is_Some (self !! k)) plan_dict.field_names ->
     self !! "to_dict"%string = None ->
     exists d plan,
       plan_dict.call_to_dict self = Returns d
       /\ plan_dict.from_dict d = Returns plan
       /\ Forall (fun k => plan !! k = self !! k) plan_dict.field_names
       /\ ((forall k, is_Some (self !! k) -> k ∈ plan_dict.field_names) ->
           plan = self))
  /\ (forall p : TravelPlan,
        exists d,
          plan_dict.call_to_dict (plan_dict.attributes p) = Returns d
          /\ plan_dict.from_dict d = Returns (plan_dict.attributes p))
  /\ (forall data : plan_dict.dict,
        Forall (fun item => fst item ∉ plan_dict.descriptor_names) data ->
        exists plan,
          plan_dict.from_dict data = Returns plan
          /\ (forall k, plan !! k = match plan_dict.get data k with
                                    | Some v => Some v
                                    | None => plan_dict.init !! k
                                    end)
          /\ Forall (fun k => is_Some (plan !! k)) plan_dict.field_names)
  /\ (forall (before after : plan_dict.dict) (key : string)
             (v : plan_dict.value),
        Forall (fun item => fst item ∉ plan_dict.descriptor_names) before ->
        (key = "__class__"%string ->
         plan_dict.from_dict (before ++ (key, v) :: after) = Raises TypeError)
        /\ (key = "__weakref__"%string ->
            plan_dict.from_dict (before ++ (key, v) :: after)
            = Raises AttributeError)
        /\ (key = "__dict__"%string ->
            (forall d, v <> plan_dict.VDict d) ->
            plan_dict.from_dict (before ++ (key, v) :: after)
            = Raises TypeError)
        /\ (key = "__dict__"%string ->
            forall d, v = plan_dict.VDict d ->
            Forall (fun item => fst item ∉ plan_dict.descriptor_names)
                   after ->
            exists plan,
              plan_dict.from_dict (before ++ (key, v) :: after)
              = Returns plan
              /\ forall k, plan !! k = match plan_dict.get after k with
                                       | Some v => Some v
                                       | None => plan_dict.get d k
                                       end))
  /\ (forall json_load,
        plan_dict.load_from_file json_load plan_dict.FileNotFound = Returns None
        /\ (forall text,
              json_load text = None ->
              plan_dict.load_from_file json_load (plan_dict.FileText text)
              = Returns None)
        /\ (forall text v,
              json_load text = Some (plan_dict.Other v) ->
              plan_dict.load_from_file json_load (plan_dict.FileText text)
              = Raises AttributeError)
        /\ (forall text data,
              json_load text = Some (plan_dict.Object data) ->
              plan_dict.load_from_file json_load (plan_dict.FileText text)
              = match plan_dict.from_dict data with
                | Returns plan => Returns (Some plan)
                | Raises e => Raises e
                end)).
Proof.
  split; [|split; [|split; [|split]]].
  - intros self H Hmethod. unfold plan_dict.call_to_dict. rewrite Hmethod.
    exact (dict_round_trip self H).
  - intro p. destruct (attributes_fields p) as [Hall Honly].
    destruct (dict_round_trip _ Hall) as (d & plan & Hd & Hplan & _ & Heq).
    exists d. split.
    + unfold plan_dict.call_to_dict.
      destruct (plan_dict.attributes p !! "to_dict"%string) as [v|] eqn:E;
        [|exact Hd].
      exfalso. assert (Hk : "to_dict"%string ∈ plan_dict.field_names)
        by (apply Honly; exists v; exact E).
      apply field_is_plain in Hk. destruct Hk as [_ Hk]. exact (Hk eq_refl).
    + rewrite Hplan, (Heq Honly). reflexivity.
  - exact from_dict_plain.
  - exact from_dict_descriptor.
  - intro json_load. split; [reflexivity|]. split; [|split].
    + intros text H. simpl. rewrite H. reflexivity.
    + intros text v H. simpl. rewrite H. reflexivity.
    + intros text data H. simpl. rewrite H.
      destruct (plan_dict.from_dict data); reflexivity.
Qed.

(** The fresh plan survives the round trip; a file that names the travelers
    and an unknown attribute loads with the other attributes at their
    defaults; a text that is no JSON loads as [None]. *)
Lemma C5_plan_dictionary_round_trip_witness :
  (exists d,
     plan_dict.call_to_dict plan_dict.init = Returns d
     /\ plan_dict.from_dict d = Returns plan_dict.init)
  /\ (exists plan,
        plan_dict.load_from_file sample_json_load
          (plan_dict.FileText sample_text)
        = Returns (Some plan)
        /\ plan !! "travelers"%string = Some (plan_dict.VInt 2)
        /\ plan !! "nickname"%string = Some (plan_dict.VStr "x")
        /\ plan !! "flights"%string = plan_dict.init !! "flights"%string)
  /\ plan_dict.load_from_file sample_json_load (plan_dict.FileText "{travelers")
     = Returns None.
Proof.
  destruct C5_plan_dictionary_round_trip as (Hround & _ & Hload & _ & Hfile).
  split; [|split].
  - assert (Hm : plan_dict.init !! "to_dict"%string = None)
      by (vm_compute; reflexivity).
    destruct (Hround plan_dict.init init_has_fields Hm)
      as (d & plan & Hd & Hplan & _ & Heq).
    exists d. split; [exact Hd|]. rewrite Hplan. f_equal. apply Heq.
    intros k Hk. destruct (decide (k ∈ plan_dict.field_names)) as [H|H];
      [exact H|].
    rewrite (init_other k H) in Hk. destruct Hk as [v Hv]. discriminate Hv.
  - destruct (Hfile sample_json_load) as (_ & _ & _ & Hobj).
    destruct (Hload [("travelers"%string, plan_dict.VInt 2);
                     ("nickname"%string, plan_dict.VStr "x")])
      as (plan & Hplan & Hlookup & _).
    { repeat constructor; simpl; intro H; apply list_elem_of_In in H;
        simpl in H; repeat (destruct H as [H|H]; [discriminate H|]);
        exact H. }
    exists plan. split.
    + rewrite (Hobj sample_text _ eq_refl), Hplan. reflexivity.
    + rewrite !Hlookup. vm_compute. repeat split; reflexivity.
  - destruct (Hfile sample_json_load) as (_ & Hbad & _).
    apply Hbad. reflexivity.
Defined.

(** A plan file whose one key is [__class__] makes [load_from_file] raise
    [TypeError]; a plan file whose one key is [__dict__], with an empty
    dictionary, loads as a plan without attributes, on which [to_dict]
    raises [AttributeError]. *)
Theorem C5_class_key_raises :
  plan_dict.load_from_file sample_json_load (plan_dict.FileText class_text)
  = Raises TypeError
  /\ plan_dict.from_dict [("__dict__"%string, plan_dict.VDict [])]
     = Returns ∅
  /\ plan_dict.call_to_dict ∅ = Raises AttributeError.
Proof.
  split; [|split]; reflexivity.
Qed.

(** ** Further properties of the bookings *)

Lemma get_numeric_input_in_range (min_value : Q) (max_value : option Q)
    (entries : list Q) (num : Q) :
  input_utils.get_numeric_input min_value max_value entries = Some num ->
  input_utils.in_range min_value max_value num = true.
Proof.
  induction entries as [|e es IH]; simpl; [discriminate|].
  destruct (input_utils.in_range min_value max_value e) eqn:E.
  - intro H. injection H as <-. exact E.
  - exact IH.
Qed.

Lemma get_numeric_input_min (min_value : Q) (max_value : option Q)
    (entries : list Q) (num : Q) :
  input_utils.get_numeric_input min_value max_value entries = Some num ->
  (min_value <= num)%Q.
Proof.
  intro H. apply get_numeric_input_in_range in H.
  unfold input_utils.in_range in H. apply andb_true_iff in H as [H _].
  apply Qle_bool_iff. exact H.
Qed.

Lemma py_min_le_l (a b : Q) : (py_min a b <= a)%Q.
Proof.
  unfold py_min. destruct (Qle_bool a b) eqn:E.
  - apply Qle_refl.
  - apply Qle_bool_false in E. apply Qlt_le_weak. exact E.
Qed.

Lemma py_min_nonneg (a b : Q) : (0 <= a)%Q -> (0 <= b)%Q -> (0 <= py_min a b)%Q.
Proof.
  intros Ha Hb. unfold py_min. destruct (Qle_bool a b); assumption.
Qed.

Lemma estimated_prices_le (remaining : Q) (nights choice : Z) :
  (0 <= remaining)%Q ->
  (hotel_service.estimated_prices remaining nights choice <= remaining)%Q.
Proof.
  intro H. unfold hotel_service.estimated_prices.
  destruct (choice =? 1); [|destruct (choice =? 2)];
    (eapply Qle_trans; [apply py_min_le_l|]); lra.
Qed.

Lemma estimated_prices_nonneg (remaining : Q) (nights choice : Z) :
  (0 <= remaining)%Q -> 0 <= nights ->
  (0 <= hotel_service.estimated_prices remaining nights choice)%Q.
Proof.
  intros H Hn. unfold hotel_service.estimated_prices.
  assert (Hq : (0 <= inject_Z nights)%Q).
  { rewrite (Zle_Qle 0 nights) in Hn. exact Hn. }
  destruct (choice =? 1); [|destruct (choice =? 2)];
    apply py_min_nonneg; nra.
Qed.

Lemma activity_details_le (remaining : Q) (choice : Z) :
  (0 <= remaining)%Q ->
  (activity_price (activity_service.activity_details remaining choice)
   <= remaining)%Q.
Proof.
  intro H. unfold activity_service.activity_details.
  destruct (choice =? 1); [|destruct (choice =? 2); [|destruct (choice =? 3);
    [|destruct (choice =? 4)]]]; simpl;
    (eapply Qle_trans; [apply py_min_le_l|]); lra.
Qed.

Lemma activity_details_nonneg (remaining : Q) (choice : Z) :
  (0 <= remaining)%Q ->
  (0 <= activity_price (activity_service.activity_details remaining choice))%Q.
Proof.
  intro H. unfold activity_service.activity_details.
  destruct (choice =? 1); [|destruct (choice =? 2); [|destruct (choice =? 3);
    [|destruct (choice =? 4)]]]; simpl; apply py_min_nonneg; lra.
Qed.

Lemma pop_Forall {A : Type} (P : A -> Prop) (l : list A) (i : nat) (a : A)
    (rest : list A) :
  pop l i = Some (a, rest) -> Forall P l -> P a /\ Forall P rest.
Proof.
  revert i a rest. induction l as [|x l IH]; intros i a rest H Hl; simpl in H.
  - discriminate.
  - inversion Hl as [|? ? Hx Hl']; subst.
    destruct i as [|j].
    + injection H as -> ->. split; assumption.
    + destruct (pop l j) as [[y t']|] eqn:E; [|discriminate].
      injection H as -> <-.
      destruct (IH _ _ _ E Hl') as [Hy Ht]. split; [assumption|].
      constructor; assumption.
Qed.

Lemma pop_last {A : Type} (l : list A) (a : A) :
  pop (l ++ [a]) (length l) = Some (a, l).
Proof.
  induction l as [|x l IH]; simpl; [reflexivity|].
  rewrite IH. reflexivity.
Qed.

Lemma adjust_nights_accepted (p : TravelPlan) (h : HotelBooking) (m : Z) :
  hotels p = Some h ->
  0 < hotel_nights h ->
  0 < m ->
  (hotel_price h / inject_Z (hotel_nights h) * inject_Z m - hotel_price h
   <= remaining_budget p)%Q ->
  hotel_service.modify_hotel_booking (hotel_service.AdjustNights m) p
  = set_hotels
      (Some (mkHotel (hotel_option h)
               (hotel_price h / inject_Z (hotel_nights h) * inject_Z m)%Q m
               (hotel_destination h)))
      (set_remaining_budget
         (remaining_budget p
          - (hotel_price h / inject_Z (hotel_nights h) * inject_Z m
             - hotel_price h))%Q p).
Proof.
  intros Hh Hn Hm Hle. unfold hotel_service.modify_hotel_booking. rewrite Hh.
  apply Z.ltb_lt in Hn. rewrite Hn.
  assert (Em : (m <=? 0) = false) by (apply Z.leb_gt; exact Hm).
  rewrite Em.
  apply Qle_bool_iff in Hle. rewrite Hle. reflexivity.
Qed.

Section Bookings.

Variable strptime : string -> option Z.

(** X1.  Along a session of the operations that write to the plan (flight
    selection, the flight criteria menu, hotel booking and modification,
    activity booking and removal, the budget entry of the command line),
    the ledger equation [remaining_budget = total_budget - spent] holds
    after every operation, provided it held at the start and no operation
    books over an existing booking of its stage or resets the budget from
    the flight criteria menu while something is booked. *)
Theorem X1_session_keeps_ledger (ops : list session.operation)
    (p : TravelPlan) (ps : list TravelPlan) :
  session.ledger p ->
  session.run strptime ops p = Some ps ->
  Forall2 (fun op q => session.overwrites op q = false) ops (p :: removelast ps) ->
  Forall session.ledger ps.
Proof.
  revert p ps.
  induction ops as [|op ops IH]; intros p ps Hl Hrun Hsafe; simpl in Hrun.
  - injection Hrun as <-. constructor.
  - destruct (session.apply strptime op p) as [p'|] eqn:Ea; [|discriminate].
    destruct (session.run strptime ops p') as [ps'|] eqn:Er; [|discriminate].
    injection Hrun as <-.
    inversion Hsafe as [|? ? ? ? Hop Hrest]; subst.
    assert (Hl' : session.ledger p')
      by (exact (apply_keeps_ledger strptime op p p' Hop Hl Ea)).
    constructor; [exact Hl'|].
    destruct ops as [|op' ops'].
    + simpl in Er. injection Er as <-. constructor.
    + apply (IH p' ps' Hl' Er).
      simpl in Er.
      destruct (session.apply strptime op' p') as [p''|]; [|discriminate].
      destruct (session.run strptime ops' p'') as [ps''|]; [|discriminate].
      injection Er as <-. exact Hrest.
Qed.

(** X2.  Booking over an existing booking debits the new price and credits
    nothing: after a confirmed flight selection on a balanced plan that
    already holds a flight, and after a confirmed hotel choice on a balanced
    plan that already holds a hotel, the remaining budget is short of
    [total_budget - spent] by exactly the price of the booking that was
    replaced. *)
Theorem X2_rebooking_is_not_refunded (p : TravelPlan) :
  session.ledger p ->
  (forall (f0 : FlightBooking) (data : list Q) (details : string) (k : Z)
          (price : Q) (modify : bool) (entries : list Q),
     flights p = Some f0 ->
     1 <= k <= 3 ->
     data !! Z.to_nat (k - 1) = Some price ->
     (price <= remaining_budget p)%Q ->
     exists p',
       flight_service.select_option data details k true modify entries p
       = Some (p', true)
       /\ flights p' = Some (mkFlight k price details)
       /\ (remaining_budget p'
           == total_budget p' - spent p' - flight_price f0)%Q)
  /\ (forall (f : FlightBooking) (h0 : HotelBooking) (choice : Z),
        flights p = Some f ->
        hotels p = Some h0 ->
        1 <= choice <= 3 ->
        (hotel_service.estimated_prices
           (remaining_budget p) (get_trip_duration_days strptime p) choice
         <= remaining_budget p)%Q ->
        exists p',
          hotel_service.discuss_hotels strptime choice true p
          = Returns (p', true)
          /\ (remaining_budget p'
              == total_budget p' - spent p' - hotel_price h0)%Q).
Proof.
  intro Hl. apply ledger_sum in Hl. split.
  - intros f0 data details k price modify entries Hf Hk Hd Hle.
    destruct (flight_gate p data details k price true modify entries Hk Hd)
      as [_ Hok].
    destruct (Hok Hle) as (p' & H1 & H2 & H3 & H4 & H5 & H6).
    exists p'. split; [exact H1|]. split; [exact H2|].
    rewrite spent_sum, H2, H3, H4, H5, H6. rewrite Hf in Hl. simpl in *. lra.
  - intros f h0 choice Hf Hh Hk Hle.
    destruct (hotel_gate strptime p choice f Hk Hf) as [_ Hok].
    destruct (Hok Hle) as (p' & H1 & H2 & H3 & H4 & H5 & H6).
    exists p'. split; [exact H1|].
    rewrite spent_sum, H2, H3, H4, H5, H6. rewrite Hh in Hl. simpl in *. lra.
Qed.

(** One operation keeps a solvent plan solvent when the stay does not have
    a negative length. *)
Lemma apply_keeps_solvent (op : session.operation) (p p' : TravelPlan) :
  solvent p ->
  0 <= get_trip_duration_days strptime p ->
  session.apply strptime op p = Some p' ->
  solvent p'.
Proof.
  intros (Hr & Hh & Ha) Hn Happ.
  destruct op as [data details k confirm modify entries | choice
                 | choice confirm | choice | choice confirm | entries
                 | confirm entries]; simpl in Happ.
  - (* SelectFlight *)
    unfold flight_service.select_option in Happ.
    destruct (negb _); [injection Happ as <-; repeat split; assumption|].
    destruct (data !! _) as [price|];
      [|injection Happ as <-; repeat split; assumption].
    destruct (Qle_bool price (remaining_budget p)) eqn:E.
    + destruct confirm; injection Happ as <-;
        [|repeat split; assumption].
      apply Qle_bool_iff in E. repeat split; simpl; try assumption. lra.
    + destruct modify; [|injection Happ as <-; repeat split; assumption].
      destruct (input_utils.get_numeric_input _ _ _) as [nb|] eqn:En;
        [|discriminate].
      apply get_numeric_input_min in En.
      injection Happ as <-. repeat split; simpl; try assumption. lra.
  - (* NoFlightsFound *)
    destruct choice as [loc|loc|d r|es| |]; simpl in Happ;
      try (injection Happ as <-; repeat split; assumption).
    destruct (input_utils.get_numeric_input _ _ _) as [b|] eqn:En;
      [|discriminate].
    apply get_numeric_input_min in En.
    injection Happ as <-. repeat split; simpl; try assumption. lra.
  - (* DiscussHotels *)
    unfold hotel_service.discuss_hotels in Happ.
    destruct (flights p); [|injection Happ as <-; repeat split; assumption].
    rewrite max_per_night_returns in Happ. simpl in Happ.
    destruct (negb _); [injection Happ as <-; repeat split; assumption|].
    destruct confirm; [|injection Happ as <-; repeat split; assumption].
    destruct (Qle_bool _ _) eqn:E;
      [|injection Happ as <-; repeat split; assumption].
    apply Qle_bool_iff in E.
    injection Happ as <-. repeat split; simpl; try assumption.
    + lra.
    + apply estimated_prices_nonneg; assumption.
  - (* ModifyHotel *)
    injection Happ as <-. unfold hotel_service.modify_hotel_booking.
    destruct (hotels p) as [h|] eqn:Eh; [|repeat split; try assumption;
      rewrite Eh; exact Hh].
    simpl in Hh.
    destruct choice as [|n|].
    + repeat split; simpl; try assumption; lra.
    + destruct (n <=? 0) eqn:En;
        [repeat split; try assumption; rewrite Eh; exact Hh|].
      destruct (negb _) eqn:Eg;
        [repeat split; try assumption; rewrite Eh; exact Hh|].
      apply negb_false_iff, Qle_bool_iff in Eg.
      apply Z.leb_gt in En.
      assert (Hq : (0 < inject_Z n)%Q) by (rewrite (Zlt_Qlt 0 n) in En; exact En).
      repeat split; simpl; try assumption; [lra|].
      apply Qmult_le_0_compat; [|lra].
      destruct (0 <? hotel_nights h) eqn:Ec; [|lra].
      apply Z.ltb_lt in Ec.
      assert (Hc : (0 < inject_Z (hotel_nights h))%Q)
        by (rewrite (Zlt_Qlt 0 (hotel_nights h)) in Ec; exact Ec).
      apply Qle_shift_div_l; [exact Hc|]. lra.
    + repeat split; try assumption. rewrite Eh. exact Hh.
  - (* DiscussActivities *)
    unfold activity_service.discuss_activities in Happ.
    destruct (hotels p) eqn:Eh;
      [|injection Happ as <-; repeat split; try assumption; rewrite Eh; exact Hh].
    rewrite daily_budget_returns in Happ. simpl in Happ.
    destruct (negb _);
      [injection Happ as <-; repeat split; try assumption; rewrite Eh; exact Hh|].
    destruct confirm;
      [|injection Happ as <-; repeat split; try assumption; rewrite Eh; exact Hh].
    destruct (Qle_bool _ _) eqn:E;
      [|injection Happ as <-; repeat split; try assumption; rewrite Eh; exact Hh].
    apply Qle_bool_iff in E.
    injection Happ as <-. repeat split; simpl.
    + lra.
    + rewrite Eh. exact Hh.
    + apply Forall_app. split; [exact Ha|].
      constructor; [|constructor]. apply activity_details_nonneg. exact Hr.
  - (* RemoveActivity *)
    unfold activity_service.remove_activity in Happ.
    destruct (activities p) eqn:Ea;
      [injection Happ as <-; repeat split; try assumption; rewrite Ea; constructor|].
    rewrite <- Ea in *.
    destruct (input_utils.get_numeric_input _ _ _) as [index|]; [|discriminate].
    injection Happ as <-. unfold activity_service.remove_at.
    destruct (_ || _); [repeat split; assumption|].
    destruct (pop _ _) as [[removed rest]|] eqn:Ep; [|repeat split; assumption].
    destruct (pop_Forall _ _ _ _ _ Ep Ha) as [Hp Hrest].
    repeat split; simpl; try assumption. lra.
  - (* EditBudget *)
    unfold cli.edit_budget in Happ.
    destruct (_ && _); [injection Happ as <-; repeat split; assumption|].
    destruct (input_utils.get_numeric_input _ _ _) as [b|] eqn:En;
      [|discriminate].
    apply get_numeric_input_min in En.
    injection Happ as <-.
    destruct p as [tb rb dep dst dd rd tr fl ho ac]; simpl in *.
    destruct fl, ho, ac; repeat split; simpl;
      try assumption; try lra; try constructor.
Qed.

(** X3.  The operations never overdraw: along a session that starts from a
    solvent plan (remaining budget, hotel price and activity prices not
    negative) and in which the return date never lies before the departure
    date, every plan is solvent again; in particular the remaining budget
    never becomes negative. *)
Theorem X3_session_never_overdraws (ops : list session.operation) :
  forall (p : TravelPlan) (ps : list TravelPlan),
    solvent p ->
    session.run strptime ops p = Some ps ->
    Forall (fun q => 0 <= get_trip_duration_days strptime q)
           (p :: removelast ps) ->
    Forall solvent ps.
Proof.
  induction ops as [|op ops IH]; intros p ps Hs Hrun Hn; simpl in Hrun.
  - injection Hrun as <-. constructor.
  - destruct (session.apply strptime op p) as [p'|] eqn:Ea; [|discriminate].
    destruct (session.run strptime ops p') as [ps'|] eqn:Er; [|discriminate].
    injection Hrun as <-.
    inversion Hn as [|? ? Hp Hrest]; subst.
    assert (Hs' : solvent p') by (eapply apply_keeps_solvent; eauto).
    constructor; [assumption|].
    destruct ops as [|op' ops'].
    + simpl in Er. injection Er as <-. constructor.
    + apply (IH p' ps' Hs' Er).
      simpl in Er.
      destruct (session.apply strptime op' p'); [|discriminate].
      destruct (session.run strptime ops' t); [|discriminate].
      injection Er as <-. exact Hrest.
Qed.

(** X4.  While the remaining budget is not negative, the budget check of
    the hotel and activity prompts never refuses a confirmed choice: the
    estimated price is at most 40% (hotels) or 25% (activities) of the
    remaining budget, so that every confirmed hotel choice from 1 to 3 on a
    plan with a flight, and every confirmed activity choice from 1 to 5 on a
    plan with a hotel, is booked. *)
Theorem X4_confirmed_choice_is_booked (p : TravelPlan) :
  (0 <= remaining_budget p)%Q ->
  (forall (f : FlightBooking) (choice : Z),
     flights p = Some f ->
     1 <= choice <= 3 ->
     exists p',
       hotel_service.discuss_hotels strptime choice true p = Returns (p', true)
       /\ (0 <= remaining_budget p')%Q)
  /\ (forall (h : HotelBooking) (choice : Z),
        hotels p = Some h ->
        1 <= choice <= 5 ->
        exists p',
          activity_service.discuss_activities strptime choice true p
          = Returns (p', true)
          /\ (0 <= remaining_budget p')%Q).
Proof.
  intro Hr. split.
  - intros f choice Hf Hk.
    destruct (hotel_gate strptime p choice f Hk Hf) as [_ Hok].
    pose proof (estimated_prices_le (remaining_budget p)
                  (get_trip_duration_days strptime p) choice Hr) as Hle.
    destruct (Hok Hle) as (p' & H1 & _ & H3 & _).
    exists p'. split; [exact H1|]. rewrite H3. lra.
  - intros h choice Hh Hk.
    destruct (activity_gate strptime p choice h Hk Hh) as [_ Hok].
    pose proof (activity_details_le (remaining_budget p) choice Hr) as Hle.
    destruct (Hok Hle) as (p' & H1 & _ & H3 & _).
    exists p'. split; [exact H1|]. rewrite H3. lra.
Qed.

(** X5.  Cancelling undoes a booking: when a hotel is booked on a plan that
    had none and is then cancelled through [modify_hotel_booking], the plan
    is the one before the booking, with a remaining budget of the same
    amount. *)
Theorem X5_book_then_cancel_hotel (p p1 : TravelPlan) (choice : Z) :
  hotels p = None ->
  hotel_service.discuss_hotels strptime choice true p = Returns (p1, true) ->
  exists r,
    hotel_service.modify_hotel_booking hotel_service.CancelBooking p1
    = set_remaining_budget r p
    /\ (r == remaining_budget p)%Q.
Proof.
  intros Hh Hb. unfold hotel_service.discuss_hotels in Hb.
  destruct (flights p) as [f|]; [|discriminate].
  rewrite max_per_night_returns in Hb. simpl in Hb.
  destruct (negb _); [discriminate|].
  destruct (Qle_bool _ _); [|discriminate].
  injection Hb as <-.
  eexists. split.
  - unfold hotel_service.modify_hotel_booking. simpl.
    unfold set_hotels, set_remaining_budget. simpl. rewrite <- Hh. reflexivity.
  - simpl. ring.
Qed.

(** X6.  Changing the number of nights of a booked hotel and changing it
    back restores the price and the remaining budget: with a hotel of
    [n > 0] nights on a plan whose remaining budget is not negative, an
    accepted change to [m > 0] nights followed by a change to [n] nights is
    accepted too and leaves the option, the nights and the destination as
    they were, and a price and a remaining budget of the same amounts. *)
Theorem X6_adjust_nights_round_trip (p : TravelPlan) (h : HotelBooking) (m : Z) :
  hotels p = Some h ->
  0 < hotel_nights h ->
  0 < m ->
  (0 <= remaining_budget p)%Q ->
  (hotel_price h / inject_Z (hotel_nights h) * inject_Z m - hotel_price h
   <= remaining_budget p)%Q ->
  let p1 := hotel_service.modify_hotel_booking (hotel_service.AdjustNights m) p in
  let p2 := hotel_service.modify_hotel_booking
              (hotel_service.AdjustNights (hotel_nights h)) p1 in
  (exists h1,
     hotels p1 = Some h1 /\ hotel_nights h1 = m
     /\ (hotel_price h1
         == hotel_price h / inject_Z (hotel_nights h) * inject_Z m)%Q
     /\ (remaining_budget p1
         == remaining_budget p - (hotel_price h1 - hotel_price h))%Q)
  /\ (exists h2,
        hotels p2 = Some h2
        /\ hotel_option h2 = hotel_option h
        /\ hotel_nights h2 = hotel_nights h
        /\ hotel_destination h2 = hotel_destination h
        /\ (hotel_price h2 == hotel_price h)%Q)
  /\ (remaining_budget p2 == remaining_budget p)%Q
  /\ total_budget p2 = total_budget p
  /\ flights p2 = flights p
  /\ activities p2 = activities p.
Proof.
  intros Hh Hn Hm Hr Hle p1 p2.
  assert (Hqn : ~ (inject_Z (hotel_nights h) == 0)%Q)
    by (apply inject_Z_pos_nonzero; exact Hn).
  assert (Hqm : ~ (inject_Z m == 0)%Q) by (apply inject_Z_pos_nonzero; exact Hm).
  pose proof (adjust_nights_accepted p h m Hh Hn Hm Hle) as E1.
  fold p1 in E1. clearbody p1.
  remember (mkHotel (hotel_option h)
              (hotel_price h / inject_Z (hotel_nights h) * inject_Z m)%Q m
              (hotel_destination h)) as h1 eqn:Eh1.
  assert (Hn1 : hotel_nights h1 = m) by (rewrite Eh1; reflexivity).
  assert (Hp1 : hotel_price h1
                = (hotel_price h / inject_Z (hotel_nights h) * inject_Z m)%Q)
    by (rewrite Eh1; reflexivity).
  assert (Hh1 : hotels p1 = Some h1) by (rewrite E1; reflexivity).
  assert (Hr1 : (remaining_budget p1
                 == remaining_budget p - (hotel_price h1 - hotel_price h))%Q)
    by (rewrite E1, Hp1; reflexivity).
  assert (Hback : (hotel_price h1 / inject_Z (hotel_nights h1)
                   * inject_Z (hotel_nights h) == hotel_price h)%Q)
    by (rewrite Hp1, Hn1; field; split; assumption).
  assert (Hle1 : (hotel_price h1 / inject_Z (hotel_nights h1)
                  * inject_Z (hotel_nights h) - hotel_price h1
                  <= remaining_budget p1)%Q).
  { revert Hback. generalize (hotel_price h1 / inject_Z (hotel_nights h1)
                              * inject_Z (hotel_nights h))%Q.
    intros t Ht. lra. }
  assert (Hm1 : 0 < hotel_nights h1) by (rewrite Hn1; exact Hm).
  pose proof (adjust_nights_accepted p1 h1 (hotel_nights h) Hh1 Hm1 Hn Hle1) as E2.
  fold p2 in E2. clearbody p2.
  split; [|split; [|split; [|split; [|split]]]].
  - exists h1. split; [exact Hh1|]. split; [exact Hn1|].
    split; [rewrite Hp1; reflexivity|]. exact Hr1.
  - eexists. rewrite E2. simpl. split; [reflexivity|].
    split; [rewrite Eh1; reflexivity|]. split; [reflexivity|].
    split; [rewrite Eh1; reflexivity|]. exact Hback.
  - rewrite E2. simpl. revert Hback.
    generalize (hotel_price h1 / inject_Z (hotel_nights h1)
                * inject_Z (hotel_nights h))%Q.
    intros t Ht. lra.
  - rewrite E2, E1. reflexivity.
  - rewrite E2, E1. reflexivity.
  - rewrite E2, E1. reflexivity.
Qed.

(** X7.  Removing the activity that was booked last undoes the booking:
    after a confirmed activity choice, removing the last position of the
    list through [modify_activities] gives back the list of activities and
    a remaining budget of the amount before the booking, and leaves the
    rest of the plan as the booking found it. *)
Theorem X7_book_then_remove_activity (p p1 : TravelPlan) (choice : Z) :
  activity_service.discuss_activities strptime choice true p
  = Returns (p1, true) ->
  exists r,
    activity_service.remove_at
      (inject_Z (Z.of_nat (length (activities p1)))) p1
    = set_remaining_budget r p
    /\ (r == remaining_budget p)%Q.
Proof.
  intro Hb. unfold activity_service.discuss_activities in Hb.
  destruct (hotels p) as [h|]; [|discriminate].
  rewrite daily_budget_returns in Hb. simpl in Hb.
  destruct (negb _); [discriminate|].
  destruct (Qle_bool _ _); [|discriminate].
  injection Hb as <-.
  unfold activity_service.remove_at.
  simpl activities.
  destruct (is_integer_inject_Z
              (inject_Z (Z.of_nat (length (activities p ++
                 [activity_service.activity_details (remaining_budget p) choice]))))
              _ (Qeq_refl _)) as [Hi Hfl].
  rewrite Hi, Hfl.
  assert (H1 : Qle_bool 1 (inject_Z (Z.of_nat (length (activities p ++
                 [activity_service.activity_details (remaining_budget p) choice]))))
               = true).
  { apply Qle_bool_iff. rewrite <- (Zle_Qle 1). rewrite length_app. simpl. lia. }
  rewrite H1.
  assert (H2 : forall q : Q, Qle_bool q q = true)
    by (intro q; apply Qle_bool_iff, Qle_refl).
  rewrite H2. simpl negb. simpl orb. cbv iota.
  replace (Z.to_nat _) with (length (activities p))
    by (rewrite length_app; simpl; lia).
  rewrite pop_last.
  eexists. split.
  - unfold set_activities, set_remaining_budget. simpl. reflexivity.
  - simpl. ring.
Qed.

End Bookings.

(** The sample session keeps the ledger: its eight plans are balanced. *)
Lemma X1_session_keeps_ledger_witness :
  exists ps,
    session.run december sample_session nothing_booked = Some ps
    /\ length ps = 8%nat
    /\ Forall session.ledger ps.
Proof.
  eexists. split; [vm_compute; reflexivity|]. split; [reflexivity|].
  apply (X1_session_keeps_ledger december sample_session nothing_booked).
  - vm_compute. reflexivity.
  - vm_compute. reflexivity.
  - vm_compute. repeat constructor.
Defined.

(** A second flight at 300 over the one at 500, and a second hotel over the
    one at 900. *)
Lemma X2_rebooking_is_not_refunded_witness :
  (exists p',
     flight_service.select_option [300%Q] "[OPTION 1] $300.00" 1 true false []
                                  flight_booked = Some (p', true)
     /\ (remaining_budget p' == total_budget p' - spent p' - 500)%Q)
  /\ (exists p',
        hotel_service.discuss_hotels december 1 true both_booked
        = Returns (p', true)
        /\ (remaining_budget p' == total_budget p' - spent p' - 900)%Q).
Proof.
  split.
  - destruct (X2_rebooking_is_not_refunded december flight_booked
                ltac:(vm_compute; reflexivity)) as [Hf _].
    destruct (Hf (mkFlight 1 500 "[OPTION 1] $500.00") [300%Q]
                 "[OPTION 1] $300.00"%string 1 300%Q false []
                 eq_refl ltac:(lia) eq_refl ltac:(vm_compute; discriminate))
      as (p' & H1 & _ & H3).
    exists p'. split; [exact H1|exact H3].
  - destruct (X2_rebooking_is_not_refunded december both_booked
                ltac:(vm_compute; reflexivity)) as [_ Hh].
    destruct (Hh (mkFlight 1 500 "[OPTION 1] $500.00")
                 (mkHotel 2 900 7 (Some "Casablanca"%string)) 1
                 eq_refl eq_refl ltac:(lia) ltac:(vm_compute; discriminate))
      as (p' & H1 & H2).
    exists p'. split; [exact H1|exact H2].
Defined.

(** The sample session never overdraws. *)
Lemma X3_session_never_overdraws_witness :
  exists ps,
    session.run december sample_session nothing_booked = Some ps
    /\ Forall solvent ps.
Proof.
  eexists. split; [vm_compute; reflexivity|].
  apply (X3_session_never_overdraws december sample_session nothing_booked).
  - split; [vm_compute; discriminate|].
    split; [vm_compute; discriminate|constructor].
  - vm_compute. reflexivity.
  - vm_compute. repeat constructor; discriminate.
Defined.

(** With 600 left, the first hotel and the fifth activity are booked. *)
Lemma X4_confirmed_choice_is_booked_witness :
  (exists p',
     hotel_service.discuss_hotels december 1 true both_booked = Returns (p', true)
     /\ (0 <= remaining_budget p')%Q)
  /\ (exists p',
        activity_service.discuss_activities december 5 true both_booked
        = Returns (p', true)
        /\ (0 <= remaining_budget p')%Q).
Proof.
  destruct (X4_confirmed_choice_is_booked december both_booked
              ltac:(vm_compute; discriminate)) as [Hh Ha].
  split.
  - exact (Hh (mkFlight 1 500 "[OPTION 1] $500.00") 1 eq_refl ltac:(lia)).
  - exact (Ha (mkHotel 2 900 7 (Some "Casablanca"%string)) 5 eq_refl ltac:(lia)).
Defined.

(** A hotel booked on [flight_booked] and cancelled again. *)
Lemma X5_book_then_cancel_hotel_witness :
  exists p1,
    hotel_service.discuss_hotels december 1 true flight_booked
    = Returns (p1, true)
    /\ exists r,
         hotel_service.modify_hotel_booking hotel_service.CancelBooking p1
         = set_remaining_budget r flight_booked
         /\ (r == 1500)%Q.
Proof.
  eexists. split; [vm_compute; reflexivity|].
  apply (X5_book_then_cancel_hotel december flight_booked _ 1).
  - reflexivity.
  - vm_compute. reflexivity.
Defined.

(** Seven nights at 900, cut to five and set back to seven. *)
Lemma X6_adjust_nights_round_trip_witness :
  (remaining_budget
     (hotel_service.modify_hotel_booking (hotel_service.AdjustNights 7)
        (hotel_service.modify_hotel_booking (hotel_service.AdjustNights 5)
           both_booked)) == 600)%Q.
Proof.
  destruct (X6_adjust_nights_round_trip both_booked
              (mkHotel 2 900 7 (Some "Casablanca"%string)) 5
              eq_refl ltac:(simpl; lia) ltac:(lia)
              ltac:(vm_compute; discriminate) ltac:(vm_compute; discriminate))
    as (_ & _ & H & _).
  exact H.
Defined.

(** An activity booked on [both_booked] and removed again. *)
Lemma X7_book_then_remove_activity_witness :
  exists p1,
    activity_service.discuss_activities december 3 true both_booked
    = Returns (p1, true)
    /\ exists r,
         activity_service.remove_at
           (inject_Z (Z.of_nat (length (activities p1)))) p1
         = set_remaining_budget r both_booked
         /\ (r == 600)%Q.
Proof.
  eexists. split; [vm_compute; reflexivity|].
  apply (X7_book_then_remove_activity december both_booked _ 3).
  vm_compute. reflexivity.
Defined.

(** ** The date prompts and the date utilities *)

Lemma matches_pattern_nonempty (s : string) :
  date_utils.matches_pattern s = true -> s <> ""%string.
Proof.
  intros H E. rewrite E in H. discriminate H.
Qed.

Section DateProperties.

Variable strptime : string -> option Z.

Lemma validate_date_format_true (s : string) :
  date_utils.validate_date_format strptime s = true ->
  s <> ""%string /\ exists o, strptime s = Some o.
Proof.
  unfold date_utils.validate_date_format. intro H.
  destruct (date_utils.matches_pattern s) eqn:Em; [|discriminate].
  simpl in H. split; [apply matches_pattern_nonempty; exact Em|].
  destruct (strptime s) as [o|]; [exists o; reflexivity|discriminate].
Qed.

Lemma before_false (bound : option string) (date_obj : Z) :
  date_prompt.before strptime bound date_obj = Returns false ->
  forall m b, bound = Some m -> m <> ""%string -> strptime m = Some b ->
              b <= date_obj.
Proof.
  intros H m b -> Hm Hb. unfold date_prompt.before in H. simpl in H.
  destruct (string_dec m ""); [contradiction|].
  rewrite Hb in H. injection H as H. apply Z.ltb_ge in H. exact H.
Qed.

Lemma before_raises (bound : option string) (date_obj : Z) (e : exn) :
  date_prompt.before strptime bound date_obj = Raises e ->
  e = ValueError
  /\ exists m, bound = Some m /\ m <> ""%string /\ strptime m = None.
Proof.
  unfold date_prompt.before. destruct bound as [m|]; [|discriminate].
  simpl. destruct (string_dec m ""); [discriminate|].
  destruct (strptime m) eqn:E; [discriminate|].
  intro H. injection H as <-. split; [reflexivity|].
  exists m. repeat split; assumption.
Qed.

Lemma get_date_input_returns (min_date reference_date : option string)
    (entries : list string) (date_str : string) :
  date_prompt.get_date_input strptime min_date reference_date entries
  = Some (Returns date_str) ->
  (exists entry, In entry entries /\ date_str = py_str.strip entry)
  /\ date_utils.validate_date_format strptime date_str = true
  /\ exists date_obj,
       strptime date_str = Some date_obj
       /\ (forall m b, min_date = Some m -> m <> ""%string ->
                       strptime m = Some b -> b <= date_obj)
       /\ (forall m b, reference_date = Some m -> m <> ""%string ->
                       strptime m = Some b -> b <= date_obj).
Proof.
  induction entries as [|entry rest IH]; simpl; [discriminate|].
  assert (Hrest : date_prompt.get_date_input strptime min_date reference_date rest
                  = Some (Returns date_str) ->
                  (exists entry0, (entry = entry0 \/ In entry0 rest)
                                  /\ date_str = py_str.strip entry0)
                  /\ date_utils.validate_date_format strptime date_str = true
                  /\ exists date_obj,
                       strptime date_str = Some date_obj
                       /\ (forall m b, min_date = Some m -> m <> ""%string ->
                                       strptime m = Some b -> b <= date_obj)
                       /\ (forall m b, reference_date = Some m ->
                                       m <> ""%string ->
                                       strptime m = Some b -> b <= date_obj)).
  { intro Hd. destruct (IH Hd) as ((e0 & Hin & He) & Hr).
    split; [|exact Hr]. exists e0. split; [right; exact Hin|exact He]. }
  destruct (date_utils.validate_date_format strptime (py_str.strip entry))
    eqn:Ev; simpl; [|exact Hrest].
  destruct (validate_date_format_true _ Ev) as [_ [o Ho]]. rewrite Ho.
  destruct (date_prompt.before strptime min_date o) as [[|]|e1] eqn:Eb1;
    [exact Hrest| |discriminate].
  destruct (date_prompt.before strptime reference_date o) as [[|]|e2] eqn:Eb2;
    [exact Hrest| |discriminate].
  intro H. injection H as <-.
  split; [exists entry; split; [left; reflexivity|reflexivity]|].
  split; [exact Ev|]. exists o. split; [exact Ho|].
  split; [apply before_false; exact Eb1|apply before_false; exact Eb2].
Qed.

Lemma get_date_input_raises (min_date reference_date : option string)
    (entries : list string) (e : exn) :
  date_prompt.get_date_input strptime min_date reference_date entries
  = Some (Raises e) ->
  e = ValueError
  /\ exists m, (min_date = Some m \/ reference_date = Some m)
               /\ m <> ""%string /\ strptime m = None.
Proof.
  induction entries as [|entry rest IH]; simpl; [discriminate|].
  destruct (date_utils.validate_date_format strptime (py_str.strip entry))
    eqn:Ev; simpl; [|exact IH].
  destruct (validate_date_format_true _ Ev) as [_ [o Ho]]. rewrite Ho.
  destruct (date_prompt.before strptime min_date o) as [[|]|e1] eqn:Eb1.
  - exact IH.
  - destruct (date_prompt.before strptime reference_date o) as [[|]|e2] eqn:Eb2.
    + exact IH.
    + discriminate.
    + intro H. injection H as <-.
      destruct (before_raises _ _ _ Eb2) as (-> & m & Hm & Hne & Hs).
      split; [reflexivity|]. exists m. split; [right; exact Hm|].
      split; assumption.
  - intro H. injection H as <-.
    destruct (before_raises _ _ _ Eb1) as (-> & m & Hm & Hne & Hs).
    split; [reflexivity|]. exists m. split; [left; exact Hm|].
    split; assumption.
Qed.

(** X8.  The date prompt of [input_utils] returns only a date it has
    checked: the text returned is one of the entries without its
    surrounding white space, passes [validate_date_format], and its day is
    not before the day of [min_date] nor before the day of
    [reference_date], when these are given.  The prompt raises only
    [ValueError], and only when a bound that is given cannot be read as a
    date. *)
Theorem X8_get_date_input_checks (min_date reference_date : option string)
    (entries : list string) :
  (forall date_str,
     date_prompt.get_date_input strptime min_date reference_date entries
     = Some (Returns date_str) ->
     (exists entry, In entry entries /\ date_str = py_str.strip entry)
     /\ date_utils.validate_date_format strptime date_str = true
     /\ exists date_obj,
          strptime date_str = Some date_obj
          /\ (forall m b, min_date = Some m -> m <> ""%string ->
                          strptime m = Some b -> b <= date_obj)
          /\ (forall m b, reference_date = Some m -> m <> ""%string ->
                          strptime m = Some b -> b <= date_obj))
  /\ (forall e,
        date_prompt.get_date_input strptime min_date reference_date entries
        = Some (Raises e) ->
        e = ValueError
        /\ exists m, (min_date = Some m \/ reference_date = Some m)
                     /\ m <> ""%string /\ strptime m = None).
Proof.
  split.
  - intro date_str. apply get_date_input_returns.
  - intro e. apply get_date_input_raises.
Qed.

(** X9.  The dates entered through choice 3 of the flight criteria menu are
    checked and ordered: both pass [validate_date_format], the departure
    is not before today, the return is not before the departure, and so the
    stay that [get_trip_duration_days] computes from the new plan is not
    negative.  The plan is the one [_handle_no_flights_found] leaves for
    these two dates. *)
Theorem X9_new_travel_dates_ordered (today : string)
    (departures returns : list string) (p p' : TravelPlan) :
  date_prompt.new_travel_dates strptime today departures returns p
  = Some (Returns p') ->
  exists d r dd rd,
    p' = flight_service.set_dates (Some d) (Some r) p
    /\ flight_service.handle_no_flights_found (flight_service.NewDates d r) p
       = Some p'
    /\ date_utils.validate_date_format strptime d = true
    /\ date_utils.validate_date_format strptime r = true
    /\ strptime d = Some dd
    /\ strptime r = Some rd
    /\ (forall t, today <> ""%string -> strptime today = Some t ->
                  t <= dd /\ t <= rd)
    /\ dd <= rd
    /\ get_trip_duration_days strptime p' = rd - dd.
Proof.
  unfold date_prompt.new_travel_dates. intro H.
  destruct (date_prompt.get_date_input strptime (Some today) None departures)
    as [[d|e]|] eqn:E1; try discriminate.
  simpl departure_date in H.
  destruct (date_prompt.get_date_input strptime (Some today) (Some d) returns)
    as [[r|e]|] eqn:E2; try discriminate.
  injection H as <-.
  destruct (get_date_input_returns _ _ _ _ E1)
    as (_ & Hv1 & dd & Hd & Hmin1 & _).
  destruct (get_date_input_returns _ _ _ _ E2)
    as (_ & Hv2 & rd & Hr & Hmin2 & Href).
  destruct (validate_date_format_true _ Hv1) as [Hne1 _].
  destruct (validate_date_format_true _ Hv2) as [Hne2 _].
  exists d, r, dd, rd.
  split; [reflexivity|]. split; [reflexivity|].
  split; [exact Hv1|]. split; [exact Hv2|].
  split; [exact Hd|]. split; [exact Hr|].
  split; [intros t Ht Hs; split; [apply (Hmin1 today) | apply (Hmin2 today)];
          auto|].
  split; [apply (Href d); auto|].
  unfold get_trip_duration_days. simpl.
  destruct (string_dec d ""); [contradiction|].
  destruct (string_dec r ""); [contradiction|].
  simpl. rewrite Hr, Hd. reflexivity.
Qed.

Lemma cli_get_date_input_returns (min_date : option Q) (entries : list string)
    (date_str : string) :
  date_prompt.cli_get_date_input strptime min_date entries
  = Some (Returns date_str) ->
  date_utils.validate_date_format strptime date_str = true
  /\ exists date_obj,
       strptime date_str = Some date_obj
       /\ (forall m, min_date = Some m -> (m <= inject_Z date_obj)%Q).
Proof.
  induction entries as [|entry rest IH]; simpl; [discriminate|].
  destruct (date_utils.validate_date_format strptime (py_str.strip entry))
    eqn:Ev; simpl; [|exact IH].
  destruct (validate_date_format_true _ Ev) as [_ [o Ho]]. rewrite Ho.
  destruct min_date as [m|].
  - destruct (Qle_bool m (inject_Z o)) eqn:Em; simpl; [|exact IH].
    intro H. injection H as <-. split; [exact Ev|].
    exists o. split; [exact Ho|].
    intros m' Hm. injection Hm as <-. apply Qle_bool_iff. exact Em.
  - intro H. injection H as <-. split; [exact Ev|].
    exists o. split; [exact Ho|]. intros m' Hm. discriminate Hm.
Qed.

Lemma cli_get_date_input_never_raises (min_date : option Q)
    (entries : list string) (e : exn) :
  date_prompt.cli_get_date_input strptime min_date entries <> Some (Raises e).
Proof.
  induction entries as [|entry rest IH]; simpl; [discriminate|].
  destruct (date_utils.validate_date_format strptime (py_str.strip entry))
    eqn:Ev; simpl; [|exact IH].
  destruct (validate_date_format_true _ Ev) as [_ [o Ho]]. rewrite Ho.
  destruct min_date as [m|]; [|discriminate].
  destruct (Qle_bool m (inject_Z o)); simpl; [discriminate|exact IH].
Qed.

(** X10.  The date entry of the command line (choice 3 of "Edit travel
    details", and the first dates of a plan) never raises and leaves checked,
    ordered dates: the departure's midnight is not before the current
    moment, the return is not before the departure, and the stay of the new
    plan is their difference, which is not negative.  As the current moment
    carries the time of day, the current day itself is refused as a
    departure unless the clock stands at midnight. *)
Theorem X10_cli_dates_after_now (now : Q) (departures returns : list string)
    (p : TravelPlan) :
  (forall e,
     date_prompt.edit_dates strptime now departures returns p
     <> Some (Raises e))
  /\ (forall p',
        date_prompt.edit_dates strptime now departures returns p
        = Some (Returns p') ->
        exists d r dd rd,
          p' = flight_service.set_dates (Some d) (Some r) p
          /\ strptime d = Some dd
          /\ strptime r = Some rd
          /\ (now <= inject_Z dd)%Q
          /\ (~ (now == inject_Z (Qfloor now))%Q -> Qfloor now < dd)
          /\ dd <= rd
          /\ get_trip_duration_days strptime p' = rd - dd).
Proof.
  unfold date_prompt.edit_dates. split.
  - intros e H.
    destruct (date_prompt.cli_get_date_input strptime (Some now) departures)
      as [[d|e1]|] eqn:E1; try discriminate.
    + destruct (cli_get_date_input_returns _ _ _ E1) as (_ & dd & Hd & _).
      cbv zeta in H. simpl departure_date in H. cbv iota in H. rewrite Hd in H.
      destruct (date_prompt.cli_get_date_input strptime (Some (inject_Z dd))
                                               returns)
        as [[r|e2]|] eqn:E2; try discriminate.
      exact (cli_get_date_input_never_raises _ _ _ E2).
    + exact (cli_get_date_input_never_raises _ _ _ E1).
  - intros p' H.
    destruct (date_prompt.cli_get_date_input strptime (Some now) departures)
      as [[d|e1]|] eqn:E1; try discriminate.
    destruct (cli_get_date_input_returns _ _ _ E1) as (Hv1 & dd & Hd & Hmin1).
    cbv zeta in H. simpl departure_date in H. cbv iota in H. rewrite Hd in H.
    destruct (date_prompt.cli_get_date_input strptime (Some (inject_Z dd))
                                             returns)
      as [[r|e2]|] eqn:E2; try discriminate.
    destruct (cli_get_date_input_returns _ _ _ E2) as (Hv2 & rd & Hr & Hmin2).
    injection H as <-.
    destruct (validate_date_format_true _ Hv1) as [Hne1 _].
    destruct (validate_date_format_true _ Hv2) as [Hne2 _].
    pose proof (Hmin1 now eq_refl) as Hnow.
    pose proof (Hmin2 (inject_Z dd) eq_refl) as Hord.
    rewrite <- Zle_Qle in Hord.
    exists d, r, dd, rd.
    split; [reflexivity|]. split; [exact Hd|]. split; [exact Hr|].
    split; [exact Hnow|].
    split.
    { intro Hfrac.
      pose proof (Qfloor_le now) as Hfl.
      assert (Hle : (inject_Z (Qfloor now) <= inject_Z dd)%Q)
        by (eapply Qle_trans; eassumption).
      rewrite <- Zle_Qle in Hle.
      destruct (Z.eq_dec (Qfloor now) dd) as [Heq|Hneq]; [|lia].
      exfalso. apply Hfrac. rewrite Heq in *.
      apply Qle_antisym; assumption. }
    split; [exact Hord|].
    unfold get_trip_duration_days. simpl.
    destruct (string_dec d ""); [contradiction|].
    destruct (string_dec r ""); [contradiction|].
    simpl. rewrite Hr, Hd. reflexivity.
Qed.

(** X11.  [is_valid_date_range] never raises, and it answers [True] exactly
    when the start date is a future date and [calculate_trip_duration]
    returns a number of days that is at most [max_days]. *)
Theorem X11_valid_date_range (today : Z) (start_date end_date : string)
    (max_days : Z) :
  exists b,
    date_utils.is_valid_date_range strptime today start_date end_date max_days
    = Returns b
    /\ (b = true <->
        date_utils.is_future_date strptime today start_date = Returns true
        /\ exists n,
             date_utils.calculate_trip_duration strptime start_date end_date
             = Returns n
             /\ 1 <= n <= max_days).
Proof.
  unfold date_utils.is_valid_date_range, date_utils.calculate_trip_duration,
         date_utils.is_future_date.
  destruct (date_utils.validate_date_format strptime start_date) eqn:Ev1;
    simpl.
  2: { exists false. split; [reflexivity|]. split; [discriminate|].
       intros [H _]. discriminate H. }
  destruct (date_utils.validate_date_format strptime end_date) eqn:Ev2;
    simpl.
  2: { exists false. split; [reflexivity|]. split; [discriminate|].
       intros [_ [n [H _]]]. discriminate H. }
  destruct (validate_date_format_true _ Ev1) as [_ [s Hs]].
  destruct (validate_date_format_true _ Ev2) as [_ [e He]].
  rewrite Hs, He. simpl.
  destruct (today <? s) eqn:Ef; simpl.
  2: { exists false. split; [reflexivity|]. split; [discriminate|].
       intros [H _]. discriminate H. }
  destruct (e <? s) eqn:Eo.
  { exists false. split; [reflexivity|]. split; [discriminate|].
    intros [_ [n [H _]]]. discriminate H. }
  apply Z.ltb_ge in Eo.
  destruct (max_days <? e - s + 1) eqn:Em.
  - exists false. split; [reflexivity|]. split; [discriminate|].
    intros [_ [n [H Hn]]]. injection H as <-. apply Z.ltb_lt in Em. lia.
  - exists true. split; [reflexivity|]. split; [|reflexivity].
    intros _. split; [reflexivity|].
    exists (e - s + 1). split; [reflexivity|]. apply Z.ltb_ge in Em. lia.
Qed.

(** X12.  The date utility counts days where the plan counts nights: for
    the two dates of a plan, whenever [calculate_trip_duration] returns, its
    result is at least 1 and is [get_trip_duration_days] plus one; it raises
    only [ValueError], and only when a date fails [validate_date_format] or
    the return date lies before the departure date. *)
Theorem X12_duration_counts_days (p : TravelPlan) (d r : string) :
  departure_date p = Some d ->
  return_date p = Some r ->
  (forall n,
     date_utils.calculate_trip_duration strptime d r = Returns n ->
     1 <= n /\ n = get_trip_duration_days strptime p + 1)
  /\ (forall e,
        date_utils.calculate_trip_duration strptime d r = Raises e ->
        e = ValueError
        /\ (date_utils.validate_date_format strptime d = false
            \/ date_utils.validate_date_format strptime r = false
            \/ get_trip_duration_days strptime p < 0)).
Proof.
  intros Hd Hr.
  unfold date_utils.calculate_trip_duration, get_trip_duration_days.
  rewrite Hd, Hr.
  destruct (date_utils.validate_date_format strptime d) eqn:Ev1; simpl.
  2: { split; [discriminate|]. intros e H. injection H as <-.
       split; [reflexivity|left; reflexivity]. }
  destruct (date_utils.validate_date_format strptime r) eqn:Ev2; simpl.
  2: { split; [discriminate|]. intros e H. injection H as <-.
       split; [reflexivity|right; left; reflexivity]. }
  destruct (validate_date_format_true _ Ev1) as [Hne1 [dd Hdd]].
  destruct (validate_date_format_true _ Ev2) as [Hne2 [rd Hrd]].
  rewrite Hdd, Hrd.
  destruct (string_dec d "") as [|_]; [contradiction|].
  destruct (string_dec r "") as [|_]; [contradiction|].
  simpl.
  destruct (rd <? dd) eqn:Eo.
  - split; [discriminate|]. intros e H. injection H as <-.
    split; [reflexivity|]. right; right. apply Z.ltb_lt in Eo. lia.
  - split; [|discriminate]. intros n H. injection H as <-.
    apply Z.ltb_ge in Eo. lia.
Qed.

End DateProperties.

(** With 1 December as the earliest date, a word and the day before are
    passed over and 8 December is returned. *)
Lemma X8_get_date_input_checks_witness :
  (exists entry,
     In entry ["tomorrow"; " 2026-11-30 "; "2026-12-08  "]%string
     /\ "2026-12-08"%string = py_str.strip entry)
  /\ date_utils.validate_date_format december "2026-12-08" = true
  /\ exists date_obj,
       december "2026-12-08" = Some date_obj
       /\ (forall m b, Some "2026-12-01"%string = Some m -> m <> ""%string ->
                       december m = Some b -> b <= date_obj)
       /\ (forall m b, @None string = Some m -> m <> ""%string ->
                       december m = Some b -> b <= date_obj).
Proof.
  exact (proj1 (X8_get_date_input_checks december (Some "2026-12-01"%string) None
                  ["tomorrow"; " 2026-11-30 "; "2026-12-08  "]%string)
               "2026-12-08"%string ltac:(vm_compute; reflexivity)).
Defined.

(** On 30 November, a departure on 1 December and a return on 8 December,
    after a return on 30 November has been refused. *)
Lemma X9_new_travel_dates_ordered_witness :
  exists d r dd rd,
    flight_service.set_dates (Some "2026-12-01"%string)
                             (Some "2026-12-08"%string) nothing_booked
    = flight_service.set_dates (Some d) (Some r) nothing_booked
    /\ flight_service.handle_no_flights_found (flight_service.NewDates d r)
                                              nothing_booked
       = Some (flight_service.set_dates (Some "2026-12-01"%string)
                                        (Some "2026-12-08"%string) nothing_booked)
    /\ date_utils.validate_date_format december d = true
    /\ date_utils.validate_date_format december r = true
    /\ december d = Some dd
    /\ december r = Some rd
    /\ (forall t, "2026-11-30"%string <> ""%string ->
                  december "2026-11-30" = Some t -> t <= dd /\ t <= rd)
    /\ dd <= rd
    /\ get_trip_duration_days december
         (flight_service.set_dates (Some "2026-12-01"%string)
                                   (Some "2026-12-08"%string) nothing_booked)
       = rd - dd.
Proof.
  apply (X9_new_travel_dates_ordered december "2026-11-30"
           ["2026-12-01"]%string ["2026-11-30"; "2026-12-08"]%string
           nothing_booked).
  vm_compute. reflexivity.
Defined.

(** At noon of 30 November the command line refuses 30 November and takes
    1 December. *)
Lemma X10_cli_dates_after_now_witness :
  exists d r dd rd,
    flight_service.set_dates (Some "2026-12-01"%string)
                             (Some "2026-12-08"%string) nothing_booked
    = flight_service.set_dates (Some d) (Some r) nothing_booked
    /\ december d = Some dd
    /\ december r = Some rd
    /\ (- (1 # 2) <= inject_Z dd)%Q
    /\ (~ (- (1 # 2) == inject_Z (Qfloor (- (1 # 2))))%Q
        -> Qfloor (- (1 # 2)) < dd)
    /\ dd <= rd
    /\ get_trip_duration_days december
         (flight_service.set_dates (Some "2026-12-01"%string)
                                   (Some "2026-12-08"%string) nothing_booked)
       = rd - dd.
Proof.
  apply (proj2 (X10_cli_dates_after_now december (- (1 # 2))
                  ["2026-11-30"; "2026-12-01"]%string ["2026-12-08"]%string
                  nothing_booked)).
  vm_compute. reflexivity.
Defined.

(** Seen from 30 November, 1 to 8 December is a valid range of eight days. *)
Lemma X11_valid_date_range_witness :
  date_utils.is_valid_date_range december (-1) "2026-12-01" "2026-12-08" 30
  = Returns true
  /\ date_utils.calculate_trip_duration december "2026-12-01" "2026-12-08"
     = Returns 8.
Proof.
  destruct (X11_valid_date_range december (-1) "2026-12-01" "2026-12-08" 30)
    as (b & Hb & Hiff).
  assert (E : b = true).
  { vm_compute in Hb. injection Hb as <-. reflexivity. }
  subst b. split; [exact Hb|].
  destruct (proj1 Hiff eq_refl) as (_ & n & Hn & _).
  vm_compute. reflexivity.
Defined.

(** Eight days, seven nights. *)
Lemma X12_duration_counts_days_witness :
  1 <= 8 /\ 8 = get_trip_duration_days december nothing_booked + 1.
Proof.
  exact (proj1 (X12_duration_counts_days december nothing_booked
                  "2026-12-01" "2026-12-08" eq_refl eq_refl)
               8 ltac:(vm_compute; reflexivity)).
Defined.

(** ** Further properties of the token manager *)

Lemma server_failure_retryable (r : api_service.reply) :
  server_failure r = true -> api_service.retryable r = true.
Proof.
  destruct r as [status ra tok ttl|]; simpl; [|reflexivity].
  destruct (status =? 200); [discriminate|].
  destruct (status =? 429); [discriminate|]. simpl. intro H. exact H.
Qed.

Section TokenClock.

Variable post : nat -> api_service.reply.

(** On network failures and server errors the loop sleeps for the back-off
    of each retry that is left. *)
Lemma retry_loop_backoff (fuel retries : nat) (e : api_service.token_effect) :
  (api_service.max_retries (api_service.manager e) - retries < fuel)%nat ->
  (retries <= api_service.max_retries (api_service.manager e))%nat ->
  (0 <= api_service.retry_delay (api_service.manager e))%Q ->
  (forall n, (n < api_service.max_retries (api_service.manager e) - retries)%nat ->
             server_failure (post (api_service.attempts e + n)) = true) ->
  exists e',
    api_service.retry_loop post fuel retries e = Some (Returns None, e')
    /\ api_service.attempts e'
       = (api_service.attempts e
          + (api_service.max_retries (api_service.manager e) - retries))%nat
    /\ api_service.manager e' = api_service.manager e
    /\ (api_service.clock e'
        == api_service.clock e
           + api_service.retry_delay (api_service.manager e)
             * (inject_Z (2 ^ Z.of_nat
                                (api_service.max_retries (api_service.manager e)))
                - inject_Z (2 ^ Z.of_nat retries)))%Q.
Proof.
  revert retries e. induction fuel as [|fuel IH];
    intros retries e Hfuel Hle Hdelay Hfail; [lia|].
  simpl.
  destruct (retries <? api_service.max_retries (api_service.manager e))%nat eqn:Elt;
    simpl.
  2:{ apply Nat.ltb_ge in Elt. eexists. split; [reflexivity|].
      split; [lia|]. split; [reflexivity|].
      replace retries with (api_service.max_retries (api_service.manager e))
        by lia.
      ring. }
  apply Nat.ltb_lt in Elt.
  pose proof (Hfail 0%nat ltac:(lia)) as H0.
  rewrite Nat.add_0_r in H0.
  assert (Hsleep : api_service.sleep
                     (api_service.backoff (api_service.manager e) retries)
                     (api_service.clock e)
                   = Returns (api_service.clock e
                              + api_service.backoff (api_service.manager e)
                                                    retries)%Q)
    by (apply sleep_returns, backoff_nonneg, Hdelay).
  destruct (IH (S retries)
               (api_service.mkTokenEffect (api_service.manager e)
                  (api_service.clock e
                   + api_service.backoff (api_service.manager e) retries)%Q
                  (S (api_service.attempts e))))
    as (e' & Hr & Ha & Hm & Hc).
  { simpl. lia. }
  { simpl. lia. }
  { exact Hdelay. }
  { intros n Hn. simpl in Hn. simpl api_service.attempts.
    replace (S (api_service.attempts e) + n)%nat
      with (api_service.attempts e + S n)%nat by lia.
    apply Hfail. lia. }
  simpl in Ha, Hm, Hc.
  assert (Hgoal : exists e'0,
            api_service.retry_loop post fuel (S retries)
              (api_service.mkTokenEffect (api_service.manager e)
                 (api_service.clock e
                  + api_service.backoff (api_service.manager e) retries)%Q
                 (S (api_service.attempts e))) = Some (Returns None, e'0)
            /\ api_service.attempts e'0
               = (api_service.attempts e
                  + (api_service.max_retries (api_service.manager e) - retries))%nat
            /\ api_service.manager e'0 = api_service.manager e
            /\ (api_service.clock e'0
                == api_service.clock e
                   + api_service.retry_delay (api_service.manager e)
                     * (inject_Z (2 ^ Z.of_nat
                                   (api_service.max_retries (api_service.manager e)))
                        - inject_Z (2 ^ Z.of_nat retries)))%Q).
  { exists e'. split; [exact Hr|]. split; [lia|]. split; [exact Hm|].
    rewrite Hc. unfold api_service.backoff.
    replace (Z.of_nat (S retries)) with (Z.succ (Z.of_nat retries)) by lia.
    rewrite Z.pow_succ_r by lia. rewrite inject_Z_mult. ring. }
  destruct (post (api_service.attempts e)) as [status ra tok ttl|]; simpl in H0.
  - destruct (status =? 200); [discriminate|].
    destruct (status =? 429); [discriminate|]. simpl in H0.
    rewrite H0, Hsleep. exact Hgoal.
  - rewrite Hsleep. exact Hgoal.
Qed.

(** A pass of the loop sends at least one request when a retry is left. *)
Lemma retry_loop_sends (fuel retries : nat) (e : api_service.token_effect)
    (r : outcome (option string)) (e' : api_service.token_effect) :
  api_service.retry_loop post fuel retries e = Some (r, e') ->
  (api_service.attempts e <= api_service.attempts e')%nat
  /\ ((retries < api_service.max_retries (api_service.manager e))%nat ->
      (S (api_service.attempts e) <= api_service.attempts e')%nat).
Proof.
  revert retries e. induction fuel as [|fuel IH]; intros retries e H;
    [discriminate|].
  simpl in H.
  destruct (retries <? api_service.max_retries (api_service.manager e))%nat eqn:Elt;
    simpl in H.
  2:{ apply Nat.ltb_ge in Elt. injection H as <- <-. split; [lia|]. lia. }
  assert (Hagain : forall slept,
            match slept with
            | Raises x =>
                Some (Raises x,
                      api_service.mkTokenEffect (api_service.manager e)
                        (api_service.clock e) (S (api_service.attempts e)))
            | Returns c =>
                api_service.retry_loop post fuel (S retries)
                  (api_service.mkTokenEffect (api_service.manager e) c
                     (S (api_service.attempts e)))
            end = Some (r, e') ->
            (S (api_service.attempts e) <= api_service.attempts e')%nat).
  { intros [c|x] Hs.
    - destruct (IH _ _ Hs) as [Hge _]. simpl in Hge. exact Hge.
    - injection Hs as <- <-. simpl. lia. }
  assert (Hs : (S (api_service.attempts e) <= api_service.attempts e')%nat).
  { destruct (post (api_service.attempts e)) as [status ra tok ttl|].
    - destruct (status =? 200); [injection H as <- <-; simpl; lia|].
      destruct (status =? 429).
      + destruct ra as [[w|]|]; [exact (Hagain _ H)| |exact (Hagain _ H)].
        injection H as <- <-. simpl. lia.
      + destruct (500 <=? status); [exact (Hagain _ H)|].
        injection H as <- <-. simpl. lia.
    - exact (Hagain _ H). }
  split; [lia|intros _; exact Hs].
Qed.

End TokenClock.

(** X13.  A token is reused until five minutes before it expires.  When the
    exchange answers the first request of [get_token] with status 200 and a
    non-empty token, the call sends that one request, returns the token and
    stores it with the expiry time [now + expires_in] (1800 seconds when
    the answer names none).  A later call before [expiry - 300] returns the
    stored token without a request and without touching the manager; a call
    at or after that moment sends a request again. *)
Theorem X13_token_reused_until_margin (post : nat -> api_service.reply)
    (tm : api_service.AmadeusTokenManager) (now : Q)
    (retry_after : option (option Z)) (t : string) (expires_in : option Q) :
  api_service.cached tm now = false ->
  (0 < api_service.max_retries tm)%nat ->
  post 0%nat = api_service.Response 200 retry_after (Some t) expires_in ->
  t <> ""%string ->
  let ttl := match expires_in with Some x => x | None => 1800%Q end in
  exists e,
    api_service.get_token post tm now = Some (Returns (Some t), e)
    /\ api_service.attempts e = 1%nat
    /\ api_service.clock e = now
    /\ api_service.token (api_service.manager e) = Some t
    /\ api_service.expiry_time (api_service.manager e) = (now + ttl)%Q
    /\ (forall post' later,
          (later < now + ttl - 300)%Q ->
          api_service.get_token post' (api_service.manager e) later
          = Some (Returns (Some t),
                  api_service.mkTokenEffect (api_service.manager e) later 0))
    /\ (forall post' later,
          (now + ttl - 300 <= later)%Q ->
          exists r e',
            api_service.get_token post' (api_service.manager e) later
            = Some (r, e')
            /\ (1 <= api_service.attempts e')%nat).
Proof.
  intros Hc Hmax Hpost Ht ttl.
  unfold api_service.get_token. unfold api_service.cached in Hc. rewrite Hc.
  simpl.
  assert (Elt : (0 <? api_service.max_retries tm)%nat = true)
    by (apply Nat.ltb_lt; exact Hmax).
  rewrite Elt, Hpost. simpl.
  eexists. split; [reflexivity|]. simpl.
  split; [reflexivity|]. split; [reflexivity|]. split; [reflexivity|].
  split; [reflexivity|]. fold ttl.
  assert (Htruthy : (if string_dec t "" then false else true) = true)
    by (destruct (string_dec t ""); [contradiction|reflexivity]).
  split.
  - intros post' later Hlater. rewrite Htruthy.
    assert (E : Qle_bool (now + ttl - 300) later = false)
      by (apply Qle_bool_false; exact Hlater).
    rewrite E. reflexivity.
  - intros post' later Hlater. rewrite Htruthy.
    assert (E : Qle_bool (now + ttl - 300) later = true)
      by (apply Qle_bool_iff; exact Hlater).
    rewrite E. simpl andb. cbv iota.
    set (tm' := api_service.mkTokenManager (Some t) (now + ttl)
                  (api_service.max_retries tm) (api_service.retry_delay tm)).
    set (e0 := api_service.mkTokenEffect tm' later 0).
    destruct (retry_loop_returns post' (S (api_service.max_retries tm)) 0 e0
                ltac:(simpl; lia))
      as (r & e' & Hr & _).
    exists r, e'. split; [exact Hr|].
    destruct (retry_loop_sends post' _ _ _ _ _ Hr) as [_ Hs].
    apply Hs. simpl. lia.
Qed.

(** X14.  When every request of a call is met by a network failure or a
    server error, [get_token] gives up after [max_retries] requests, leaves
    the manager as it was, returns [None], and has slept for
    [retry_delay * (2 ** max_retries - 1)] seconds in all: 14 seconds for the
    manager [__init__] builds. *)
Theorem X14_backoff_total (post : nat -> api_service.reply)
    (tm : api_service.AmadeusTokenManager) (now : Q) :
  api_service.cached tm now = false ->
  (0 <= api_service.retry_delay tm)%Q ->
  (forall n, (n < api_service.max_retries tm)%nat ->
             server_failure (post n) = true) ->
  exists e,
    api_service.get_token post tm now = Some (Returns None, e)
    /\ api_service.attempts e = api_service.max_retries tm
    /\ api_service.manager e = tm
    /\ (api_service.clock e
        == now + api_service.retry_delay tm
                 * (inject_Z (2 ^ Z.of_nat (api_service.max_retries tm)) - 1))%Q.
Proof.
  intros Hc Hdelay Hfail.
  unfold api_service.get_token. unfold api_service.cached in Hc. rewrite Hc.
  destruct (retry_loop_backoff post (S (api_service.max_retries tm)) 0
              (api_service.mkTokenEffect tm now 0))
    as (e & Hr & Ha & Hm & Hclock).
  - simpl. lia.
  - simpl. lia.
  - exact Hdelay.
  - intros n Hn. simpl in *. apply Hfail. lia.
  - exists e. split; [exact Hr|].
    cbn [api_service.manager api_service.clock api_service.attempts]
      in Ha, Hm, Hclock.
    split; [lia|]. split; [exact Hm|].
    rewrite Hclock. change (inject_Z (2 ^ Z.of_nat 0)) with 1%Q. ring.
Qed.

(** With the exchange down, the manager of [__init__] sends three requests
    and sleeps 2 + 4 + 8 seconds. *)
Lemma X14_backoff_total_witness :
  exists e,
    api_service.get_token always_down api_service.new_token_manager 100
    = Some (Returns None, e)
    /\ api_service.attempts e = 3%nat
    /\ api_service.manager e = api_service.new_token_manager
    /\ (api_service.clock e == 114)%Q.
Proof.
  destruct (X14_backoff_total always_down api_service.new_token_manager 100
              eq_refl ltac:(vm_compute; discriminate)
              ltac:(intros; reflexivity))
    as (e & H1 & H2 & H3 & H4).
  exists e. split; [exact H1|]. split; [exact H2|]. split; [exact H3|].
  rewrite H4. reflexivity.
Defined.

(** A token fetched at time 0 for 1799 seconds is reused at 1498 and
    fetched again at 1499. *)
Lemma X13_token_reused_until_margin_witness :
  exists e,
    api_service.get_token half_hour_token api_service.new_token_manager 0
    = Some (Returns (Some "token"%string), e)
    /\ api_service.get_token always_down (api_service.manager e) 1498
       = Some (Returns (Some "token"%string),
               api_service.mkTokenEffect (api_service.manager e) 1498 0)
    /\ exists r e',
         api_service.get_token always_down (api_service.manager e) 1499
         = Some (r, e')
         /\ (1 <= api_service.attempts e')%nat.
Proof.
  destruct (X13_token_reused_until_margin half_hour_token
              api_service.new_token_manager 0 None "token" (Some 1799%Q)
              eq_refl ltac:(simpl; lia) eq_refl ltac:(discriminate))
    as (e & H1 & _ & _ & _ & _ & Hreuse & Hagain).
  exists e. split; [exact H1|]. split.
  - apply Hreuse. vm_compute. reflexivity.
  - apply Hagain. vm_compute. discriminate.
Defined.

(** ** Further properties of the location resolver *)

Section BestMatch.

Variable ratio : string -> string -> Q.

Lemma find_best_match_fold (input_name : string)
    (locs : list api_service.raw_location) :
  api_service.find_best_match ratio input_name locs
  = let* first := py_str.item locs 0 in
    let* best :=
      fold_left (best_match_step ratio (py_str.lower input_name)) locs
                (Returns (0%Q, first)) in
    Returns (snd best).
Proof.
  reflexivity.
Qed.

Lemma best_match_raised (input_name : string)
    (locs : list api_service.raw_location) (e : exn) :
  fold_left (best_match_step ratio input_name) locs (Raises e) = Raises e.
Proof.
  induction locs as [|loc locs IH]; simpl; [reflexivity|exact IH].
Qed.

Lemma best_match_member (input_name : string)
    (locs : list api_service.raw_location) :
  forall (a b : Q * api_service.raw_location),
    fold_left (best_match_step ratio input_name) locs (Returns a) = Returns b ->
    snd b = snd a \/ In (snd b) locs.
Proof.
  induction locs as [|loc locs IH]; intros a b H; cbn [fold_left] in H.
  - injection H as <-. left. reflexivity.
  - unfold best_match_step at 2 in H. cbn [bind] in H.
    destruct (api_service.loc_name loc) as [n|].
    + destruct (negb _).
      * destruct (IH _ _ H) as [E|E]; [right; left; symmetry; exact E|].
        right. right. exact E.
      * destruct (IH _ _ H) as [E|E]; [left; exact E|right; right; exact E].
    + rewrite best_match_raised in H. discriminate H.
Qed.

Lemma best_match_key_error (input_name : string)
    (locs : list api_service.raw_location) :
  forall (a : Q * api_service.raw_location) (e : exn),
    fold_left (best_match_step ratio input_name) locs (Returns a) = Raises e ->
    e = KeyError
    /\ exists loc, In loc locs /\ api_service.loc_name loc = None.
Proof.
  induction locs as [|loc locs IH]; intros a e H; cbn [fold_left] in H;
    [discriminate|].
  unfold best_match_step at 2 in H. cbn [bind] in H.
  destruct (api_service.loc_name loc) as [n|] eqn:En.
  - destruct (negb _);
      destruct (IH _ _ H) as (-> & l & Hin & Hl);
      (split; [reflexivity|]; exists l; split; [right; exact Hin|exact Hl]).
  - rewrite best_match_raised in H. injection H as <-.
    split; [reflexivity|]. exists loc. split; [left; reflexivity|exact En].
Qed.

Hypothesis ratio_le_1 : forall a b, (ratio a b <= 1)%Q.
Hypothesis ratio_refl : forall a, (ratio a a == 1)%Q.

(** Candidates of another name never raise the best score above 1. *)
Lemma best_match_others (input_name : string)
    (locs : list api_service.raw_location) :
  (forall loc, In loc locs ->
     exists m, api_service.loc_name loc = Some m
               /\ py_str.lower m <> input_name) ->
  forall a : Q * api_service.raw_location,
    (fst a <= 1)%Q ->
    exists b,
      fold_left (best_match_step ratio input_name) locs (Returns a) = Returns b
      /\ (fst b <= 1)%Q.
Proof.
  induction locs as [|loc locs IH]; intros Hother a Ha; cbn [fold_left].
  - exists a. split; [reflexivity|exact Ha].
  - destruct (Hother loc (or_introl eq_refl)) as (m & Hm & Hne).
    unfold best_match_step at 2. cbn [bind]. rewrite Hm. cbv zeta.
    assert (E : String.eqb input_name (py_str.lower m) = false).
    { apply String.eqb_neq. intro H. apply Hne. symmetry. exact H. }
    rewrite E.
    destruct (negb _).
    + apply IH; [intros l Hl; apply Hother; right; exact Hl|].
      cbn [fst]. apply ratio_le_1.
    + apply IH; [intros l Hl; apply Hother; right; exact Hl|exact Ha].
Qed.

(** Once a candidate of the very name leads, it stays in the lead. *)
Lemma best_match_kept (input_name : string)
    (locs : list api_service.raw_location) :
  (forall loc, In loc locs -> api_service.loc_name loc <> None) ->
  forall a : Q * api_service.raw_location,
    (fst a == 3 # 2)%Q ->
    fold_left (best_match_step ratio input_name) locs (Returns a) = Returns a.
Proof.
  induction locs as [|loc locs IH]; intros Hnamed a Ha; cbn [fold_left];
    [reflexivity|].
  unfold best_match_step at 2. cbn [bind]. cbv zeta.
  destruct (api_service.loc_name loc) as [m|] eqn:Em;
    [|exfalso; exact (Hnamed loc (or_introl eq_refl) Em)].
  assert (E : Qle_bool (if String.eqb input_name (py_str.lower m)
                        then (ratio input_name (py_str.lower m) + 0.5)%Q
                        else ratio input_name (py_str.lower m)) (fst a) = true).
  { apply Qle_bool_iff. rewrite Ha.
    pose proof (ratio_le_1 input_name (py_str.lower m)) as H1.
    destruct (String.eqb input_name (py_str.lower m)); lra. }
  rewrite E. simpl.
  apply IH; [intros l Hl; apply Hnamed; right; exact Hl|exact Ha].
Qed.

End BestMatch.

(** X15.  [_find_best_match] returns one of the candidates; it raises
    [IndexError] on the empty list and otherwise only [KeyError], when a
    candidate has no name.  With a similarity score that is 1 on equal
    texts and never above 1, the first candidate whose name is the input
    name, letter case apart, is returned, whatever the scores of the
    candidates around it. *)
Theorem X15_best_match_prefers_the_name (ratio : string -> string -> Q)
    (input_name : string) (locs : list api_service.raw_location) :
  (forall loc,
     api_service.find_best_match ratio input_name locs = Returns loc ->
     In loc locs)
  /\ (forall e,
        api_service.find_best_match ratio input_name locs = Raises e ->
        (locs = [] /\ e = IndexError)
        \/ (e = KeyError
            /\ exists loc, In loc locs /\ api_service.loc_name loc = None))
  /\ ((forall a b, (ratio a b <= 1)%Q) ->
      (forall a, (ratio a a == 1)%Q) ->
      forall before exact after n,
        locs = before ++ exact :: after ->
        api_service.loc_name exact = Some n ->
        py_str.lower n = py_str.lower input_name ->
        (forall loc, In loc before ->
           exists m, api_service.loc_name loc = Some m
                     /\ py_str.lower m <> py_str.lower input_name) ->
        (forall loc, In loc after -> api_service.loc_name loc <> None) ->
        api_service.find_best_match ratio input_name locs = Returns exact).
Proof.
  rewrite find_best_match_fold. split; [|split].
  - intros loc H. destruct locs as [|first rest]; [discriminate|].
    unfold py_str.item in H. simpl nth_error in H. cbv beta iota in H.
    unfold bind at 1 in H.
    destruct (fold_left _ _ _) as [b|e] eqn:Ef; [|discriminate].
    simpl in H. injection H as <-.
    destruct (best_match_member _ _ _ _ _ Ef) as [E|E].
    + simpl in E. left. symmetry. exact E.
    + exact E.
  - intros e H. destruct locs as [|first rest].
    + left. split; [reflexivity|]. simpl in H. injection H as <-. reflexivity.
    + right. unfold py_str.item in H. simpl nth_error in H.
      cbv beta iota in H. unfold bind at 1 in H.
      destruct (fold_left _ _ _) as [b|e'] eqn:Ef; [discriminate|].
      simpl in H. injection H as <-.
      exact (best_match_key_error _ _ _ _ _ Ef).
  - intros ratio_le_1 ratio_refl before exact after n -> Hn Hlow Hbefore Hafter.
    assert (Hfirst : exists first,
              py_str.item (before ++ exact :: after) 0 = Returns first).
    { destruct before; eexists; reflexivity. }
    destruct Hfirst as [first Hfirst]. rewrite Hfirst.
    unfold bind at 1.
    rewrite fold_left_app.
    destruct (best_match_others ratio ratio_le_1 (py_str.lower input_name)
                before Hbefore (0%Q, first) ltac:(simpl; lra))
      as (b & Hb & Hb1).
    rewrite Hb. cbn [fold_left].
    unfold best_match_step at 2. cbn [bind]. rewrite Hn, Hlow. cbv zeta.
    rewrite String.eqb_refl.
    assert (E : Qle_bool (ratio (py_str.lower input_name)
                                (py_str.lower input_name) + 0.5) (fst b)
                = false).
    { apply Qle_bool_false. rewrite ratio_refl. lra. }
    rewrite E. simpl negb. cbv iota.
    rewrite (best_match_kept ratio ratio_le_1);
      [reflexivity|exact Hafter|].
    simpl. rewrite ratio_refl. reflexivity.
Qed.

Lemma exact_ratio_le_1 (a b : string) : (exact_ratio a b <= 1)%Q.
Proof.
  unfold exact_ratio. destruct (String.eqb a b); [apply Qle_refl|].
  vm_compute. discriminate.
Qed.

Lemma exact_ratio_refl (a : string) : (exact_ratio a a == 1)%Q.
Proof.
  unfold exact_ratio. rewrite String.eqb_refl. reflexivity.
Qed.

(** Among "PARIS ORLY", "Paris" and "PARIS", the input "paris" finds the
    second. *)
Lemma X15_best_match_prefers_the_name_witness :
  api_service.find_best_match exact_ratio "paris" paris_candidates
  = Returns (api_service.mkRawLocation (Some "Paris"%string) (Some "PAR"%string)).
Proof.
  apply (proj2 (proj2 (X15_best_match_prefers_the_name exact_ratio "paris"
                         paris_candidates))
               exact_ratio_le_1 exact_ratio_refl
               [api_service.mkRawLocation (Some "PARIS ORLY"%string)
                                          (Some "ORY"%string)]
               (api_service.mkRawLocation (Some "Paris"%string)
                                          (Some "PAR"%string))
               [api_service.mkRawLocation (Some "PARIS"%string)
                                          (Some "CDG"%string)]
               "Paris"%string eq_refl eq_refl eq_refl).
  - intros loc [<-|[]]. eexists. split; [reflexivity|].
    vm_compute. discriminate.
  - intros loc [<-|[]]. discriminate.
Defined.

Section WellFormed.

Variable ratio : string -> string -> Q.

Lemma provider_search_well_formed (w : api_service.world)
    (location_name : string) (result : Location) :
  api_service.provider_search ratio w location_name = Some result ->
  well_formed result.
Proof.
  unfold api_service.provider_search.
  destruct (api_service.locations w location_name) as [status json|];
    [|discriminate].
  destruct (status =? 200); [|discriminate].
  destruct json as [data|e]; simpl; [|discriminate].
  destruct data as [|first rest]; simpl; [discriminate|].
  destruct (api_service.find_best_match ratio location_name (first :: rest))
    as [best|e]; simpl; [|discriminate].
  destruct (api_service.loc_iataCode best) as [i|];
    destruct (api_service.loc_name best) as [n|]; simpl; try discriminate.
  intro H. injection H as <-. split; eexists; reflexivity.
Qed.

Lemma store_well_formed (key : string) (result : Location)
    (s : api_service.session) :
  well_formed result -> cache_well_formed s ->
  cache_well_formed (api_service.store key result s).
Proof.
  intros Hr Hs k v. unfold api_service.store. simpl.
  destruct (decide (key = k)) as [->|Hne].
  - rewrite lookup_insert_eq. intro H. injection H as <-. exact Hr.
  - rewrite lookup_insert_ne by exact Hne. apply Hs.
Qed.

Lemma strategies_well_formed (w : api_service.world) (s : api_service.session)
    (location_name : string) (result : Location) (s' : api_service.session) :
  cache_well_formed s ->
  api_service.strategies ratio w s location_name
  = api_service.Resolved result s' ->
  well_formed result /\ cache_well_formed s'.
Proof.
  intros Hs. unfold api_service.strategies.
  destruct (api_service.location_cache (api_service.service s)
              !! py_str.lower location_name) as [cached|] eqn:Ec.
  - intro H. injection H as <- <-. split; [exact (Hs _ _ Ec)|exact Hs].
  - destruct (api_service.special_cases !! py_str.lower location_name)
      as [[code nm]|].
    + intro H. injection H as <- <-.
      assert (Hwf : well_formed (mkLocation (Some nm) (Some code)))
        by (split; eexists; reflexivity).
      split; [exact Hwf|]. apply store_well_formed; assumption.
    + destruct (api_service.get_token _ _ _) as [[[tok|e] eff]|];
        try discriminate.
      destruct (api_service.truthy tok); [|discriminate].
      destruct (api_service.provider_search ratio w location_name)
        as [found|] eqn:Ep; [|discriminate].
      intro H. injection H as <- <-.
      pose proof (provider_search_well_formed _ _ _ Ep) as Hwf.
      split; [exact Hwf|]. apply store_well_formed; [exact Hwf|].
      intros k v. simpl. apply Hs.
Qed.

(** X16.  What the resolver returns can be used as a location: when every
    cached location carries both a name and a code, a location returned by
    [find_iata_code] carries both as well, whichever strategy found it, and
    so does every location of the cache the call leaves. *)
Theorem X16_resolved_locations_are_complete (fuel : nat) :
  forall (w : api_service.world) (s s' : api_service.session)
         (location_name : string) (result : Location),
    cache_well_formed s ->
    api_service.find_iata_code ratio fuel w s location_name
    = Some (Returns (Some result), s') ->
    well_formed result /\ cache_well_formed s'.
Proof.
  induction fuel as [|fuel IH]; intros w s s' location_name result Hs H;
    simpl in H; [discriminate|].
  pose proof (strategies_cache ratio w s location_name) as Hcache.
  destruct (api_service.strategies ratio w s location_name)
    as [r s1|s2|e s1|] eqn:Es; try discriminate.
  - injection H as <- <-. exact (strategies_well_formed _ _ _ _ _ Hs Es).
  - destruct Hcache as [Hsame _].
    destruct (api_service.geocode w location_name) as [[|components rest]|];
      try discriminate.
    destruct (api_service.locality components) as [component|];
      [|discriminate].
    destruct (api_service.find_iata_code ratio fuel w
                (api_service.count_geocode s2)
                (api_service.long_name component))
      as [[[r|e] s4]|] eqn:Er; try discriminate.
    injection H as -> <-.
    apply (IH w (api_service.count_geocode s2) s4
              (api_service.long_name component) result); [|exact Er].
    intros k v. simpl. rewrite Hsame. apply Hs.
Qed.

End WellFormed.

(** The provider's second candidate for "Paris" has both keys. *)
Lemma X16_resolved_locations_are_complete_witness :
  well_formed (mkLocation (Some "PARIS"%string) (Some "PAR"%string))
  /\ exists s',
       api_service.find_iata_code exact_ratio 1 amadeus_up
                                  (api_service.new_session 0) "Paris"
       = Some (Returns (Some (mkLocation (Some "PARIS"%string)
                                         (Some "PAR"%string))), s')
       /\ cache_well_formed s'.
Proof.
  assert (H : exists s',
            api_service.find_iata_code exact_ratio 1 amadeus_up
                                       (api_service.new_session 0) "Paris"
            = Some (Returns (Some (mkLocation (Some "PARIS"%string)
                                              (Some "PAR"%string))), s')).
  { eexists. vm_compute. reflexivity. }
  destruct H as [s' Hs'].
  destruct (X16_resolved_locations_are_complete exact_ratio 1 amadeus_up
              (api_service.new_session 0) s' "Paris" _
              ltac:(intros k v Hk; vm_compute in Hk; discriminate Hk) Hs')
    as [Hr Hc].
  split; [exact Hr|]. exists s'. split; [exact Hs'|exact Hc].
Defined.

(** ** What the suggestion parsers read of a text *)

Lemma lstrip_no_lead (s : string) :
  match py_str.lstrip s with
  | EmptyString => True
  | String c _ => py_str.is_space c = false
  end.
Proof.
  induction s as [|c r IH]; simpl; [exact I|].
  destruct (py_str.is_space c) eqn:E; [exact IH|exact E].
Qed.

Lemma rstrip_no_lead (s : string) :
  match s with
  | EmptyString => True
  | String c _ => py_str.is_space c = false
  end ->
  py_str.lstrip (py_str.rstrip s) = py_str.rstrip s.
Proof.
  destruct s as [|c r]; simpl; [reflexivity|].
  intro E. destruct (py_str.rstrip r) as [|d r'].
  - rewrite E. simpl. rewrite E. reflexivity.
  - simpl. rewrite E. reflexivity.
Qed.

Lemma rstrip_idempotent (s : string) :
  py_str.rstrip (py_str.rstrip s) = py_str.rstrip s.
Proof.
  induction s as [|c r IH]; simpl; [reflexivity|].
  destruct (py_str.rstrip r) as [|d r'] eqn:Er.
  - destruct (py_str.is_space c) eqn:E; simpl; [reflexivity|].
    rewrite E. reflexivity.
  - change (py_str.rstrip (String c (String d r')))
      with (match py_str.rstrip (String d r') with
            | EmptyString =>
                if py_str.is_space c then EmptyString else String c EmptyString
            | r'' => String c r''
            end).
    rewrite IH. reflexivity.
Qed.

(** [s.strip().strip()] is [s.strip()]. *)
Lemma strip_idempotent (s : string) :
  py_str.strip (py_str.strip s) = py_str.strip s.
Proof.
  unfold py_str.strip.
  rewrite (rstrip_no_lead (py_str.lstrip s) (lstrip_no_lead s)).
  apply rstrip_idempotent.
Qed.

Section Content.

Context {S : Type}.

Variable step : outcome S -> string -> outcome S.
Variable header : string -> option Z.
Variable st0 : S.

Hypothesis step_strip :
  forall acc line, step acc (py_str.strip line) = step acc line.
Hypothesis step_blank :
  forall acc line, py_str.strip line = ""%string -> step acc line = acc.
Hypothesis step_preamble :
  forall line, header (py_str.strip line) = None ->
               step (Returns st0) line = Returns st0.

Lemma fold_stripped (lines : list string) :
  forall acc,
    fold_left step (map py_str.strip lines) acc = fold_left step lines acc.
Proof.
  induction lines as [|line lines IH]; intro acc; simpl; [reflexivity|].
  rewrite step_strip. apply IH.
Qed.

Lemma fold_nonblank (lines : list string) :
  forall acc,
    fold_left step
      (List.filter (fun line => negb (String.eqb (py_str.strip line) "")) lines)
      acc
    = fold_left step lines acc.
Proof.
  induction lines as [|line lines IH]; intro acc; simpl; [reflexivity|].
  destruct (String.eqb (py_str.strip line) "") eqn:E; simpl.
  - apply String.eqb_eq in E. rewrite (step_blank acc line E). apply IH.
  - apply IH.
Qed.

Lemma fold_preamble (lines : list string) :
  fold_left step (drop_preamble header lines) (Returns st0)
  = fold_left step lines (Returns st0).
Proof.
  induction lines as [|line lines IH]; simpl; [reflexivity|].
  destruct (header (py_str.strip line)) eqn:E; [reflexivity|].
  rewrite (step_preamble line E). exact IH.
Qed.

(** The loop reads the content of the text only. *)
Lemma fold_content (response : string) :
  fold_left step (py_str.split response "010"%char) (Returns st0)
  = fold_left step (content header response) (Returns st0).
Proof.
  unfold content. rewrite fold_stripped, fold_preamble, fold_nonblank.
  reflexivity.
Qed.

End Content.

Section ParsersRead.

Variable float : string -> option Q.

Lemma activity_loop_content (daily_budget : Q) (response : string) :
  fold_left
    (fun (acc : outcome activity_service.parser_state) (line : string) =>
       let* st := acc in activity_service.parse_line float daily_budget st line)
    (py_str.split response "010"%char)
    (Returns (activity_service.mkParser [] None))
  = fold_left
      (fun (acc : outcome activity_service.parser_state) (line : string) =>
         let* st := acc in activity_service.parse_line float daily_budget st line)
      (content activity_service.header response)
      (Returns (activity_service.mkParser [] None)).
Proof.
  apply (fold_content _ activity_service.header).
  - intros [st|e] line; simpl; [|reflexivity].
    unfold activity_service.parse_line. rewrite strip_idempotent. reflexivity.
  - intros [st|e] line E; simpl; [|reflexivity].
    unfold activity_service.parse_line. rewrite E. reflexivity.
  - intros line E. simpl. unfold activity_service.parse_line. rewrite E.
    destruct (String.eqb (py_str.strip line) ""); reflexivity.
Qed.

Lemma hotel_loop_content (budget : Q) (response : string) :
  fold_left
    (fun (acc : outcome hotel_service.parser_state) (line : string) =>
       let* st := acc in hotel_service.parse_line float budget st line)
    (py_str.split response "010"%char)
    (Returns (hotel_service.mkParser [] None))
  = fold_left
      (fun (acc : outcome hotel_service.parser_state) (line : string) =>
         let* st := acc in hotel_service.parse_line float budget st line)
      (content hotel_service.header response)
      (Returns (hotel_service.mkParser [] None)).
Proof.
  apply (fold_content _ hotel_service.header).
  - intros [st|e] line; simpl; [|reflexivity].
    unfold hotel_service.parse_line. rewrite strip_idempotent. reflexivity.
  - intros [st|e] line E; simpl; [|reflexivity].
    unfold hotel_service.parse_line. rewrite E. reflexivity.
  - intros line E. simpl. unfold hotel_service.parse_line. rewrite E.
    destruct (String.eqb (py_str.strip line) ""); reflexivity.
Qed.

(** X17.  The suggestion parsers read only the content of the answer: two
    texts that have the same lines once the surrounding white space of each
    line, the empty lines and the lines before the first header line are
    taken away give the same options, for activities and for hotels, and
    the destination plays no part in the result. *)
Theorem X17_parsers_read_the_content (budget : Q) (duration : Z)
    (destination destination' response response' : string) :
  (content activity_service.header response
   = content activity_service.header response' ->
   activity_service.get_activity_suggestions float destination budget duration
                                             response
   = activity_service.get_activity_suggestions float destination' budget
                                               duration response')
  /\ (content hotel_service.header response
      = content hotel_service.header response' ->
      hotel_service.get_hotel_suggestions float destination budget duration
                                          response
      = hotel_service.get_hotel_suggestions float destination' budget duration
                                            response').
Proof.
  split; intro H.
  - unfold activity_service.get_activity_suggestions.
    destruct (activity_service.daily_budget budget duration) as [daily|e];
      simpl; [|reflexivity].
    rewrite !activity_loop_content, H. reflexivity.
  - unfold hotel_service.get_hotel_suggestions.
    destruct (hotel_service.max_per_night budget duration) as [m|e];
      simpl; [|reflexivity].
    rewrite !hotel_loop_content, H. reflexivity.
Qed.

End ParsersRead.

(** The answer with an introduction, empty lines and indentation gives the
    options of the plain one. *)
Lemma X17_parsers_read_the_content_witness :
  activity_service.get_activity_suggestions py_str.decimal "Paris" 1000 5
                                            chatty_answer
  = activity_service.get_activity_suggestions py_str.decimal "Lutetia" 1000 5
                                              plain_answer.
Proof.
  apply (proj1 (X17_parsers_read_the_content py_str.decimal 1000 5
                  "Paris" "Lutetia" chatty_answer plain_answer)).
  vm_compute. reflexivity.
Defined.

(** ** The simulated suggestions and the chat front end *)

(** X19.  The prices of the simulated hotel suggestions do not depend on
    the stay: for every number of nights other than zero (and whatever the
    travelers) they are 3/5, 1/2 and 11/15 of the budget, so that the second
    option is the cheapest whenever the budget is positive.  The five
    simulated activity costs add up to 11/10 of the daily budget. *)
Theorem X19_simulated_prices (destination : string) (budget : Q) :
  (forall (nights : Z) (travelers : option Z),
     nights <> 0 ->
     exists a b c,
       api_wrappers.get_hotel_suggestions destination budget nights travelers
       = Returns [a; b; c]
       /\ (api_wrappers.suggestion_price a == (3 # 5) * budget)%Q
       /\ (api_wrappers.suggestion_price b == (1 # 2) * budget)%Q
       /\ (api_wrappers.suggestion_price c == (11 # 15) * budget)%Q)
  /\ (forall days : Z,
        days <> 0 ->
        exists suggestions,
          api_wrappers.get_activity_suggestions destination budget days
          = Returns suggestions
          /\ length suggestions = 5%nat
          /\ (fold_left (fun s a => s + api_wrappers.suggestion_price a)
                        suggestions 0
              == (11 # 10) * (budget / inject_Z days))%Q).
Proof.
  split.
  - intros nights travelers Hn.
    assert (Hq : ~ (inject_Z nights == 0)%Q).
    { intro H. unfold Qeq in H. simpl in H. lia. }
    assert (Hd : ~ (inject_Z nights * 1.5 == 0)%Q).
    { intro H. apply Hq.
      assert (H' : (inject_Z nights * 1.5 * (2 # 3) == 0)%Q)
        by (rewrite H; reflexivity).
      rewrite <- H'. field. }
    unfold api_wrappers.get_hotel_suggestions.
    rewrite (py_div_returns _ _ Hd). simpl.
    eexists _, _, _. split; [reflexivity|]. simpl.
    split; [|split]; field; exact Hq.
  - intros days Hn.
    assert (Hq : ~ (inject_Z days == 0)%Q).
    { intro H. unfold Qeq in H. simpl in H. lia. }
    unfold api_wrappers.get_activity_suggestions.
    rewrite (py_div_returns _ _ Hq). simpl.
    eexists. split; [reflexivity|]. split; [reflexivity|].
    simpl. field. exact Hq.
Qed.

(** For seven nights and for two, the first hotel costs 3/5 of 1000. *)
Lemma X19_simulated_prices_witness :
  (exists a b c,
     api_wrappers.get_hotel_suggestions "Paris" 1000 7 (Some 2)
     = Returns [a; b; c]
     /\ (api_wrappers.suggestion_price a == (3 # 5) * 1000)%Q
     /\ (api_wrappers.suggestion_price b == (1 # 2) * 1000)%Q
     /\ (api_wrappers.suggestion_price c == (11 # 15) * 1000)%Q)
  /\ (exists a b c,
        api_wrappers.get_hotel_suggestions "Paris" 1000 2 None
        = Returns [a; b; c]
        /\ (api_wrappers.suggestion_price a == (3 # 5) * 1000)%Q
        /\ (api_wrappers.suggestion_price b == (1 # 2) * 1000)%Q
        /\ (api_wrappers.suggestion_price c == (11 # 15) * 1000)%Q).
Proof.
  destruct (X19_simulated_prices "Paris" 1000) as [Hh _].
  split.
  - exact (Hh 7 (Some 2) ltac:(lia)).
  - exact (Hh 2 None ltac:(lia)).
Defined.

Lemma activities_total_append (l1 l2 : list Activity) :
  (activities_total (l1 ++ l2) == activities_total l1 + activities_total l2)%Q.
Proof.
  unfold activities_total. rewrite fold_left_app, fold_prices. reflexivity.
Qed.

Lemma listed_costs (selected : list Z) :
  forall (t u : Z) (s : Q),
    (s == inject_Z t + inject_Z u)%Q ->
    (fold_left (fun s a => s + activity_price a) (map pui.listed selected) s
     == inject_Z
          (fold_left (fun total num =>
                        if ((1 <=? num) && (num <=? 5))%Z
                        then (total + 50 * num)%Z else total) selected t)
        + inject_Z
            (fold_left (fun total num =>
                          if ((1 <=? num) && (num <=? 5))%Z
                          then total else (total + 50 * num)%Z) selected u))%Q.
Proof.
  induction selected as [|num rest IH]; intros t u s Hs; simpl.
  - exact Hs.
  - apply IH. rewrite Hs.
    destruct ((1 <=? num) && (num <=? 5)); rewrite inject_Z_plus; ring.
Qed.

Lemma unlisted_cost_zero (selected : list Z) :
  Forall (fun num => 1 <= num <= 5) selected -> unlisted_cost selected = 0.
Proof.
  intro H. unfold unlisted_cost.
  assert (G : forall u,
            fold_left (fun total num =>
                         if (1 <=? num) && (num <=? 5)
                         then total else total + 50 * num) selected u = u).
  { induction H as [|num rest [H1 H2] Hrest IH]; intro u; simpl;
      [reflexivity|].
    apply Z.leb_le in H1. apply Z.leb_le in H2. rewrite H1, H2. simpl.
    apply IH. }
  apply G.
Qed.

Section ChatBookings.

Variable strptime : string -> option Z.

(** X20.  The chat front end adds every number of the selection to the
    activities, at 50 times the number, but charges only the numbers from 1
    to 5.  On a balanced plan, after a selection has been added the
    remaining budget exceeds [total_budget - spent] by the prices of the
    numbers outside 1..5, so that the ledger equation is kept exactly when
    these prices add up to zero, as they do when the selection holds no such
    number; a selection that is not added leaves the plan as it was. *)
Theorem X20_chat_activities_ledger (selected : option (list Z))
    (p p' : TravelPlan) (added : bool) :
  session.ledger p ->
  pui.add_activities strptime selected p = Returns (p', added) ->
  if added then
    exists numbers,
      selected = Some numbers
      /\ activities p' = activities p ++ map pui.listed numbers
      /\ (remaining_budget p'
          == remaining_budget p - inject_Z (pui.total_cost numbers))%Q
      /\ (remaining_budget p'
          == total_budget p' - spent p' + inject_Z (unlisted_cost numbers))%Q
      /\ (session.ledger p' <-> unlisted_cost numbers = 0)
      /\ (Forall (fun num => 1 <= num <= 5) numbers -> session.ledger p')
  else p' = p.
Proof.
  intros Hl H. unfold pui.add_activities in H.
  destruct selected as [numbers|];
    [|injection H as <- <-; reflexivity].
  destruct (fallback.stay strptime p) as [days|[]];
    try discriminate; [|injection H as <- <-; reflexivity].
  destruct (api_wrappers.get_activity_suggestions _ _ _) as [l|e];
    simpl in H; [|discriminate].
  destruct (Qle_bool _ _); [|injection H as <- <-; reflexivity].
  injection H as <- <-.
  assert (Hgap : (remaining_budget p - inject_Z (pui.total_cost numbers)
                  == total_budget p
                     - spent (set_remaining_budget
                                (remaining_budget p
                                 - inject_Z (pui.total_cost numbers))
                                (set_activities
                                   (activities p ++ map pui.listed numbers) p))
                     + inject_Z (unlisted_cost numbers))%Q).
  { apply ledger_sum in Hl. rewrite spent_sum. simpl.
    rewrite activities_total_append.
    assert (Hc : (activities_total (map pui.listed numbers)
                  == inject_Z (pui.total_cost numbers)
                     + inject_Z (unlisted_cost numbers))%Q).
    { unfold activities_total, pui.total_cost, unlisted_cost.
      apply listed_costs. reflexivity. }
    rewrite Hc, Hl. ring. }
  exists numbers. split; [reflexivity|]. split; [reflexivity|].
  split; [reflexivity|]. split; [exact Hgap|].
  assert (Hiff : forall u : Z, (inject_Z u == 0)%Q <-> u = 0).
  { intro u. unfold Qeq. simpl. lia. }
  split.
  - unfold session.ledger. simpl remaining_budget. simpl total_budget.
    simpl total_budget in Hgap. rewrite <- Hiff. split; intro H.
    + rewrite H in Hgap at 1.
      generalize dependent (inject_Z (unlisted_cost numbers)).
      intros u Hu. lra.
    + rewrite Hgap at 1. rewrite H. ring.
  - intro Hin. unfold session.ledger. simpl remaining_budget.
    simpl total_budget.
    rewrite Hgap at 1. rewrite (unlisted_cost_zero _ Hin). simpl total_budget.
    ring.
Qed.

(** X21.  The chat front end prices a hotel at 100 times the option times
    the nights between the two dates, books it when that price is at most
    the remaining budget and debits exactly the price.  It never checks the
    order of the dates: a stay of no night is booked for nothing, and with a
    return date before the departure date the price is negative, the hotel
    is booked whenever the remaining budget is not negative, and the
    remaining budget grows. *)
Theorem X21_chat_hotel_price (option nights : Z) (p : TravelPlan) :
  fallback.stay strptime p = Returns nights ->
  1 <= option <= 3 ->
  let price := inject_Z (100 * option * nights) in
  ((price <= remaining_budget p)%Q ->
     pui.book_hotel strptime option p
     = Returns (set_remaining_budget (remaining_budget p - price)%Q
                  (set_hotels (Some (mkHotel option price nights None)) p),
                true))
  /\ ((remaining_budget p < price)%Q ->
        pui.book_hotel strptime option p = Returns (p, false))
  /\ (nights <= 0 ->
      (0 <= remaining_budget p)%Q ->
      exists p',
        pui.book_hotel strptime option p = Returns (p', true)
        /\ (remaining_budget p <= remaining_budget p')%Q
        /\ (nights < 0 -> (remaining_budget p < remaining_budget p')%Q)).
Proof.
  intros Hs Hk price. unfold pui.book_hotel.
  rewrite (in_menu option 3 Hk), Hs. simpl. fold price.
  split; [|split].
  - intro Hle. apply Qle_bool_iff in Hle. rewrite Hle. reflexivity.
  - intro Hlt. apply Qle_bool_false in Hlt. rewrite Hlt. reflexivity.
  - intros Hn Hr.
    assert (Hp : (price <= 0)%Q).
    { unfold price. rewrite <- (Zle_Qle _ 0). nia. }
    assert (Hle : Qle_bool price (remaining_budget p) = true)
      by (apply Qle_bool_iff; lra).
    rewrite Hle. eexists. split; [reflexivity|]. simpl. split; [lra|].
    intro Hneg.
    assert (Hp' : (price < 0)%Q).
    { unfold price. rewrite <- (Zlt_Qlt _ 0). nia. }
    lra.
Qed.

End ChatBookings.

(** The selection 2, 7 on [both_booked]: 100 is charged and 450 is listed. *)
Lemma X20_chat_activities_ledger_witness :
  exists p',
    pui.add_activities december (Some [2; 7]) both_booked = Returns (p', true)
    /\ exists numbers,
         Some [2; 7] = Some numbers
         /\ activities p' = activities both_booked ++ map pui.listed numbers
         /\ (remaining_budget p'
             == remaining_budget both_booked
                - inject_Z (pui.total_cost numbers))%Q
         /\ (remaining_budget p'
             == total_budget p' - spent p' + inject_Z (unlisted_cost numbers))%Q
         /\ (session.ledger p' <-> unlisted_cost numbers = 0)
         /\ (Forall (fun num => 1 <= num <= 5) numbers -> session.ledger p').
Proof.
  eexists. split; [vm_compute; reflexivity|].
  apply (X20_chat_activities_ledger december (Some [2; 7]) both_booked _ true).
  - vm_compute. reflexivity.
  - vm_compute. reflexivity.
Defined.

(** With the dates exchanged the stay is of -7 nights: option 2 is booked
    at -1400 and the remaining budget grows from 600 to 2000. *)
Lemma X21_chat_hotel_price_witness :
  exists p',
    pui.book_hotel december 2 backwards = Returns (p', true)
    /\ (remaining_budget backwards <= remaining_budget p')%Q
    /\ (-7 < 0 -> (remaining_budget backwards < remaining_budget p')%Q).
Proof.
  destruct (X21_chat_hotel_price december 2 (-7) backwards
              ltac:(vm_compute; reflexivity) ltac:(lia)) as (_ & _ & H).
  exact (H ltac:(lia) ltac:(vm_compute; discriminate)).
Defined.

(** ** The resolver over the sample data *)

Lemma upper_char_idempotent (c : ascii) :
  location_utils.upper_char (location_utils.upper_char c)
  = location_utils.upper_char c.
Proof.
  destruct c as [[] [] [] [] [] [] [] []]; reflexivity.
Qed.

Lemma lower_upper_char (c : ascii) :
  py_str.lower_char (location_utils.upper_char c) = py_str.lower_char c.
Proof.
  destruct c as [[] [] [] [] [] [] [] []]; reflexivity.
Qed.

Lemma upper_idempotent (s : string) :
  location_utils.upper (location_utils.upper s) = location_utils.upper s.
Proof.
  induction s as [|c r IH]; simpl; [reflexivity|].
  rewrite upper_char_idempotent, IH. reflexivity.
Qed.

Lemma lower_upper (s : string) :
  py_str.lower (location_utils.upper s) = py_str.lower s.
Proof.
  induction s as [|c r IH]; simpl; [reflexivity|].
  rewrite lower_upper_char, IH. reflexivity.
Qed.

Lemma length_lower (s : string) : String.length (py_str.lower s) = String.length s.
Proof.
  induction s as [|c r IH]; simpl; [reflexivity|]. rewrite IH. reflexivity.
Qed.

Lemma length_lstrip (s : string) :
  (String.length (py_str.lstrip s) <= String.length s)%nat.
Proof.
  induction s as [|c r IH]; simpl; [lia|].
  destruct (py_str.is_space c); simpl; lia.
Qed.

Lemma length_rstrip (s : string) :
  (String.length (py_str.rstrip s) <= String.length s)%nat.
Proof.
  induction s as [|c r IH]; simpl; [lia|].
  destruct (py_str.rstrip r) as [|d r'].
  - destruct (py_str.is_space c); simpl; lia.
  - simpl in *. lia.
Qed.

Lemma length_strip (s : string) :
  (String.length (py_str.strip s) <= String.length s)%nat.
Proof.
  unfold py_str.strip.
  pose proof (length_rstrip (py_str.lstrip s)). pose proof (length_lstrip s). lia.
Qed.

(** The keys of the two tables. *)
Lemma airports_key (k : string) (a : location_utils.airport_data) :
  location_utils.dict_get location_utils._airports k = Some a ->
  In (k, a) location_utils._airports.
Proof.
  unfold location_utils._airports. cbn [location_utils.dict_get].
  repeat match goal with
         | |- (if String.eqb ?x k then _ else _) = _ -> _ =>
             destruct (String.eqb x k) eqn:E;
             [apply String.eqb_eq in E; subst k; intro H; injection H as <-;
              simpl; tauto|clear E]
         end.
  discriminate.
Qed.

Lemma cities_key (k : string) (c : location_utils.city_data) :
  location_utils.dict_get location_utils._cities k = Some c ->
  In (k, c) location_utils._cities.
Proof.
  unfold location_utils._cities. cbn [location_utils.dict_get].
  repeat match goal with
         | |- (if String.eqb ?x k then _ else _) = _ -> _ =>
             destruct (String.eqb x k) eqn:E;
             [apply String.eqb_eq in E; subst k; intro H; injection H as <-;
              simpl; tauto|clear E]
         end.
  discriminate.
Qed.

Lemma airport_from_the_tables (k : string) (a : location_utils.airport_data) :
  In (k, a) location_utils._airports ->
  location_utils.dict_get location_utils._airports k = Some a
  /\ location_utils.airport_iata a = k
  /\ py_str.strip k = k
  /\ from_the_tables (location_utils.Found (location_utils.airport_name a) k).
Proof.
  unfold location_utils._airports. simpl In.
  intros [H|[H|[H|[H|[H|[H|[]]]]]]]; injection H as <- <-;
    (split; [reflexivity|]; split; [reflexivity|]; split; [reflexivity|];
     eexists; split; [reflexivity|]; split; [reflexivity|]; left; reflexivity).
Qed.

Lemma city_from_the_tables (k : string) (c : location_utils.city_data) :
  In (k, c) location_utils._cities ->
  exists a,
    location_utils.get_airports_by_city k = [a]
    /\ location_utils.get_city k = Some c
    /\ location_utils.city a = k
    /\ In (location_utils.airport_iata a, a) location_utils._airports
    /\ from_the_tables (location_utils.Found (location_utils.city_name c)
                                             (location_utils.airport_iata a)).
Proof.
  unfold location_utils._cities. simpl In.
  intros [H|[H|[H|[H|[H|[H|[]]]]]]]; injection H as <- <-;
    (eexists; split; [vm_compute; reflexivity|]; split; [reflexivity|];
     split; [reflexivity|]; split; [simpl; tauto|];
     eexists; split; [reflexivity|]; split; [reflexivity|]; right;
     eexists; split; reflexivity).
Qed.

Lemma direct_answer (code : string) :
  location_utils.is_valid_airport_code code = true ->
  exists a,
    In (location_utils.upper code, a) location_utils._airports
    /\ location_utils.dict_get location_utils._airports
                               (py_str.strip (location_utils.upper code))
       = Some a.
Proof.
  unfold location_utils.is_valid_airport_code.
  destruct (String.eqb code ""); [discriminate|].
  destruct (negb _); [discriminate|].
  destruct (location_utils.dict_get _ _) as [a|] eqn:E; [|discriminate].
  intros _. exists a. apply airports_key in E.
  split; [exact E|].
  destruct (airport_from_the_tables _ _ E) as (Hg & _ & Hs & _).
  rewrite Hs. exact Hg.
Qed.

Lemma partial_answer (l : string) (r : location_utils.answer) :
  location_utils.partial_match l location_utils._cities = Some r ->
  exists k c a,
    In (k, c) location_utils._cities
    /\ (py_str.contains k l || py_str.contains l k = true)
    /\ location_utils.get_airports_by_city k = [a]
    /\ r = location_utils.Found (location_utils.city_name c)
                                (location_utils.airport_iata a).
Proof.
  assert (G : forall cities,
            (forall k c, In (k, c) cities -> In (k, c) location_utils._cities) ->
            location_utils.partial_match l cities = Some r ->
            exists k c a,
              In (k, c) location_utils._cities
              /\ (py_str.contains k l || py_str.contains l k = true)
              /\ location_utils.get_airports_by_city k = [a]
              /\ r = location_utils.Found (location_utils.city_name c)
                                          (location_utils.airport_iata a)).
  { induction cities as [|[k c] rest IH]; intros Hsub H;
      cbn [location_utils.partial_match] in H; [discriminate|].
    assert (Hrest : forall k0 c0, In (k0, c0) rest ->
                                  In (k0, c0) location_utils._cities)
      by (intros; apply Hsub; right; assumption).
    destruct (py_str.contains k l || py_str.contains l k) eqn:Ec;
      [|exact (IH Hrest H)].
    destruct (city_from_the_tables k c (Hsub k c (or_introl eq_refl)))
      as (a & Ha & _).
    rewrite Ha in H. injection H as <-.
    exists k, c, a. split; [apply Hsub; left; reflexivity|].
    split; [exact Ec|]. split; [exact Ha|reflexivity]. }
  apply G. intros k c H. exact H.
Qed.

Lemma dict_set_Forall {A : Type} (P : string * A -> Prop)
    (d : list (string * A)) (key : string) (value : A) :
  Forall P d -> P (key, value) -> Forall P (location_utils.dict_set d key value).
Proof.
  intros Hd Hp. induction Hd as [|[k v] rest Hk Hrest IH]; simpl.
  - constructor; [exact Hp|constructor].
  - destruct (String.eqb k key) eqn:E.
    + apply String.eqb_eq in E. subst k. constructor; assumption.
    + constructor; assumption.
Qed.

Lemma fold_dict_set {A : Type} (P : string * A -> Prop)
    (test : string * A -> bool) (l : list (string * A)) :
  forall results,
    Forall P results -> Forall P l ->
    Forall P (fold_left
                (fun results entry =>
                   if test entry
                   then location_utils.dict_set results (fst entry) (snd entry)
                   else results)
                l results).
Proof.
  induction l as [|[k a] rest IH]; intros results Hres Hl; cbn [fold_left];
    [exact Hres|].
  inversion Hl as [|? ? Hk Hrest]; subst.
  apply IH; [|exact Hrest].
  destruct (test (k, a)); [|exact Hres].
  apply dict_set_Forall; [exact Hres|exact Hk].
Qed.

Lemma search_answer (query : string) :
  Forall (fun entry => In entry location_utils._airports)
         (location_utils.search_airports query).
Proof.
  unfold location_utils.search_airports.
  apply (fold_dict_set (fun entry => In entry location_utils._airports)
           (fun entry =>
              py_str.contains
                (py_str.lower (location_utils.airport_name (snd entry)))
                (py_str.lower (py_str.strip query)))).
  - destruct (location_utils.dict_get _ _) as [a|] eqn:E; [|constructor].
    constructor; [exact (airports_key _ _ E)|constructor].
  - apply Forall_forall. intros e He. apply list_elem_of_In. exact He.
Qed.

Lemma direct_code_answer (location_name : string) (r : location_utils.answer) :
  location_utils.direct_code location_name = Some r ->
  exists a,
    In (location_utils.upper location_name, a) location_utils._airports
    /\ r = location_utils.Found (location_utils.airport_name a)
                                (location_utils.upper location_name).
Proof.
  unfold location_utils.direct_code.
  destruct (_ && _); [|discriminate].
  destruct (location_utils.is_valid_airport_code
              (location_utils.upper location_name)) eqn:Ev; [|discriminate].
  destruct (direct_answer _ Ev) as (a & Hin & Hget).
  rewrite upper_idempotent in Hin, Hget.
  unfold location_utils.get_airport. rewrite upper_idempotent, Hget.
  intro H. injection H as <-. exists a. split; [exact Hin|reflexivity].
Qed.

Lemma known_city_answer (location_name : string) (r : location_utils.answer) :
  location_utils.known_city location_name = Some r ->
  exists c a,
    In (py_str.strip (py_str.lower location_name), c) location_utils._cities
    /\ location_utils.get_airports_by_city
         (py_str.strip (py_str.lower location_name)) = [a]
    /\ r = location_utils.Found (location_utils.city_name c)
                                (location_utils.airport_iata a).
Proof.
  unfold location_utils.known_city, location_utils.is_valid_city.
  destruct (String.eqb location_name ""); [discriminate|].
  destruct (location_utils.dict_get _ _) as [c|] eqn:E; [|discriminate].
  apply cities_key in E.
  destruct (city_from_the_tables _ _ E) as (a & Ha & Hc & _).
  rewrite Ha, Hc. intro H. injection H as <-.
  exists c, a. split; [exact E|]. split; reflexivity.
Qed.

(** Every answer of [find_iata_code] is borne out by the tables. *)
Lemma find_iata_code_from_the_tables (location_name : string) :
  from_the_tables (location_utils.find_iata_code location_name).
Proof.
  unfold location_utils.find_iata_code.
  destruct (String.eqb location_name ""); [exact I|].
  destruct (location_utils.direct_code location_name) as [r|] eqn:Ed.
  { destruct (direct_code_answer _ _ Ed) as (a & Hin & ->).
    exact (proj2 (proj2 (proj2 (airport_from_the_tables _ _ Hin)))). }
  destruct (location_utils.known_city location_name) as [r|] eqn:Ek.
  { destruct (known_city_answer _ _ Ek) as (c & a & Hin & Ha & ->).
    destruct (city_from_the_tables _ _ Hin) as (a' & Ha' & _ & _ & _ & Hr).
    rewrite Ha in Ha'. injection Ha' as <-. exact Hr. }
  cbv zeta.
  destruct (location_utils.partial_match _ _) as [r|] eqn:Ep.
  { destruct (partial_answer _ _ Ep) as (k & c & a & Hin & _ & Ha & ->).
    destruct (city_from_the_tables _ _ Hin) as (a' & Ha' & _ & _ & _ & Hr).
    rewrite Ha in Ha'. injection Ha' as <-. exact Hr. }
  unfold location_utils.airports_directly.
  pose proof (search_answer location_name) as Hs.
  destruct (location_utils.search_airports location_name) as [|[k a] rest];
    [exact I|].
  inversion Hs as [|? ? Hin _]; subst.
  destruct (airport_from_the_tables _ _ Hin) as (_ & Hi & _ & Hr).
  rewrite Hi. exact Hr.
Qed.

(** X22.  Over its sample data the resolver [find_iata_code] of
    [location_utils] never fails and never invents: it returns [None] for
    the empty text, it never raises by subscripting a failed lookup, and
    every dictionary it returns holds the code of an airport of the table
    together with the name of that airport or of the city it serves. *)
Theorem X22_answers_come_from_the_tables (location_name : string) :
  location_utils.find_iata_code "" = location_utils.NotFound
  /\ from_the_tables (location_utils.find_iata_code location_name).
Proof.
  split.
  - reflexivity.
  - apply find_iata_code_from_the_tables.
Qed.

Lemma airport_code_accepted (k : string) (a : location_utils.airport_data) :
  In (k, a) location_utils._airports ->
  location_utils.is_valid_airport_code k = true
  /\ location_utils.get_airport k = Some a
  /\ py_str.contains "new york" (py_str.strip (py_str.lower k)) = false.
Proof.
  unfold location_utils._airports. simpl In.
  intros [H|[H|[H|[H|[H|[H|[]]]]]]]; injection H as <- <-;
    (split; [reflexivity|]; split; reflexivity).
Qed.

Lemma city_key_length (k : string) (c : location_utils.city_data) :
  In (k, c) location_utils._cities -> (5 <= String.length k)%nat.
Proof.
  unfold location_utils._cities. simpl In.
  intros [H|[H|[H|[H|[H|[H|[]]]]]]]; injection H as <- <-; simpl; lia.
Qed.

(** X23.  Codes and city names are found whatever their letter case: a text
    of three letters whose upper-case form is a code of the airport table
    gives the name of that airport with the code in upper case, and a text
    that is the name of a city of the table, letter case and surrounding
    white space apart, gives the name of the city as the table spells it
    with the code of its airport. *)
Theorem X23_codes_and_cities (location_name : string) :
  (forall a,
     String.length location_name = 3%nat ->
     location_utils.isalpha location_name = true ->
     location_utils.dict_get location_utils._airports
                             (location_utils.upper location_name) = Some a ->
     location_utils.find_iata_code location_name
     = location_utils.Found (location_utils.airport_name a)
                            (location_utils.upper location_name))
  /\ (forall c,
        location_name <> ""%string ->
        location_utils.dict_get location_utils._cities
                                (py_str.strip (py_str.lower location_name))
        = Some c ->
        exists a,
          location_utils.get_airports_by_city
            (py_str.strip (py_str.lower location_name)) = [a]
          /\ location_utils.find_iata_code location_name
             = location_utils.Found (location_utils.city_name c)
                                    (location_utils.airport_iata a)).
Proof.
  split.
  - intros a Hlen Halpha Hget.
    unfold location_utils.find_iata_code.
    assert (Hne : String.eqb location_name "" = false)
      by (destruct location_name; [discriminate Hlen|reflexivity]).
    rewrite Hne. unfold location_utils.direct_code.
    rewrite Hlen, Halpha. simpl andb. cbv iota zeta.
    apply airports_key in Hget.
    destruct (airport_code_accepted _ _ Hget) as (Hv & Hg & _).
    rewrite Hv, Hg. reflexivity.
  - intros c Hne Hget.
    pose proof (cities_key _ _ Hget) as Hin.
    destruct (city_from_the_tables _ _ Hin) as (a & Ha & Hc & _).
    exists a. split; [exact Ha|].
    unfold location_utils.find_iata_code.
    assert (Hne' : String.eqb location_name "" = false)
      by (apply String.eqb_neq; exact Hne).
    rewrite Hne'.
    assert (Hlen : (String.length location_name =? 3)%nat = false).
    { apply Nat.eqb_neq. intro H3.
      pose proof (city_key_length _ _ Hin) as H5.
      pose proof (length_strip (py_str.lower location_name)) as Hs.
      rewrite length_lower in Hs. lia. }
    unfold location_utils.direct_code. rewrite Hlen. simpl andb. cbv iota.
    unfold location_utils.known_city, location_utils.is_valid_city.
    rewrite Hne'. cbv zeta. rewrite Hget, Ha, Hc. reflexivity.
Qed.

(** "lhr" is Heathrow, and " PARIS " is Paris. *)
Lemma X23_codes_and_cities_witness :
  location_utils.find_iata_code "lhr"
  = location_utils.Found "Heathrow Airport" "LHR"
  /\ exists a,
       location_utils.get_airports_by_city
         (py_str.strip (py_str.lower " PARIS ")) = [a]
       /\ location_utils.find_iata_code " PARIS "
          = location_utils.Found "Paris" (location_utils.airport_iata a).
Proof.
  split.
  - exact (proj1 (X23_codes_and_cities "lhr")
                 (location_utils.mkAirport "Heathrow Airport" "london" "LHR")
                 eq_refl eq_refl eq_refl).
  - exact (proj2 (X23_codes_and_cities " PARIS ")
                 (location_utils.mkCity "Paris" "FR" 2161000)
                 ltac:(discriminate) eq_refl).
Defined.

Lemma new_york_airports :
  location_utils.get_airports_by_city "new york"
  = [location_utils.mkAirport "John F. Kennedy International Airport"
                              "new york" "JFK"].
Proof.
  reflexivity.
Qed.

Lemma city_in_new_york (k : string) (c : location_utils.city_data) :
  In (k, c) location_utils._cities ->
  py_str.contains "new york" k = true ->
  k = "new york"%string /\ location_utils.city_name c = "New York"%string.
Proof.
  unfold location_utils._cities. simpl In.
  intros [H|[H|[H|[H|[H|[H|[]]]]]]]; injection H as <- <-; intro Hc;
    try (vm_compute in Hc; discriminate Hc).
  split; reflexivity.
Qed.

(** X24.  The partial match takes any fragment of "new york" for New York:
    every text that is not empty and whose lower-case form, without its
    surrounding white space, occurs in "new york" (a single letter of it,
    a blank, or nothing at all once the white space is gone) is answered
    with New York and JFK. *)
Theorem X24_fragments_of_new_york (location_name : string) :
  location_name <> ""%string ->
  py_str.contains "new york" (py_str.strip (py_str.lower location_name)) = true ->
  location_utils.find_iata_code location_name
  = location_utils.Found "New York" "JFK".
Proof.
  intros Hne Hc. unfold location_utils.find_iata_code.
  assert (Hne' : String.eqb location_name "" = false)
    by (apply String.eqb_neq; exact Hne).
  rewrite Hne'.
  destruct (location_utils.direct_code location_name) as [r|] eqn:Ed.
  { exfalso. destruct (direct_code_answer _ _ Ed) as (a & Hin & _).
    destruct (airport_code_accepted _ _ Hin) as (_ & _ & Hno).
    rewrite lower_upper in Hno. congruence. }
  destruct (location_utils.known_city location_name) as [r|] eqn:Ek.
  { destruct (known_city_answer _ _ Ek) as (c & a & Hin & Ha & ->).
    destruct (city_in_new_york _ _ Hin Hc) as [Hk Hname].
    rewrite Hk, new_york_airports in Ha. injection Ha as <-.
    rewrite Hname. reflexivity. }
  cbv zeta. unfold location_utils._cities.
  cbn [location_utils.partial_match]. rewrite Hc. simpl orb. cbv iota.
  rewrite new_york_airports. reflexivity.
Qed.

(** A blank, the letter "e" and "or" are all New York. *)
Lemma X24_fragments_of_new_york_witness :
  location_utils.find_iata_code " " = location_utils.Found "New York" "JFK"
  /\ location_utils.find_iata_code "e" = location_utils.Found "New York" "JFK"
  /\ location_utils.find_iata_code "OR" = location_utils.Found "New York" "JFK".
Proof.
  split; [|split].
  - exact (X24_fragments_of_new_york " " ltac:(discriminate) eq_refl).
  - exact (X24_fragments_of_new_york "e" ltac:(discriminate) eq_refl).
  - exact (X24_fragments_of_new_york "OR" ltac:(discriminate) eq_refl).
Defined.

(** ** The numeric prompt and the saved plan *)

(** X25.  The numeric prompt returns the first entry that lies in the
    range: the entries before it are all out of range, the entry returned is
    at least [min_value] and at most [max_value], and the prompt stays open
    exactly when no entry lies in the range. *)
Theorem X25_numeric_prompt_takes_the_first (min_value : Q)
    (max_value : option Q) (entries : list Q) :
  match input_utils.get_numeric_input min_value max_value entries with
  | Some num =>
      exists skipped rest,
        entries = skipped ++ num :: rest
        /\ Forall (fun e => input_utils.in_range min_value max_value e = false)
                  skipped
        /\ (min_value <= num)%Q
        /\ (forall m, max_value = Some m -> (num <= m)%Q)
  | None =>
      Forall (fun e => input_utils.in_range min_value max_value e = false)
             entries
  end.
Proof.
  induction entries as [|e es IH]; simpl; [constructor|].
  destruct (input_utils.in_range min_value max_value e) eqn:E.
  - exists [], es. split; [reflexivity|]. split; [constructor|].
    unfold input_utils.in_range in E. apply andb_true_iff in E as [E1 E2].
    split; [apply Qle_bool_iff; exact E1|].
    intros m ->. apply Qle_bool_iff. exact E2.
  - destruct (input_utils.get_numeric_input min_value max_value es) as [num|].
    + destruct IH as (skipped & rest & -> & Hs & Hrange).
      exists (e :: skipped), rest. split; [reflexivity|].
      split; [constructor; assumption|exact Hrange].
    + constructor; assumption.
Qed.

(** X18.  Saving what was loaded keeps the ten attributes and nothing else:
    for every dictionary read from a file that has none of the keys
    [__class__], [__dict__] and [__weakref__], [from_dict] returns a plan;
    when the dictionary has no key [to_dict] either, the call of [to_dict]
    on that plan returns a dictionary whose keys are the ten attributes in
    the order of the source and that holds, for each of them, the value of
    the file or else the default of [__init__]; loading and saving that
    dictionary again gives it back unchanged.  With a key [to_dict], the
    attribute hides the method and the call raises [TypeError]. *)
Theorem X18_saved_plan_has_ten_keys (data : plan_dict.dict) :
  Forall (fun item => fst item ∉ plan_dict.descriptor_names) data ->
  exists plan,
    plan_dict.from_dict data = Returns plan
    /\ (plan_dict.get data "to_dict" <> None ->
        plan_dict.call_to_dict plan = Raises TypeError)
    /\ (plan_dict.get data "to_dict" = None ->
        exists d,
          plan_dict.call_to_dict plan = Returns d
          /\ map fst d = plan_dict.field_names
          /\ (forall k, k ∈ plan_dict.field_names ->
                        plan_dict.get d k
                        = match plan_dict.get data k with
                          | Some v => Some v
                          | None => plan_dict.init !! k
                          end)
          /\ (forall k, k ∉ plan_dict.field_names ->
                        plan_dict.get d k = None)
          /\ exists plan',
               plan_dict.from_dict d = Returns plan'
               /\ plan_dict.call_to_dict plan' = Returns d).
Proof.
  intro Hplain.
  assert (Hmethod : "to_dict"%string ∉ plan_dict.field_names).
  { intro H. apply field_is_plain in H. destruct H as [_ H].
    exact (H eq_refl). }
  destruct (from_dict_plain data Hplain) as (plan & Hplan & Hlookup & Hfields).
  exists plan. split; [exact Hplan|]. split.
  - intro Hshadow. unfold plan_dict.call_to_dict. rewrite Hlookup.
    destruct (plan_dict.get data "to_dict"); [reflexivity|].
    exfalso. exact (Hshadow eq_refl).
  - intro Hfree.
    destruct (to_dict_returns plan Hfields)
      as (d & Hd & Hkeys & Hsame & Hother).
    exists d. split.
    { unfold plan_dict.call_to_dict.
      rewrite Hlookup, Hfree, (init_other _ Hmethod). exact Hd. }
    split; [exact Hkeys|].
    assert (Hval : forall k, k ∈ plan_dict.field_names ->
                             plan_dict.get d k
                             = match plan_dict.get data k with
                               | Some v => Some v
                               | None => plan_dict.init !! k
                               end).
    { intros k Hk. rewrite Forall_forall in Hsame.
      rewrite (Hsame k Hk). apply Hlookup. }
    split; [exact Hval|]. split; [exact Hother|].
    destruct (from_dict_plain d (fields_are_plain d Hkeys))
      as (plan' & Hplan' & Hlookup' & Hfields').
    exists plan'. split; [exact Hplan'|].
    destruct (to_dict_returns plan' Hfields')
      as (d' & Hd' & Hkeys' & Hsame' & Hother').
    unfold plan_dict.call_to_dict.
    rewrite Hlookup', (Hother _ Hmethod), (init_other _ Hmethod), Hd'.
    f_equal.
    assert (Hsnd : forall k, k ∈ plan_dict.field_names ->
                             plan_dict.get d' k = plan_dict.get d k).
    { intros k Hk. rewrite Forall_forall in Hsame'.
      rewrite (Hsame' k Hk), Hlookup'.
      rewrite Forall_forall in Hsame, Hfields.
      destruct (Hfields k Hk) as [v Hv]. rewrite <- (Hsame k Hk) in Hv.
      rewrite Hv. reflexivity. }
    clear - Hkeys Hkeys' Hsnd.
    destruct d as [|[k0 v0] [|[k1 v1] [|[k2 v2] [|[k3 v3] [|[k4 v4]
      [|[k5 v5] [|[k6 v6] [|[k7 v7] [|[k8 v8] [|[k9 v9] [|? ?]]]]]]]]]]];
      try discriminate Hkeys.
    destruct d' as [|[j0 w0] [|[j1 w1] [|[j2 w2] [|[j3 w3] [|[j4 w4]
      [|[j5 w5] [|[j6 w6] [|[j7 w7] [|[j8 w8] [|[j9 w9] [|? ?]]]]]]]]]]];
      try discriminate Hkeys'.
    injection Hkeys as -> -> -> -> -> -> -> -> -> ->.
    injection Hkeys' as -> -> -> -> -> -> -> -> -> ->.
    pose proof (Hsnd "total_budget"%string) as H0.
    pose proof (Hsnd "remaining_budget"%string) as H1.
    pose proof (Hsnd "departure"%string) as H2.
    pose proof (Hsnd "destination"%string) as H3.
    pose proof (Hsnd "departure_date"%string) as H4.
    pose proof (Hsnd "return_date"%string) as H5.
    pose proof (Hsnd "travelers"%string) as H6.
    pose proof (Hsnd "flights"%string) as H7.
    pose proof (Hsnd "hotels"%string) as H8.
    pose proof (Hsnd "activities"%string) as H9.
    clear Hsnd.
    repeat match goal with
           | H : _ ∈ plan_dict.field_names -> _ |- _ =>
               let E := fresh "E" in
               assert (E := H ltac:(apply list_elem_of_In; simpl; tauto));
               clear H; vm_compute in E; injection E as E
           end.
    subst. reflexivity.
Qed.

(** The file of the example names an attribute that is no attribute of a
    plan: it is not saved. *)
Lemma X18_saved_plan_has_ten_keys_witness :
  exists plan d,
    plan_dict.from_dict [("travelers"%string, plan_dict.VInt 2);
                         ("nickname"%string, plan_dict.VStr "x")]
    = Returns plan
    /\ plan_dict.call_to_dict plan = Returns d
    /\ plan_dict.get d "travelers" = Some (plan_dict.VInt 2)
    /\ plan_dict.get d "nickname" = None.
Proof.
  destruct (X18_saved_plan_has_ten_keys
              [("travelers"%string, plan_dict.VInt 2);
               ("nickname"%string, plan_dict.VStr "x")])
    as (plan & Hplan & _ & Hsave).
  { repeat constructor; simpl; intro H; apply list_elem_of_In in H;
      simpl in H; repeat (destruct H as [H|H]; [discriminate H|]);
      exact H. }
  destruct Hsave as (d & Hd & _ & Hval & Hother & _);
    [vm_compute; reflexivity|].
  exists plan, d. split; [exact Hplan|]. split; [exact Hd|]. split.
  - rewrite (Hval "travelers"%string).
    + vm_compute. reflexivity.
    + apply list_elem_of_In. simpl. tauto.
  - apply Hother. intro H. apply list_elem_of_In in H. simpl in H.
    repeat (destruct H as [H|H]; [discriminate H|]). exact H.
Defined.

(** ** The location prompt and the figures of the itinerary *)

(** X26.  The location prompt of the command line returns a location with
    a name and a code, and never raises: the location is either what
    [find_iata_code] found in its tables, or the upper-case form of a text
    of three letters that the user confirmed, taken for name and code alike.
    Such a confirmed text is returned without any look-up, whether or not
    the tables know an airport of that code. *)
Theorem X26_location_prompt (entries : list (string * string)) :
  (forall r,
     TravelPlannerCLI.get_location_input entries = Some r ->
     exists n i,
       r = location_utils.Found n i
       /\ ((exists line confirm,
              In (line, confirm) entries
              /\ String.length (py_str.strip line) = 3%nat
              /\ location_utils.isalpha (py_str.strip line) = true
              /\ n = location_utils.upper (py_str.strip line)
              /\ i = n)
           \/ from_the_tables r))
  /\ (forall line confirm,
        String.length (py_str.strip line) = 3%nat ->
        location_utils.isalpha (py_str.strip line) = true ->
        py_str.lower confirm = "y"%string ->
        TravelPlannerCLI.get_location_input ((line, confirm) :: entries)
        = Some (location_utils.Found (location_utils.upper (py_str.strip line))
                                     (location_utils.upper (py_str.strip line)))).
Proof.
  split.
  - induction entries as [|[line confirm] rest IH]; intros r H;
      cbn [TravelPlannerCLI.get_location_input] in H; [discriminate|].
    cbv zeta in H.
    assert (Hrest : TravelPlannerCLI.get_location_input rest = Some r ->
                    exists n i,
                      r = location_utils.Found n i
                      /\ ((exists line0 confirm0,
                             In (line0, confirm0) ((line, confirm) :: rest)
                             /\ String.length (py_str.strip line0) = 3%nat
                             /\ location_utils.isalpha (py_str.strip line0) = true
                             /\ n = location_utils.upper (py_str.strip line0)
                             /\ i = n)
                          \/ from_the_tables r)).
    { intro Hr. destruct (IH r Hr) as (n & i & -> & [Hc|Ht]).
      - destruct Hc as (l0 & c0 & Hin & Hrest').
        exists n, i. split; [reflexivity|]. left.
        exists l0, c0. split; [right; exact Hin|exact Hrest'].
      - exists n, i. split; [reflexivity|]. right. exact Ht. }
    destruct (String.eqb (py_str.strip line) ""); [exact (Hrest H)|].
    destruct ((String.length (py_str.strip line) =? 3)%nat
              && location_utils.isalpha (py_str.strip line)
              && String.eqb (py_str.lower confirm) "y") eqn:Ec.
    + injection H as <-.
      apply andb_true_iff in Ec as [Ec _].
      apply andb_true_iff in Ec as [Hlen Halpha].
      apply Nat.eqb_eq in Hlen.
      eexists _, _. split; [reflexivity|]. left.
      exists line, confirm. split; [left; reflexivity|].
      repeat split; assumption.
    + pose proof (find_iata_code_from_the_tables (py_str.strip line)) as Ht.
      destruct (location_utils.find_iata_code (py_str.strip line))
        as [n i| |] eqn:Ef.
      * injection H as <-. exists n, i. split; [reflexivity|]. right. exact Ht.
      * exact (Hrest H).
      * destruct Ht.
  - intros line confirm Hlen Halpha Hy.
    cbn [TravelPlannerCLI.get_location_input]. cbv zeta.
    assert (Hne : String.eqb (py_str.strip line) "" = false)
      by (destruct (py_str.strip line); [discriminate Hlen|reflexivity]).
    rewrite Hne, Hlen, Halpha, Hy. reflexivity.
Qed.

(** "xyz" is no airport of the tables, but confirmed it is taken as one. *)
Lemma X26_location_prompt_witness :
  location_utils.find_iata_code "xyz" = location_utils.NotFound
  /\ TravelPlannerCLI.get_location_input [(" xyz ", "Y"); ("Paris", "")]
     = Some (location_utils.Found "XYZ" "XYZ").
Proof.
  split; [reflexivity|].
  exact (proj2 (X26_location_prompt [("Paris", "")]%string) " xyz "%string
               "Y"%string eq_refl eq_refl eq_refl).
Defined.

Lemma share_shown (cost total : Q) :
  ~ (total == 0)%Q ->
  exists s,
    TravelPlannerCLI.share cost total = Returns s
    /\ ((0 <= cost)%Q -> (shown s == cost / total * 100)%Q).
Proof.
  intros Ht. unfold TravelPlannerCLI.share.
  destruct (Qle_bool cost 0) eqn:E; simpl.
  - exists None. split; [reflexivity|]. intro Hc. simpl.
    apply Qle_bool_iff in E.
    assert (H0 : (cost == 0)%Q) by (apply Qle_antisym; assumption).
    rewrite H0. field. exact Ht.
  - rewrite (py_div_returns _ _ Ht). simpl.
    eexists. split; [reflexivity|]. intros _. reflexivity.
Qed.

(** X27.  The figures of the full itinerary: the display never divides by
    zero; the total it prints is the amount [calculate_remaining_budget]
    would subtract, so that on a balanced plan the total spent and the
    remaining budget add up to the total budget; and when no booking has a
    negative price and something has been spent, the percentages of the
    expense breakdown that are shown add up to 100. *)
Theorem X27_itinerary_figures (p : TravelPlan) :
  exists f,
    TravelPlannerCLI.display_full_itinerary p = Returns f
    /\ (TravelPlannerCLI.total_spent f == spent p)%Q
    /\ (session.ledger p ->
        (TravelPlannerCLI.total_spent f + remaining_budget p
         == total_budget p)%Q)
    /\ ((0 <= price_of_flight (flights p))%Q ->
        (0 <= price_of_hotel (hotels p))%Q ->
        (0 <= activities_total (activities p))%Q ->
        (0 < TravelPlannerCLI.total_spent f)%Q ->
        (shown (TravelPlannerCLI.flight_percent f)
         + shown (TravelPlannerCLI.hotel_percent f)
         + shown (TravelPlannerCLI.activity_percent f) == 100)%Q).
Proof.
  unfold TravelPlannerCLI.display_full_itinerary.
  set (fc := price_of_flight (flights p)).
  set (hc := price_of_hotel (hotels p)).
  set (ac := activities_total (activities p)).
  assert (Hspent : (fc + hc + ac == spent p)%Q)
    by (rewrite spent_sum; reflexivity).
  assert (Hused : exists u,
            (if negb (Qle_bool (total_budget p) 0)
             then let* ratio := py_div (fc + hc + ac) (total_budget p) in
                  Returns (ratio * 100)%Q
             else Returns 0%Q) = Returns u).
  { destruct (Qle_bool (total_budget p) 0) eqn:E; simpl.
    - eexists. reflexivity.
    - apply Qle_bool_false in E.
      rewrite py_div_returns; [eexists; reflexivity|].
      intro H0. rewrite H0 in E. exact (Qlt_irrefl _ E). }
  destruct Hused as [u Hu]. rewrite Hu. cbn [bind].
  destruct (Qle_bool (fc + hc + ac) 0) eqn:Et; simpl negb; cbv iota.
  - eexists. split; [reflexivity|]. cbn [TravelPlannerCLI.total_spent].
    split; [exact Hspent|]. split.
    + intro Hl. unfold session.ledger in Hl. rewrite Hl, <- Hspent. ring.
    + intros _ _ _ Hpos. apply Qle_bool_iff in Et.
      exfalso. exact (Qlt_not_le _ _ Hpos Et).
  - apply Qle_bool_false in Et.
    assert (Hne : ~ (fc + hc + ac == 0)%Q).
    { intro H0. rewrite H0 in Et. exact (Qlt_irrefl _ Et). }
    destruct (share_shown fc _ Hne) as (s1 & E1 & H1).
    destruct (share_shown hc _ Hne) as (s2 & E2 & H2).
    destruct (share_shown ac _ Hne) as (s3 & E3 & H3).
    rewrite E1, E2, E3. cbn [bind].
    eexists. split; [reflexivity|].
    cbn [TravelPlannerCLI.total_spent TravelPlannerCLI.flight_percent
         TravelPlannerCLI.hotel_percent TravelPlannerCLI.activity_percent].
    split; [exact Hspent|]. split.
    + intro Hl. unfold session.ledger in Hl. rewrite Hl, <- Hspent. ring.
    + intros Hf Hh Ha _. rewrite (H1 Hf), (H2 Hh), (H3 Ha).
      field. exact Hne.
Qed.

(** On [three_activities] 1560 has been spent: 440 are left of 2000, and
    the three lines of the breakdown add up to 100. *)
Lemma X27_itinerary_figures_witness :
  exists f,
    TravelPlannerCLI.display_full_itinerary three_activities = Returns f
    /\ (TravelPlannerCLI.total_spent f == 1560)%Q
    /\ (TravelPlannerCLI.total_spent f + 440 == 2000)%Q
    /\ (shown (TravelPlannerCLI.flight_percent f)
        + shown (TravelPlannerCLI.hotel_percent f)
        + shown (TravelPlannerCLI.activity_percent f) == 100)%Q.
Proof.
  destruct (X27_itinerary_figures three_activities)
    as (f & Hf & Hs & Hl & Hp).
  exists f. split; [exact Hf|].
  assert (Hspent : (TravelPlannerCLI.total_spent f == 1560)%Q)
    by (rewrite Hs; vm_compute; reflexivity).
  split; [exact Hspent|]. split.
  - exact (Hl ltac:(vm_compute; reflexivity)).
  - apply Hp; try (vm_compute; discriminate).
    rewrite Hspent. vm_compute. reflexivity.
Defined.
